(** * Hybrid TCP/UDP network simulation: transport core

    A shallow embedding of the OMNeT++ modules under [src/Modules]
    ([helpers.h], [pc.cc], [http.cc], [dns.cc], [router.cc]) and the
    properties of the link transmitter, the SYN cookies, the SYN-flood
    limiter, the key exchange, the TCP teardown, the congestion window and
    the router's control and forwarding planes.

    Conventions of the embedding.
    - [long] and [int] are 64- and 32-bit two's complement integers: values
      are [Z] and the places where the source can leave the range carry an
      explicit [wrap64] / [wrap32].
    - [simtime_t] is OMNeT++'s fixed-point time: an integer number of ticks
      ([Z]); [second] is the number of ticks in one simulated second.
    - [double] is idealised as exact rational arithmetic ([Q]); rounding,
      infinities and NaN are not modelled.
    - [std::map<long, T>] is [gmap Z T]; [std::string] is [string] (any
      byte may occur, including NUL).
    - A handler that reads a missing message parameter raises
      [cRuntimeError] in OMNeT++; the embedding returns [None] there. *)

From Stdlib Require Import ZArith QArith Qround Lia Lqa Bool Ascii String List HexString DecimalString.
From stdpp Require Import gmap strings list.

Local Open Scope Z_scope.

(** ** Machine integers and simulation time *)

Definition wrap64 (z : Z) : Z := (z + 2 ^ 63) mod 2 ^ 64 - 2 ^ 63.
Definition wrap32 (z : Z) : Z := (z + 2 ^ 31) mod 2 ^ 32 - 2 ^ 31.

Definition simtime_t : Type := Z.

(** OMNeT++'s default time resolution is one picosecond. *)
Definition second : Z := 1000000000000.

(** [SimTime(double)]: a number of seconds converted to ticks (truncated). *)
Definition SimTime (d : Q) : simtime_t := Qfloor (d * inject_Z second).

(** [x < y] on doubles. *)
Definition Qltb (x y : Q) : bool := negb (Qle_bool y x).

(** ** Wire messages ([helpers.h]) *)

Definition DNS_QUERY : Z := 10.
Definition DNS_RESPONSE : Z := 11.
Definition HTTP_GET : Z := 20.
Definition HTTP_RESPONSE : Z := 21.
Definition TCP_SYN : Z := 30.
Definition TCP_SYN_ACK : Z := 31.
Definition TCP_ACK : Z := 32.
Definition TCP_DATA : Z := 33.
Definition TCP_FIN : Z := 34.
Definition UDP_DATA : Z := 40.
Definition KEY_EXCHANGE : Z := 50.
Definition ENCRYPTED_DATA : Z := 51.
Definition OSPF_HELLO : Z := 60.
Definition OSPF_LSA : Z := 61.
Definition OSPF_TE_UPDATE : Z := 62.
Definition RIP_UPDATE : Z := 63.
Definition RIP_REQUEST : Z := 64.

Definition PRIORITY_LOW : Z := 0.
Definition PRIORITY_NORMAL : Z := 1.
Definition PRIORITY_HIGH : Z := 2.
Definition PRIORITY_CRITICAL : Z := 3.

Inductive TCPState : Type :=
  | TCP_CLOSED | TCP_LISTEN | TCP_SYN_SENT | TCP_SYN_RECEIVED | TCP_ESTABLISHED
  | TCP_FIN_WAIT | TCP_CLOSE_WAIT | TCP_CLOSING | TCP_TIME_WAIT.

Record RouteEntry : Type := mkRouteEntry {
  destAddr : Z;
  nextHop : Z;
  metric : Q;
  re_bandwidth : Q;
  re_delay : Q;
  hopCount : Z;
  lastUpdate : simtime_t
}.

Record LinkState : Type := mkLinkState {
  ls_routerId : Z;
  ls_linkId : Z;
  ls_cost : Q;
  ls_bandwidth : Q;
  ls_delay : Q;
  ls_timestamp : simtime_t
}.

Record TCPConnection : Type := mkTCPConnection {
  remoteAddr : Z;
  state : TCPState;
  sendSeq : Z;
  recvSeq : Z;
  conn_cwnd : Q;
  conn_ssthresh : Q;
  rtt : simtime_t;
  lastSent : simtime_t;
  sharedKey : string
}.

(** The default constructor [TCPConnection()]. *)
Definition TCPConnection_default : TCPConnection :=
  {| remoteAddr := 0; state := TCP_CLOSED; sendSeq := 0; recvSeq := 0;
     conn_cwnd := 1; conn_ssthresh := 64; rtt := 0; lastSent := 0;
     sharedKey := EmptyString |}.

(** The typed attribute bag of a [cMessage]. *)
Inductive ParVal : Type :=
  | PLong (z : Z)
  | PDouble (q : Q)
  | PBool (b : bool)
  | PString (s : string).

(** A frame.  [src], [dst], [seq], [ack] and [priority] are parameters that
    [mk] adds to every frame, so they are fields here; the parameters a
    sender adds afterwards live in [pars]. *)
Record Frame : Type := mkFrame {
  name : string;
  kind : Z;
  SRC : Z;
  DST : Z;
  SEQ : Z;
  ACK : Z;
  PRIORITY : Z;
  byteLength : Z;
  pars : list (string * ParVal)
}.

Definition mk (nm : string) (k src dst : Z) : Frame :=
  {| name := nm; kind := k; SRC := src; DST := dst; SEQ := 0; ACK := 0;
     PRIORITY := PRIORITY_NORMAL; byteLength := 1000; pars := [] |}.

Definition set_seq (v : Z) (m : Frame) : Frame :=
  {| name := name m; kind := kind m; SRC := SRC m; DST := DST m; SEQ := v;
     ACK := ACK m; PRIORITY := PRIORITY m; byteLength := byteLength m;
     pars := pars m |}.

Definition set_ack (v : Z) (m : Frame) : Frame :=
  {| name := name m; kind := kind m; SRC := SRC m; DST := DST m; SEQ := SEQ m;
     ACK := v; PRIORITY := PRIORITY m; byteLength := byteLength m;
     pars := pars m |}.

Definition set_priority (v : Z) (m : Frame) : Frame :=
  {| name := name m; kind := kind m; SRC := SRC m; DST := DST m; SEQ := SEQ m;
     ACK := ACK m; PRIORITY := v; byteLength := byteLength m;
     pars := pars m |}.

(** The helper [PRIORITY(m)] of [helpers.h]: it returns the parameter
    "priority", a [long], as an [int].  (The field [PRIORITY] of a frame is
    the parameter itself; [SRC], [DST], [SEQ] and [ACK] return [long].) *)
Definition PRIORITY_int (m : Frame) : Z := wrap32 (PRIORITY m).

Fixpoint par_lookup (key : string) (l : list (string * ParVal)) : option ParVal :=
  match l with
  | [] => None
  | (k, v) :: rest => if String.eqb k key then Some v else par_lookup key rest
  end.

Fixpoint par_update (key : string) (v : ParVal) (l : list (string * ParVal))
  : list (string * ParVal) :=
  match l with
  | [] => [(key, v)]
  | (k, w) :: rest =>
      if String.eqb k key then (k, v) :: rest else (k, w) :: par_update key v rest
  end.

(** [m->addPar(key).setXValue(v)] and [m->par(key).setXValue(v)]. *)
Definition set_par (key : string) (v : ParVal) (m : Frame) : Frame :=
  {| name := name m; kind := kind m; SRC := SRC m; DST := DST m; SEQ := SEQ m;
     ACK := ACK m; PRIORITY := PRIORITY m; byteLength := byteLength m;
     pars := par_update key v (pars m) |}.

Definition hasPar (key : string) (m : Frame) : bool :=
  match par_lookup key (pars m) with Some _ => true | None => false end.

(** The typed readers.  A parameter that is missing, or that was written
    at another type, gives no value (the senders of this repository always
    write the type that the receivers read). *)
Definition par_long (key : string) (m : Frame) : option Z :=
  match par_lookup key (pars m) with Some (PLong z) => Some z | _ => None end.

Definition par_double (key : string) (m : Frame) : option Q :=
  match par_lookup key (pars m) with Some (PDouble q) => Some q | _ => None end.

Definition par_bool (key : string) (m : Frame) : option bool :=
  match par_lookup key (pars m) with Some (PBool b) => Some b | _ => None end.

Definition par_string (key : string) (m : Frame) : option string :=
  match par_lookup key (pars m) with Some (PString s) => Some s | _ => None end.

(** ** SYN cookies ([helpers.h]) *)

Definition secret : Z := 0x5EED.

Definition generateSYNCookie (src dst seq : Z) : Z :=
  Z.lor (Z.land (Z.lxor (Z.lxor (Z.lxor src dst) seq) secret) 0xFFFFFF)
        (wrap64 (Z.shiftl seq 24)).

Definition validateSYNCookie (cookie src dst seq : Z) : bool :=
  let expected := generateSYNCookie src dst seq in
  Z.land cookie 0xFFFFFF =? Z.land expected 0xFFFFFF.

(** ** XOR "encryption" ([helpers.h]) *)

Definition xor_char (a b : ascii) : ascii :=
  match a, b with
  | Ascii a0 a1 a2 a3 a4 a5 a6 a7, Ascii b0 b1 b2 b3 b4 b5 b6 b7 =>
      Ascii (xorb a0 b0) (xorb a1 b1) (xorb a2 b2) (xorb a3 b3)
            (xorb a4 b4) (xorb a5 b5) (xorb a6 b6) (xorb a7 b7)
  end.

Definition char_AA : ascii := ascii_of_N 0xAA.

(** The loop of [simpleEncrypt] from index [i] on; [data] is the part of the
    input not yet consumed.  With an empty key, [i % key.length()] divides by
    zero: the result is [None]. *)
Fixpoint encrypt_from (key : string) (i : nat) (data : string) : option string :=
  match data with
  | EmptyString => Some EmptyString
  | String c rest =>
      match String.get (i mod String.length key) key with
      | Some k =>
          match encrypt_from key (S i) rest with
          | Some out => Some (String (xor_char (xor_char c k) char_AA) out)
          | None => None
          end
      | None => None
      end
  end.

Definition simpleEncrypt (data key : string) : option string :=
  encrypt_from key 0 data.

Definition simpleDecrypt (data key : string) : option string :=
  simpleEncrypt data key.

(** [std::string::c_str()] read back as a C string: the bytes before the
    first NUL. *)
Fixpoint c_str (s : string) : string :=
  match s with
  | EmptyString => EmptyString
  | String c rest => if Ascii.eqb c zero then EmptyString else String c (c_str rest)
  end.

(** ** Key exchange helpers ([helpers.h]) *)

(** [ss << hex << v] for a [long]: the lowercase digits of the 64-bit
    two's complement pattern. *)
Definition hex_of_long (v : Z) : string :=
  match v mod 2 ^ 64 with
  | Zpos p => HexString.Raw.of_pos p EmptyString
  | _ => "0"%string
  end.

Definition generateECDHPublicKey (address : Z) : string :=
  hex_of_long (wrap64 (address * 0x12345 + 0x6789ABCD)).

(** One byte of the shared secret: [(char)((c ^ 0x5A) + i)]. *)
Definition secret_char (c : ascii) (i : nat) : ascii :=
  ascii_of_N ((N.lxor (N_of_ascii c) 0x5A + N.of_nat i) mod 256).

Fixpoint secret_from (combined : string) (i n : nat) : option string :=
  match n with
  | O => Some EmptyString
  | S n' =>
      match String.get (i mod String.length combined) combined with
      | Some c =>
          match secret_from combined (S i) n' with
          | Some out => Some (String (secret_char c i) out)
          | None => None
          end
      | None => None
      end
  end.

(** [None] when both keys are empty ([i % combined.length()] divides by
    zero). *)
Definition computeSharedSecret (myPrivate theirPublic : string) : option string :=
  secret_from (myPrivate ++ theirPublic)%string 0 16.

(** ** Handler effects

    The calls a handler makes on the simulator, in program order. *)
Inductive Action : Type :=
  | SendOnGate (m : Frame)                    (* sendPacketOnGate(m) *)
  | SendDelayed (m : Frame) (d : simtime_t).  (* sendDelayed(m, d, "ppp$o") *)

(** ** The link transmitter of an endpoint ([pc.cc], [http.cc], [dns.cc])

    [sendPacketOnGate] and [startTransmission] have the same text in the
    client and in the servers; they are embedded once. *)
Module Link.

(** One occupation of the channel: the frame is on the wire during
    [[tx_start, tx_finish)]. *)
Record Transmission : Type := mkTransmission {
  tx_start : simtime_t;
  tx_finish : simtime_t;
  tx_frame : Frame
}.

(** The transmission channel of the output gate: its busy-until time
    ([getTransmissionFinishTime()]) and the history of what was put on it,
    most recent first. *)
Record Channel : Type := mkChannel {
  txFinishTime : simtime_t;
  wire : list Transmission
}.

Record Transmitter : Type := mkTransmitter {
  txQueue : list Frame;
  endTxEvent : option simtime_t;   (* [None] is [nullptr]; [Some t]: scheduled at [t] *)
  channel : Channel
}.

Definition idle_channel : Channel := {| txFinishTime := 0; wire := [] |}.

Definition init : Transmitter :=
  {| txQueue := []; endTxEvent := None; channel := idle_channel |}.

(** The channel starts serialising [m] at time [t]; [dur m] is the time the
    frame occupies the channel (bit length over data rate). *)
Definition channel_send (dur : Frame -> simtime_t) (t : simtime_t) (m : Frame)
    (ch : Channel) : Channel :=
  {| txFinishTime := t + dur m;
     wire := {| tx_start := t; tx_finish := t + dur m; tx_frame := m |} :: wire ch |}.

Definition startTransmission (dur : Frame -> simtime_t) (now : simtime_t)
    (msg : Frame) (tx : Transmitter) : Transmitter :=
  let ch := channel_send dur now msg (channel tx) in
  let finishTime := txFinishTime ch in
  (* a fresh endTx message, or the old one cancelled; scheduled either way *)
  {| txQueue := txQueue tx; endTxEvent := Some finishTime; channel := ch |}.

Definition enqueue (msg : Frame) (tx : Transmitter) : Transmitter :=
  {| txQueue := txQueue tx ++ [msg]; endTxEvent := endTxEvent tx;
     channel := channel tx |}.

Definition sendPacketOnGate (dur : Frame -> simtime_t) (now : simtime_t)
    (msg : Frame) (tx : Transmitter) : Transmitter :=
  let finishTime := txFinishTime (channel tx) in
  if now <? finishTime then enqueue msg tx
  else match endTxEvent tx with
       | Some _ => enqueue msg tx
       | None => startTransmission dur now msg tx
       end.

(** The branch [msg == endTxEvent] of the self-message handlers. *)
Definition handleEndTx (dur : Frame -> simtime_t) (now : simtime_t)
    (tx : Transmitter) : Transmitter :=
  match txQueue tx with
  | [] => {| txQueue := []; endTxEvent := None; channel := channel tx |}
  | nextMsg :: rest =>
      startTransmission dur now nextMsg
        {| txQueue := rest; endTxEvent := None; channel := channel tx |}
  end.

(** [sendDelayed(m, d, "ppp$o")] hands the frame to the channel for time
    [now + d] without consulting the transmitter.  (OMNeT++ stops the
    simulation with an error when the channel is still busy at [now + d];
    here the history records both transmissions.) *)
Definition sendDelayed (dur : Frame -> simtime_t) (now : simtime_t)
    (msg : Frame) (d : simtime_t) (tx : Transmitter) : Transmitter :=
  {| txQueue := txQueue tx; endTxEvent := endTxEvent tx;
     channel := channel_send dur (now + d) msg (channel tx) |}.

Definition perform (dur : Frame -> simtime_t) (now : simtime_t)
    (tx : Transmitter) (a : Action) : Transmitter :=
  match a with
  | SendOnGate m => sendPacketOnGate dur now m tx
  | SendDelayed m d => sendDelayed dur now m d tx
  end.

Definition perform_all (dur : Frame -> simtime_t) (now : simtime_t)
    (acts : list Action) (tx : Transmitter) : Transmitter :=
  fold_left (perform dur now) acts tx.

(** Frames on the wire at instant [t]. *)
Definition on_wire (t : simtime_t) (x : Transmission) : bool :=
  (tx_start x <=? t) && (t <? tx_finish x).

Definition in_transmission (t : simtime_t) (ch : Channel) : list Transmission :=
  List.filter (on_wire t) (wire ch).

(** What the scheduler may deliver to a node whose only sender is the
    transmitter: a call of [sendPacketOnGate] at a time that is not in the
    past and not after a pending end-of-transmission event, or that pending
    event at its time. *)
Inductive reachable (dur : Frame -> simtime_t) : simtime_t -> Transmitter -> Prop :=
  | reach_init : reachable dur 0 init
  | reach_send now tx t m :
      reachable dur now tx ->
      now <= t ->
      (forall te, endTxEvent tx = Some te -> t <= te) ->
      reachable dur t (sendPacketOnGate dur t m tx)
  | reach_endTx now tx te :
      reachable dur now tx ->
      endTxEvent tx = Some te ->
      reachable dur te (handleEndTx dur te tx).

End Link.

(** ** The client ([pc.cc]) *)
Module PC.

Record t : Type := mkPC {
  addr : Z;
  dnsAddr : Z;
  tcpConnections : gmap Z TCPConnection;
  myPublicKey : string;
  myPrivateKey : string;
  sharedKeys : gmap Z string;
  cwnd : Q;
  ssthresh : Q;
  dupAckCount : Z
}.

Definition with_tcpConnections (c : gmap Z TCPConnection) (s : t) : t :=
  {| addr := addr s; dnsAddr := dnsAddr s; tcpConnections := c;
     myPublicKey := myPublicKey s; myPrivateKey := myPrivateKey s;
     sharedKeys := sharedKeys s; cwnd := cwnd s; ssthresh := ssthresh s;
     dupAckCount := dupAckCount s |}.

Definition with_sharedKeys (k : gmap Z string) (s : t) : t :=
  {| addr := addr s; dnsAddr := dnsAddr s; tcpConnections := tcpConnections s;
     myPublicKey := myPublicKey s; myPrivateKey := myPrivateKey s;
     sharedKeys := k; cwnd := cwnd s; ssthresh := ssthresh s;
     dupAckCount := dupAckCount s |}.

Definition with_congestion (w th : Q) (d : Z) (s : t) : t :=
  {| addr := addr s; dnsAddr := dnsAddr s; tcpConnections := tcpConnections s;
     myPublicKey := myPublicKey s; myPrivateKey := myPrivateKey s;
     sharedKeys := sharedKeys s; cwnd := w; ssthresh := th;
     dupAckCount := d |}.

(** [initialize()]: the state before the start event. *)
Definition initialize (address dns : Z) : t :=
  {| addr := address; dnsAddr := dns; tcpConnections := ∅;
     myPublicKey := generateECDHPublicKey (wrap32 (address * 2));
     myPrivateKey := generateECDHPublicKey address;
     sharedKeys := ∅; cwnd := 1; ssthresh := 64; dupAckCount := 0 |}.

(** The window after an ACK.  [rnd] stands for the rounding of one double
    operation; the handler takes it to be exact. *)
Definition window_after_ack (rnd : Q -> Q) (w th : Q) : Q :=
  if Qltb w th
  then rnd (w * 2)%Q               (* slow start *)
  else rnd (w + rnd (1 / w))%Q.    (* congestion avoidance *)

Definition handleTCPAck (s : t) (msg : Frame) : t * list Action :=
  let cwnd' := window_after_ack (fun x => x) (cwnd s) (ssthresh s) in
  (with_congestion cwnd' (ssthresh s) 0 s, []).

Definition handleCongestionTimeout (s : t) : t :=
  with_congestion 1 (cwnd s / 2)%Q 0 s.

(** [tcpConnections[peerAddr]]: the entry, default-constructed when absent. *)
Definition conn_at (peerAddr : Z) (s : t) : TCPConnection :=
  default TCPConnection_default (tcpConnections s !! peerAddr).

Definition set_state (st : TCPState) (c : TCPConnection) : TCPConnection :=
  {| remoteAddr := remoteAddr c; state := st; sendSeq := sendSeq c;
     recvSeq := recvSeq c; conn_cwnd := conn_cwnd c;
     conn_ssthresh := conn_ssthresh c; rtt := rtt c; lastSent := lastSent c;
     sharedKey := sharedKey c |}.

Definition handleTCPFin (s : t) (msg : Frame) : t * list Action :=
  let peerAddr := SRC msg in
  let finAck := set_priority PRIORITY_NORMAL (mk "TCP_FIN" TCP_FIN (addr s) peerAddr) in
  let conns := <[peerAddr := set_state TCP_CLOSED (conn_at peerAddr s)]> (tcpConnections s) in
  (with_tcpConnections conns s, [SendOnGate finAck]).

Definition handleKeyExchange (s : t) (msg : Frame) : option (t * list Action) :=
  let peerAddr := SRC msg in
  match par_string "publicKey" msg with
  | None => None
  | Some peerPublicKey =>
      match computeSharedSecret (myPrivateKey s) peerPublicKey with
      | None => None
      | Some sharedSecret =>
          let response :=
            set_priority PRIORITY_HIGH
              (set_par "publicKey" (PString (myPublicKey s))
                 (mk "KEY_EXCHANGE" KEY_EXCHANGE (addr s) peerAddr)) in
          Some (with_sharedKeys (<[peerAddr := sharedSecret]> (sharedKeys s)) s,
                [SendOnGate response])
      end
  end.

(** The request with its payload field replaced by the XOR encryption
    when a key is held for the peer. *)
Definition attach_encrypted (key : option string) (field plain : string) (m : Frame)
  : option Frame :=
  match key with
  | None => Some m
  | Some k =>
      encrypted ← simpleEncrypt plain k;
      Some (set_par "encrypted" (PBool true)
              (set_par field (PString (c_str encrypted)) m))
  end.

Definition bump_sendSeq (c : TCPConnection) : TCPConnection :=
  {| remoteAddr := remoteAddr c; state := state c; sendSeq := wrap64 (sendSeq c + 1);
     recvSeq := recvSeq c; conn_cwnd := conn_cwnd c;
     conn_ssthresh := conn_ssthresh c; rtt := rtt c; lastSent := lastSent c;
     sharedKey := sharedKey c |}.

Definition sendHTTPDataTCP (s : t) (httpAddr : Z) : option (t * list Action) :=
  let c := conn_at httpAddr s in
  let get0 :=
    set_priority PRIORITY_NORMAL
      (set_seq (sendSeq c)
         (set_par "path" (PString "/") (mk "HTTP_GET" TCP_DATA (addr s) httpAddr))) in
  get ← attach_encrypted (sharedKeys s !! httpAddr) "path" "/" get0;
  Some (with_tcpConnections (<[httpAddr := bump_sendSeq c]> (tcpConnections s)) s,
        [SendOnGate get]).

Definition sendHTTPRequestUDP (s : t) (httpAddr : Z) : option (list Action) :=
  let get0 :=
    set_priority PRIORITY_NORMAL
      (set_par "path" (PString "/") (mk "HTTP_GET" UDP_DATA (addr s) httpAddr)) in
  get ← attach_encrypted (sharedKeys s !! httpAddr) "path" "/" get0;
  Some [SendOnGate get].

Definition initiateKeyExchange (s : t) (peerAddr : Z) : list Action :=
  [SendOnGate
     (set_priority PRIORITY_HIGH
        (set_par "publicKey" (PString (myPublicKey s))
           (mk "KEY_EXCHANGE" KEY_EXCHANGE (addr s) peerAddr)))].

(** *** The rest of the client's handlers

    [qname] and [protocol] are the module parameters [dnsQuery] and
    [protocol]; [seq] is the draw of [intuniform(1000, 9999)] of a handler
    that opens a connection. *)

(** [msg->hasPar("encrypted") && msg->par("encrypted").boolValue()]. *)
Definition isEncrypted (msg : Frame) : option bool :=
  if hasPar "encrypted" msg then par_bool "encrypted" msg else Some false.

(** [if (encrypted && sharedKeys.find(peer) != end) simpleDecrypt(text, key)]:
    the text the handler goes on with. *)
Definition decrypt_if (enc : bool) (key : option string) (text : string)
  : option string :=
  match key with
  | Some k => if enc then simpleDecrypt text k else Some text
  | None => Some text
  end.

Definition syn_frame (s : t) (peer seq prio : Z) : Frame :=
  set_par "synCookie" (PLong (generateSYNCookie (addr s) peer seq))
    (set_priority prio (set_seq seq (mk "TCP_SYN" TCP_SYN (addr s) peer))).

Definition syn_sent (peer seq : Z) (now : simtime_t) : TCPConnection :=
  {| remoteAddr := peer; state := TCP_SYN_SENT; sendSeq := wrap64 (seq + 1);
     recvSeq := 0; conn_cwnd := 1; conn_ssthresh := 64; rtt := 0;
     lastSent := now; sharedKey := EmptyString |}.

Definition sendHTTPRequestTCP (s : t) (now : simtime_t) (seq httpAddr : Z)
  : t * list Action :=
  (with_tcpConnections (<[httpAddr := syn_sent httpAddr seq now]> (tcpConnections s)) s,
   [SendOnGate (syn_frame s httpAddr seq PRIORITY_NORMAL)]).

Definition sendDBRequestTCP (s : t) (now : simtime_t) (seq dbAddr : Z)
  : t * list Action :=
  (with_tcpConnections (<[dbAddr := syn_sent dbAddr seq now]> (tcpConnections s)) s,
   [SendOnGate (syn_frame s dbAddr seq PRIORITY_NORMAL)]).

Definition sendDNSQueryUDP (qname : string) (s : t) : option (list Action) :=
  let query0 :=
    set_par "protocol" (PString "UDP")
      (set_priority PRIORITY_HIGH
         (set_par "qname" (PString (c_str qname))
            (mk "DNS_QUERY" DNS_QUERY (addr s) (dnsAddr s)))) in
  query ← attach_encrypted (sharedKeys s !! dnsAddr s) "qname" qname query0;
  Some [SendOnGate query].

Definition sendDNSDataTCP (qname : string) (s : t) (peerAddr : Z)
  : option (t * list Action) :=
  let c := conn_at peerAddr s in
  let data0 :=
    set_priority PRIORITY_NORMAL
      (set_seq (sendSeq c)
         (set_par "qname" (PString (c_str qname))
            (mk "DNS_QUERY" TCP_DATA (addr s) peerAddr))) in
  data ← attach_encrypted (sharedKeys s !! peerAddr) "qname" qname data0;
  Some (with_tcpConnections (<[peerAddr := bump_sendSeq c]> (tcpConnections s)) s,
        [SendOnGate data]).

Definition sendDBQueryTCP (s : t) (dbAddr : Z) : option (t * list Action) :=
  let c := conn_at dbAddr s in
  let query0 :=
    set_priority PRIORITY_NORMAL
      (set_seq (sendSeq c)
         (set_par "query" (PString "SELECT * FROM users")
            (mk "DB_QUERY" TCP_DATA (addr s) dbAddr))) in
  query ← attach_encrypted (sharedKeys s !! dbAddr) "query" "SELECT * FROM users" query0;
  Some (with_tcpConnections (<[dbAddr := bump_sendSeq c]> (tcpConnections s)) s,
        [SendOnGate query]).

Definition establish (recv : Z) (c : TCPConnection) : TCPConnection :=
  {| remoteAddr := remoteAddr c; state := TCP_ESTABLISHED; sendSeq := sendSeq c;
     recvSeq := recv; conn_cwnd := conn_cwnd c; conn_ssthresh := conn_ssthresh c;
     rtt := rtt c; lastSent := lastSent c; sharedKey := sharedKey c |}.

Definition handleTCPSynAck (qname : string) (s : t) (msg : Frame)
  : option (t * list Action) :=
  let peerAddr := SRC msg in
  let seq := SEQ msg in
  match tcpConnections s !! peerAddr with
  | Some c =>
      match state c with
      | TCP_SYN_SENT =>
          cookie ← par_long "synCookie" msg;
          if validateSYNCookie cookie peerAddr (addr s) seq then
            let ack :=
              set_priority PRIORITY_HIGH
                (set_ack (wrap64 (seq + 1))
                   (set_seq (sendSeq c) (mk "TCP_ACK" TCP_ACK (addr s) peerAddr))) in
            let s1 :=
              with_tcpConnections
                (<[peerAddr := establish (wrap64 (seq + 1)) c]> (tcpConnections s)) s in
            '(s2, acts) ←
              (if peerAddr =? dnsAddr s then sendDNSDataTCP qname s1 peerAddr
               else if peerAddr =? 601 then sendDBQueryTCP s1 peerAddr
               else sendHTTPDataTCP s1 peerAddr);
            Some (s2, SendOnGate ack :: acts)
          else Some (s, [])
      | _ => Some (s, [])
      end
  | None => Some (s, [])
  end.

Definition handleTCPData (s : t) (now : simtime_t) (seq : Z) (msg : Frame)
  : option (t * list Action) :=
  let peerAddr := SRC msg in
  let ack :=
    set_priority PRIORITY_HIGH
      (set_ack (wrap64 (SEQ msg + 1)) (mk "TCP_ACK" TCP_ACK (addr s) peerAddr)) in
  if hasPar "bytes" msg then
    _ ← par_long "bytes" msg;
    enc ← isEncrypted msg;
    _ ← (if (enc : bool) && hasPar "encData" msg then
           match sharedKeys s !! peerAddr with
           | Some k => encData ← par_string "encData" msg; simpleDecrypt encData k
           | None => Some EmptyString
           end
         else Some EmptyString);
    match tcpConnections s !! 601 with
    | None =>
        let '(s1, acts) := sendDBRequestTCP s now seq 601 in
        Some (s1, acts ++ [SendOnGate ack])
    | Some _ => Some (s, [SendOnGate ack])
    end
  else Some (s, [SendOnGate ack]).

Definition handleUDPData (s : t) (msg : Frame) : t * list Action := (s, []).

Definition handleEncryptedData (s : t) (msg : Frame) : option (t * list Action) :=
  encData ← par_string "encData" msg;
  _ ← decrypt_if true (sharedKeys s !! SRC msg) encData;
  Some (s, []).

Definition handleDNSResponse (protocol : string) (s : t) (now : simtime_t) (seq : Z)
    (msg : Frame) : option (t * list Action) :=
  httpAddr ← par_long "answer" msg;
  enc ← isEncrypted msg;
  qnameResult ← par_string "qname" msg;
  _ ← decrypt_if enc (sharedKeys s !! SRC msg) qnameResult;
  let keys := initiateKeyExchange s httpAddr ++ initiateKeyExchange s 601 in
  if String.eqb protocol "UDP" then
    get ← sendHTTPRequestUDP s httpAddr;
    Some (s, keys ++ get)
  else
    let '(s1, acts) := sendHTTPRequestTCP s now seq httpAddr in
    Some (s1, keys ++ acts).

Definition handleHTTPResponse (s : t) (msg : Frame) : option (t * list Action) :=
  _ ← par_long "bytes" msg;
  _ ← isEncrypted msg;
  Some (s, []).

Definition handleDBResponse (s : t) (msg : Frame) : option (t * list Action) :=
  _ ← par_long "bytes" msg;
  enc ← isEncrypted msg;
  result ← par_string "result" msg;
  _ ← decrypt_if enc (sharedKeys s !! SRC msg) result;
  Some (s, []).

Definition DB_RESPONSE : Z := 85.

(** [handleMessage] for a frame that is not a self-message. *)
Definition handleFrame (qname protocol : string) (s : t) (now : simtime_t) (seq : Z)
    (msg : Frame) : option (t * list Action) :=
  let k := kind msg in
  if k =? DNS_RESPONSE then handleDNSResponse protocol s now seq msg
  else if k =? HTTP_RESPONSE then handleHTTPResponse s msg
  else if k =? DB_RESPONSE then handleDBResponse s msg
  else if k =? TCP_SYN_ACK then handleTCPSynAck qname s msg
  else if k =? TCP_ACK then Some (handleTCPAck s msg)
  else if k =? TCP_DATA then handleTCPData s now seq msg
  else if k =? TCP_FIN then Some (handleTCPFin s msg)
  else if k =? UDP_DATA then Some (handleUDPData s msg)
  else if k =? KEY_EXCHANGE then handleKeyExchange s msg
  else if k =? ENCRYPTED_DATA then handleEncryptedData s msg
  else Some (s, []).

(** [sendDNSQueryTCP]; [retransmit] is the time for which [retransmitTimer]
    is scheduled, if it is. *)
Definition sendDNSQueryTCP (s : t) (now : simtime_t) (seq : Z)
    (retransmit : option simtime_t) : t * list Action * option simtime_t :=
  (with_tcpConnections
     (<[dnsAddr s := syn_sent (dnsAddr s) seq now]> (tcpConnections s)) s,
   [SendOnGate (syn_frame s (dnsAddr s) seq PRIORITY_HIGH)],
   match retransmit with
   | Some scheduled => Some scheduled
   | None => Some (now + SimTime 3%Q)
   end).

(** The branch [msg == startEvt] of [handleSelfMessage]. *)
Definition start (qname protocol : string) (s : t) (now : simtime_t) (seq : Z)
    (retransmit : option simtime_t)
  : option (t * list Action * option simtime_t) :=
  let keys := initiateKeyExchange s (dnsAddr s) in
  if String.eqb protocol "UDP" || String.eqb protocol "AUTO" then
    query ← sendDNSQueryUDP qname s;
    Some (s, keys ++ query, retransmit)
  else
    let '(s1, acts, r) := sendDNSQueryTCP s now seq retransmit in
    Some (s1, keys ++ acts, r).

End PC.

(** ** The HTTP server ([http.cc]) *)
Module HTTP.

Record t : Type := mkHTTP {
  addr : Z;
  sharedKeys : gmap Z string;
  myPublicKey : string;
  myPrivateKey : string;
  tcpConnections : gmap Z TCPConnection;
  synCounts : gmap Z Z;
  synTimestamps : gmap Z simtime_t;
  synRateLimit : Q;
  synFloodCheckTimer : option simtime_t;   (* scheduled arrival time *)
  responseQueue : list Frame;              (* highest priority first *)
  sendQueueTimer : option simtime_t;
  cwndMap : gmap Z Q;
  ssthreshMap : gmap Z Q;
  pageSizeBytes : Z;                       (* par("pageSizeBytes") *)
  serviceTime : Q                          (* par("serviceTime") *)
}.

Definition with_sharedKeys (k : gmap Z string) (s : t) : t :=
  {| addr := addr s; sharedKeys := k; myPublicKey := myPublicKey s;
     myPrivateKey := myPrivateKey s; tcpConnections := tcpConnections s;
     synCounts := synCounts s; synTimestamps := synTimestamps s;
     synRateLimit := synRateLimit s; synFloodCheckTimer := synFloodCheckTimer s;
     responseQueue := responseQueue s; sendQueueTimer := sendQueueTimer s;
     cwndMap := cwndMap s; ssthreshMap := ssthreshMap s;
     pageSizeBytes := pageSizeBytes s; serviceTime := serviceTime s |}.

Definition with_tcpConnections (c : gmap Z TCPConnection) (s : t) : t :=
  {| addr := addr s; sharedKeys := sharedKeys s; myPublicKey := myPublicKey s;
     myPrivateKey := myPrivateKey s; tcpConnections := c;
     synCounts := synCounts s; synTimestamps := synTimestamps s;
     synRateLimit := synRateLimit s; synFloodCheckTimer := synFloodCheckTimer s;
     responseQueue := responseQueue s; sendQueueTimer := sendQueueTimer s;
     cwndMap := cwndMap s; ssthreshMap := ssthreshMap s;
     pageSizeBytes := pageSizeBytes s; serviceTime := serviceTime s |}.

Definition with_windows (w th : gmap Z Q) (s : t) : t :=
  {| addr := addr s; sharedKeys := sharedKeys s; myPublicKey := myPublicKey s;
     myPrivateKey := myPrivateKey s; tcpConnections := tcpConnections s;
     synCounts := synCounts s; synTimestamps := synTimestamps s;
     synRateLimit := synRateLimit s; synFloodCheckTimer := synFloodCheckTimer s;
     responseQueue := responseQueue s; sendQueueTimer := sendQueueTimer s;
     cwndMap := w; ssthreshMap := th;
     pageSizeBytes := pageSizeBytes s; serviceTime := serviceTime s |}.

Definition with_syn (c : gmap Z Z) (ts : gmap Z simtime_t) (s : t) : t :=
  {| addr := addr s; sharedKeys := sharedKeys s; myPublicKey := myPublicKey s;
     myPrivateKey := myPrivateKey s; tcpConnections := tcpConnections s;
     synCounts := c; synTimestamps := ts;
     synRateLimit := synRateLimit s; synFloodCheckTimer := synFloodCheckTimer s;
     responseQueue := responseQueue s; sendQueueTimer := sendQueueTimer s;
     cwndMap := cwndMap s; ssthreshMap := ssthreshMap s;
     pageSizeBytes := pageSizeBytes s; serviceTime := serviceTime s |}.

Definition with_synFloodCheckTimer (tm : option simtime_t) (s : t) : t :=
  {| addr := addr s; sharedKeys := sharedKeys s; myPublicKey := myPublicKey s;
     myPrivateKey := myPrivateKey s; tcpConnections := tcpConnections s;
     synCounts := synCounts s; synTimestamps := synTimestamps s;
     synRateLimit := synRateLimit s; synFloodCheckTimer := tm;
     responseQueue := responseQueue s; sendQueueTimer := sendQueueTimer s;
     cwndMap := cwndMap s; ssthreshMap := ssthreshMap s;
     pageSizeBytes := pageSizeBytes s; serviceTime := serviceTime s |}.

Definition with_responseQueue (q : list Frame) (tm : option simtime_t) (s : t) : t :=
  {| addr := addr s; sharedKeys := sharedKeys s; myPublicKey := myPublicKey s;
     myPrivateKey := myPrivateKey s; tcpConnections := tcpConnections s;
     synCounts := synCounts s; synTimestamps := synTimestamps s;
     synRateLimit := synRateLimit s; synFloodCheckTimer := synFloodCheckTimer s;
     responseQueue := q; sendQueueTimer := tm;
     cwndMap := cwndMap s; ssthreshMap := ssthreshMap s;
     pageSizeBytes := pageSizeBytes s; serviceTime := serviceTime s |}.

(** [initialize()] at time [now], with the module parameters. *)
Definition initialize (address : Z) (limit : Q) (pageSize : Z) (service : Q)
    (now : simtime_t) : t :=
  {| addr := address; sharedKeys := ∅;
     myPublicKey := generateECDHPublicKey (wrap32 (address * 2));
     myPrivateKey := generateECDHPublicKey address;
     tcpConnections := ∅; synCounts := ∅; synTimestamps := ∅;
     synRateLimit := limit; synFloodCheckTimer := Some (now + SimTime 1%Q);
     responseQueue := []; sendQueueTimer := None;
     cwndMap := ∅; ssthreshMap := ∅;
     pageSizeBytes := pageSize; serviceTime := service |}.

Definition handleKeyExchange (s : t) (msg : Frame) : option (t * list Action) :=
  let peerAddr := SRC msg in
  peerPublicKey ← par_string "publicKey" msg;
  sharedSecret ← computeSharedSecret (myPrivateKey s) peerPublicKey;
  let keys1 := <[peerAddr := sharedSecret]> (sharedKeys s) in
  (* sharedKeys.find(peerAddr) == sharedKeys.end() || sharedKeys[peerAddr].empty() *)
  let reply :=
    match keys1 !! peerAddr with
    | None => true
    | Some k => String.eqb k EmptyString
    end in
  let response :=
    set_priority PRIORITY_HIGH
      (set_par "publicKey" (PString (myPublicKey s))
         (mk "KEY_EXCHANGE" KEY_EXCHANGE (addr s) peerAddr)) in
  let acts := if reply then [SendOnGate response] else [] in
  Some (with_sharedKeys (<[peerAddr := sharedSecret]> keys1) s, acts).

(** [synCounts[src]]: zero when the source has no entry. *)
Definition count_of (m : gmap Z Z) (src : Z) : Z := default 0 (m !! src).

(** [handleTCPSyn] from the cookie validation on; [serverSeq] is the draw
    of [intuniform(1000, 9999)]. *)
Definition cookieStage (s : t) (serverSeq : Z) (msg : Frame)
  : option (t * list Action) :=
  let src := SRC msg in
  let seq := SEQ msg in
  cookie ← par_long "synCookie" msg;
  if negb (validateSYNCookie cookie src (addr s) seq) then Some (s, [])
  else
    let synAck :=
      set_par "synCookie" (PLong (generateSYNCookie (addr s) src serverSeq))
        (set_priority PRIORITY_HIGH
           (set_ack (wrap64 (seq + 1))
              (set_seq serverSeq (mk "TCP_SYN_ACK" TCP_SYN_ACK (addr s) src)))) in
    let conn :=
      {| remoteAddr := src; state := TCP_SYN_RECEIVED;
         sendSeq := wrap64 (serverSeq + 1); recvSeq := wrap64 (seq + 1);
         conn_cwnd := 1; conn_ssthresh := 64; rtt := 0; lastSent := 0;
         sharedKey := EmptyString |} in
    Some (with_windows (<[src := 1%Q]> (cwndMap s)) (<[src := 64%Q]> (ssthreshMap s))
            (with_tcpConnections (<[src := conn]> (tcpConnections s)) s),
          [SendOnGate synAck]).

(** [synCounts[src]++; synTimestamps[src] = simTime();] *)
Definition countSyn (s : t) (now : simtime_t) (msg : Frame) : t :=
  let src := SRC msg in
  with_syn (<[src := wrap32 (count_of (synCounts s) src + 1)]> (synCounts s))
           (<[src := now]> (synTimestamps s)) s.

Definition handleTCPSyn (s : t) (now : simtime_t) (serverSeq : Z) (msg : Frame)
  : option (t * list Action) :=
  let s1 := countSyn s now msg in
  (* synCounts[src] > synRateLimit *)
  if Qltb (synRateLimit s1) (inject_Z (count_of (synCounts s1) (SRC msg)))
  then Some (s1, [])
  else cookieStage s1 serverSeq msg.

Definition establish (c : TCPConnection) : TCPConnection :=
  match state c with
  | TCP_SYN_RECEIVED =>
      {| remoteAddr := remoteAddr c; state := TCP_ESTABLISHED; sendSeq := sendSeq c;
         recvSeq := recvSeq c; conn_cwnd := conn_cwnd c;
         conn_ssthresh := conn_ssthresh c; rtt := rtt c; lastSent := lastSent c;
         sharedKey := sharedKey c |}
  | _ => c
  end.

Definition handleTCPAck (s : t) (msg : Frame) : t * list Action :=
  let src := SRC msg in
  match tcpConnections s !! src with
  | None => (s, [])
  | Some c =>
      let w := default 0%Q (cwndMap s !! src) in
      let th := default 0%Q (ssthreshMap s !! src) in
      let w' := if Qltb w th then (w * 2)%Q else (w + 1 / w)%Q in
      (with_windows (<[src := w']> (cwndMap s)) (<[src := th]> (ssthreshMap s))
         (with_tcpConnections (<[src := establish c]> (tcpConnections s)) s), [])
  end.

Definition handleTCPFin (s : t) (msg : Frame) : t * list Action :=
  let src := SRC msg in
  let finAck := set_priority PRIORITY_NORMAL (mk "TCP_FIN" TCP_FIN (addr s) src) in
  (with_windows (delete src (cwndMap s)) (delete src (ssthreshMap s))
     (with_tcpConnections (delete src (tcpConnections s)) s),
   [SendOnGate finAck]).

(** [msg->hasPar("encrypted") && msg->par("encrypted").boolValue()]. *)
Definition isEncrypted (msg : Frame) : option bool :=
  if hasPar "encrypted" msg then par_bool "encrypted" msg else Some false.

(** [resp] with the encrypted placeholder payload when a key is held. *)
Definition attach_encData (key : option string) (data : string) (resp : Frame)
  : option Frame :=
  match key with
  | None => Some resp
  | Some k =>
      encrypted ← simpleEncrypt data k;
      Some (set_par "encrypted" (PBool true)
              (set_par "encData" (PString (c_str encrypted)) resp))
  end.

(** [responseQueue.push]: ahead of every frame of strictly lower priority,
    the priorities compared as [MessagePriorityCompare] reads them, through
    [PRIORITY()].  (The heap of [std::priority_queue] fixes no order among
    frames of equal priority; here they leave in the order they came.) *)
Fixpoint pq_push (m : Frame) (q : list Frame) : list Frame :=
  match q with
  | [] => [m]
  | x :: rest =>
      if PRIORITY_int x <? PRIORITY_int m then m :: q else x :: pq_push m rest
  end.

Definition bump_sendSeq (c : TCPConnection) : TCPConnection :=
  {| remoteAddr := remoteAddr c; state := state c; sendSeq := wrap64 (sendSeq c + 1);
     recvSeq := recvSeq c; conn_cwnd := conn_cwnd c;
     conn_ssthresh := conn_ssthresh c; rtt := rtt c; lastSent := lastSent c;
     sharedKey := sharedKey c |}.

Definition handleHTTPGet (s : t) (now : simtime_t) (msg : Frame)
  : option (t * list Action) :=
  let src := SRC msg in
  path ← par_string "path" msg;
  enc ← isEncrypted msg;
  let priority := PRIORITY_int msg in
  let key : option string := sharedKeys s !! src in
  (* the decrypted path is only logged, but it is computed *)
  _ ← (match key with
       | Some k => if (enc : bool) then simpleDecrypt path k else Some path
       | None => Some path
       end);
  let responseKind := if kind msg =? TCP_DATA then TCP_DATA else HTTP_RESPONSE in
  let resp0 :=
    set_priority priority
      (set_par "bytes" (PLong (pageSizeBytes s))
         (mk "HTTP_RESPONSE" responseKind (addr s) src)) in
  resp1 ← attach_encData key "HTTP_DATA" resp0;
  let '(resp, conns) :=
    match (if responseKind =? TCP_DATA then tcpConnections s !! src else None) with
    | Some c =>
        (set_ack (recvSeq c) (set_seq (sendSeq c) resp1),
         <[src := bump_sendSeq c]> (tcpConnections s))
    | None => (resp1, tcpConnections s)
    end in
  let s1 := with_tcpConnections conns s in
  if PRIORITY_HIGH <=? priority
  then Some (s1, [SendDelayed resp (SimTime (serviceTime s * 0.5)%Q)])
  else
    let tm :=
      match sendQueueTimer s with
      | Some scheduled => Some scheduled
      | None => Some (now + SimTime (serviceTime s))
      end in
    Some (with_responseQueue (pq_push resp (responseQueue s)) tm s1, []).

Definition handleTCPData (s : t) (now : simtime_t) (msg : Frame)
  : option (t * list Action) :=
  if hasPar "path" msg then handleHTTPGet s now msg
  else
    let ack :=
      set_priority PRIORITY_HIGH
        (set_ack (wrap64 (SEQ msg + 1)) (mk "TCP_ACK" TCP_ACK (addr s) (SRC msg))) in
    Some (s, [SendOnGate ack]).

Definition handleUDPRequest (s : t) (msg : Frame) : option (t * list Action) :=
  if hasPar "path" msg then
    let src := SRC msg in
    path ← par_string "path" msg;
    enc ← isEncrypted msg;
    let key : option string := sharedKeys s !! src in
    _ ← (match key with
         | Some k => if (enc : bool) then simpleDecrypt path k else Some path
         | None => Some path
         end);
    let resp0 :=
      set_priority (PRIORITY_int msg)
        (set_par "bytes" (PLong (pageSizeBytes s))
           (mk "HTTP_RESPONSE" UDP_DATA (addr s) src)) in
    resp ← attach_encData key "HTTP_UDP_DATA" resp0;
    Some (s, [SendDelayed resp (SimTime (serviceTime s * 0.3)%Q)])
  else Some (s, []).

(** The sweep of [synFloodCheckTimer]: entries whose last SYN is more than
    60 s old leave both maps; the timer is scheduled again one second on. *)
Definition stale (now ts : simtime_t) : bool := SimTime 60%Q <? now - ts.

Definition synFloodCheck (s : t) (now : simtime_t) : t :=
  let keep_ts (kv : Z * simtime_t) : bool := negb (stale now kv.2) in
  let keep_count (kv : Z * Z) : bool :=
    match synTimestamps s !! kv.1 with
    | Some ts => negb (stale now ts)
    | None => true
    end in
  with_synFloodCheckTimer (Some (now + SimTime 1%Q))
    (with_syn (filter (fun kv => Is_true (keep_count kv)) (synCounts s))
              (filter (fun kv => Is_true (keep_ts kv)) (synTimestamps s)) s).

(** The branch [msg == sendQueueTimer] of [handleSelfMessage]. *)
Definition processSendQueue (s : t) (now : simtime_t) : t * list Action :=
  match responseQueue s with
  | [] => (with_responseQueue [] None s, [])
  | queued :: rest =>
      let tm := match rest with
                | [] => None
                | _ :: _ => Some (now + SimTime 0.001%Q)
                end in
      (with_responseQueue rest tm s, [SendOnGate queued])
  end.

(** What the scheduler delivers to the server. *)
Inductive Event : Type :=
  | Arrival (msg : Frame) (serverSeq : Z)
  | SynFloodCheckTimer
  | SendQueueTimer
  | EndTxEvent.

Definition handleFrame (s : t) (now : simtime_t) (serverSeq : Z) (msg : Frame)
  : option (t * list Action) :=
  let k := kind msg in
  if k =? KEY_EXCHANGE then handleKeyExchange s msg
  else if k =? TCP_SYN then handleTCPSyn s now serverSeq msg
  else if k =? TCP_ACK then Some (handleTCPAck s msg)
  else if k =? TCP_DATA then handleTCPData s now msg
  else if k =? TCP_FIN then Some (handleTCPFin s msg)
  else if k =? HTTP_GET then handleHTTPGet s now msg
  else if k =? UDP_DATA then handleUDPRequest s msg
  else Some (s, []).

(** The server with its link transmitter: [handleMessage]. *)
Definition handleMessage (dur : Frame -> simtime_t) (now : simtime_t) (ev : Event)
    (node : t * Link.Transmitter) : option (t * Link.Transmitter) :=
  let '(s, tx) := node in
  match ev with
  | Arrival msg serverSeq =>
      '(s', acts) ← handleFrame s now serverSeq msg;
      Some (s', Link.perform_all dur now acts tx)
  | SynFloodCheckTimer => Some (synFloodCheck s now, tx)
  | SendQueueTimer =>
      let '(s', acts) := processSendQueue s now in
      Some (s', Link.perform_all dur now acts tx)
  | EndTxEvent => Some (s, Link.handleEndTx dur now tx)
  end.

End HTTP.

(** ** The router ([router.cc]) *)
Module Router.

(** The C library conversions the router relies on: [sscanf] with the
    formats ["%ld:%d"] and ["%ld:%lf:%d"] (a result only when every
    conversion succeeded) and the stream output of a [double]. *)
Record Libc : Type := mkLibc {
  scan_static : string -> option (Z * Z);
  scan_route : string -> option (Z * Q * Z);
  show_double : Q -> string
}.

Inductive Timer : Type :=
  | ospfHelloTimer | ospfLSATimer | ripUpdateTimer | rateLimitResetTimer.

(** The calls a handler makes, in program order.  [ToGate g m] is
    [sendPacketOnGate(m, g)], the hand-over to the transmitter of gate [g]. *)
Inductive Output : Type :=
  | ToGate (g : Z) (m : Frame)
  | ScheduleAt (tm : Timer) (at_time : simtime_t).

(** The router's state without the per-gate transmitters ([txQueue],
    [endTxEvent]), which only [sendPacketOnGate] and the end-of-transmission
    events touch. *)
Record t : Type := mkRouter {
  routerId : Z;
  routingProtocol : string;
  gateSize : Z;                              (* gateSize("pppg") *)
  routingTable : gmap Z RouteEntry;
  linkStateDB : gmap Z LinkState;
  linkBandwidth : gmap Z Q;
  linkUtilization : gmap Z Q;
  synCounts : gmap Z Z;
  synRateLimit : Q;
  outputQueues : list (list Frame);          (* one priority queue per gate *)
  ospfHelloInterval : Q;
  ospfLSAInterval : Q;
  ripUpdateInterval : Q
}.

Definition with_routingTable (rt : gmap Z RouteEntry) (s : t) : t :=
  {| routerId := routerId s; routingProtocol := routingProtocol s;
     gateSize := gateSize s; routingTable := rt; linkStateDB := linkStateDB s;
     linkBandwidth := linkBandwidth s; linkUtilization := linkUtilization s;
     synCounts := synCounts s; synRateLimit := synRateLimit s;
     outputQueues := outputQueues s; ospfHelloInterval := ospfHelloInterval s;
     ospfLSAInterval := ospfLSAInterval s; ripUpdateInterval := ripUpdateInterval s |}.

Definition with_linkStateDB (db : gmap Z LinkState) (s : t) : t :=
  {| routerId := routerId s; routingProtocol := routingProtocol s;
     gateSize := gateSize s; routingTable := routingTable s; linkStateDB := db;
     linkBandwidth := linkBandwidth s; linkUtilization := linkUtilization s;
     synCounts := synCounts s; synRateLimit := synRateLimit s;
     outputQueues := outputQueues s; ospfHelloInterval := ospfHelloInterval s;
     ospfLSAInterval := ospfLSAInterval s; ripUpdateInterval := ripUpdateInterval s |}.

Definition with_linkUtilization (u : gmap Z Q) (s : t) : t :=
  {| routerId := routerId s; routingProtocol := routingProtocol s;
     gateSize := gateSize s; routingTable := routingTable s;
     linkStateDB := linkStateDB s;
     linkBandwidth := linkBandwidth s; linkUtilization := u;
     synCounts := synCounts s; synRateLimit := synRateLimit s;
     outputQueues := outputQueues s; ospfHelloInterval := ospfHelloInterval s;
     ospfLSAInterval := ospfLSAInterval s; ripUpdateInterval := ripUpdateInterval s |}.

Definition with_synCounts (c : gmap Z Z) (s : t) : t :=
  {| routerId := routerId s; routingProtocol := routingProtocol s;
     gateSize := gateSize s; routingTable := routingTable s;
     linkStateDB := linkStateDB s;
     linkBandwidth := linkBandwidth s; linkUtilization := linkUtilization s;
     synCounts := c; synRateLimit := synRateLimit s;
     outputQueues := outputQueues s; ospfHelloInterval := ospfHelloInterval s;
     ospfLSAInterval := ospfLSAInterval s; ripUpdateInterval := ripUpdateInterval s |}.

Definition with_outputQueues (q : list (list Frame)) (s : t) : t :=
  {| routerId := routerId s; routingProtocol := routingProtocol s;
     gateSize := gateSize s; routingTable := routingTable s;
     linkStateDB := linkStateDB s;
     linkBandwidth := linkBandwidth s; linkUtilization := linkUtilization s;
     synCounts := synCounts s; synRateLimit := synRateLimit s;
     outputQueues := q; ospfHelloInterval := ospfHelloInterval s;
     ospfLSAInterval := ospfLSAInterval s; ripUpdateInterval := ripUpdateInterval s |}.

(** [while (getline(ss, item, ','))]: the items between commas; a final
    item needs no comma, and nothing follows a final comma.  [item] holds
    the characters read since the last comma. *)
Fixpoint getline_items (s : string) (item : string) : list string :=
  match s with
  | EmptyString =>
      match item with EmptyString => [] | _ => [item] end
  | String c rest =>
      if Ascii.eqb c ","%char then item :: getline_items rest EmptyString
      else getline_items rest (item ++ String c EmptyString)%string
  end.

Definition is_empty (s : string) : bool :=
  match s with EmptyString => true | _ => false end.

(** The static route that one item of [par("routes")] installs. *)
Definition static_route (d g : Z) : RouteEntry :=
  {| destAddr := d; nextHop := g; metric := 1; re_bandwidth := 100;
     re_delay := 1; hopCount := 1; lastUpdate := 0 |}.

Definition add_static (libc : Libc) (rt : gmap Z RouteEntry) (item : string)
  : gmap Z RouteEntry :=
  if is_empty item then rt
  else match scan_static libc item with
       | Some (d, g) => <[d := static_route d g]> rt
       | None => rt
       end.

Definition gates (n : Z) : list Z := seqZ 0 n.

(** [initialize()] as far as the state above goes. *)
Definition initialize (libc : Libc) (address : Z) (protocol routes : string)
    (n : Z) (limit hello lsa rip : Q) : t :=
  {| routerId := address; routingProtocol := protocol; gateSize := n;
     routingTable := fold_left (add_static libc) (getline_items routes EmptyString) ∅;
     linkStateDB := ∅;
     linkBandwidth := list_to_map (map (fun i => (i, 100%Q)) (gates n));
     linkUtilization := list_to_map (map (fun i => (i, 0%Q)) (gates n));
     synCounts := ∅; synRateLimit := limit;
     outputQueues := map (fun _ => []) (gates n);
     ospfHelloInterval := hello; ospfLSAInterval := lsa; ripUpdateInterval := rip |}.

(** Every gate except [skip], in index order. *)
Definition other_gates (n skip : Z) : list Z :=
  List.filter (fun i => negb (i =? skip)) (gates n).

Definition sendOSPFHello (s : t) : list Output :=
  map (fun i => ToGate i (set_priority PRIORITY_HIGH
                            (mk "OSPF_HELLO" OSPF_HELLO (routerId s) (-1))))
      (gates (gateSize s)).

(** One iteration of the outer loop of [sendOSPFLSA]: the link state [ls]
    computed for link [i] and the frame flooded for it.  The frame carries
    the link id, cost, bandwidth and delay; [ls.timestamp] stays local. *)
Definition originate (s : t) (now : simtime_t) (i : Z) : LinkState * Frame :=
  let bw := default 0%Q (linkBandwidth s !! i) in
  let util := default 0%Q (linkUtilization s !! i) in
  let ls :=
    {| ls_routerId := routerId s; ls_linkId := i;
       ls_cost := (1 / (bw - util + 1))%Q; ls_bandwidth := (bw - util)%Q;
       ls_delay := 1; ls_timestamp := now |} in
  let lsa :=
    set_priority PRIORITY_HIGH
      (set_par "delay" (PDouble (ls_delay ls))
         (set_par "bandwidth" (PDouble (ls_bandwidth ls))
            (set_par "cost" (PDouble (ls_cost ls))
               (set_par "linkId" (PLong i)
                  (mk "OSPF_LSA" OSPF_TE_UPDATE (routerId s) (-1)))))) in
  (ls, lsa).

Definition sendOSPFLSA (s : t) (now : simtime_t) : list Output :=
  flat_map
    (fun i => map (fun j => ToGate j (originate s now i).2)
                  (other_gates (gateSize s) i))
    (gates (gateSize s)).

(** The key of the link-state database: [originRouter * 1000 + linkId]. *)
Definition lsdb_key (originRouter linkId : Z) : Z :=
  wrap64 (wrap64 (originRouter * 1000) + linkId).

Definition handleOSPFLSA (s : t) (now : simtime_t) (inGate : Z) (msg : Frame)
  : option (t * list Output) :=
  let originRouter := SRC msg in
  l ← par_long "linkId" msg;
  let linkId := wrap32 l in
  cost ← par_double "cost" msg;
  bandwidth ← par_double "bandwidth" msg;
  delay ← par_double "delay" msg;
  let ls :=
    {| ls_routerId := originRouter; ls_linkId := linkId; ls_cost := cost;
       ls_bandwidth := bandwidth; ls_delay := delay; ls_timestamp := now |} in
  let db := <[lsdb_key originRouter linkId := ls]> (linkStateDB s) in
  (* computeOSPFRoutes() only logs *)
  Some (with_linkStateDB db s,
        map (fun i => ToGate i msg) (other_gates (gateSize s) inGate)).

Definition dec_of_Z (z : Z) : string := NilZero.string_of_int (Z.to_int z).

Fixpoint insert_by_key {A : Type} (x : Z * A) (l : list (Z * A)) : list (Z * A) :=
  match l with
  | [] => [x]
  | y :: rest => if x.1 <=? y.1 then x :: l else y :: insert_by_key x rest
  end.

(** [for (auto& entry : m)]: the entries of a [std::map] by increasing key. *)
Definition entries {A : Type} (m : gmap Z A) : list (Z * A) :=
  foldr insert_by_key [] (map_to_list m).

Definition routes_payload (libc : Libc) (rt : gmap Z RouteEntry) : string :=
  foldr (fun (e : Z * RouteEntry) acc =>
           (dec_of_Z e.1 ++ ":" ++ show_double libc (metric e.2) ++ ":"
              ++ dec_of_Z (hopCount e.2) ++ "," ++ acc)%string)
        EmptyString (entries rt).

Definition sendRIPUpdate (libc : Libc) (s : t) : list Output :=
  map (fun i =>
         ToGate i (set_priority PRIORITY_NORMAL
                     (set_par "routes" (PString (routes_payload libc (routingTable s)))
                        (mk "RIP_UPDATE" RIP_UPDATE (routerId s) (-1)))))
      (gates (gateSize s)).

(** The entry that [handleRIPUpdate] installs for an advertised route. *)
Definition rip_entry (inGate : Z) (now : simtime_t) (dest : Z) (newMetric : Q)
    (newHops : Z) : RouteEntry :=
  {| destAddr := dest; nextHop := inGate; metric := newMetric; re_bandwidth := 0;
     re_delay := 0; hopCount := newHops; lastUpdate := now |}.

(** The body of the loop of [handleRIPUpdate] for one advertised triple. *)
Definition rip_import (inGate : Z) (now : simtime_t) (rt : gmap Z RouteEntry)
    (adv : Z * Q * Z) : gmap Z RouteEntry :=
  let '(dest, metric0, hops) := adv in
  let newMetric := (metric0 + 1)%Q in
  let newHops := wrap32 (hops + 1) in
  if newHops <? 16 then
    match rt !! dest with
    | None => <[dest := rip_entry inGate now dest newMetric newHops]> rt
    | Some cur =>
        if Qltb newMetric (metric cur)
        then <[dest := rip_entry inGate now dest newMetric newHops]> rt
        else rt
    end
  else rt.

(** The triples that the parsing loop extracts from [par("routes")]. *)
Definition advertised (libc : Libc) (routes : string) : list (Z * Q * Z) :=
  omap (fun item => if is_empty item then None else scan_route libc item)
       (getline_items routes EmptyString).

Definition handleRIPUpdate (libc : Libc) (s : t) (now : simtime_t) (inGate : Z)
    (msg : Frame) : option (t * list Output) :=
  routes ← par_string "routes" msg;
  let rt := fold_left (rip_import inGate now) (advertised libc routes) (routingTable s) in
  Some (with_routingTable rt s, []).

Definition handleRIPRequest (libc : Libc) (s : t) : t * list Output :=
  (s, sendRIPUpdate libc s).

(** [priority_queue::push] with [MessagePriorityCompare]. *)
Definition pq_push (m : Frame) (q : list Frame) : list Frame := HTTP.pq_push m q.

Definition flood (s : t) (inGate : Z) (msg : Frame) : list Output :=
  map (fun i => ToGate i msg) (other_gates (gateSize s) inGate).

Definition forwardPacket (s : t) (inGate : Z) (msg : Frame)
  : option (t * list Output) :=
  let dst := DST msg in
  match routingTable s !! dst with
  | Some e =>
      let g := nextHop e in
      if (0 <=? g) && (g <? gateSize s) then
        let msgSize : Q :=
          if 0 <? byteLength msg then inject_Z (byteLength msg) else 1000%Q in
        let util := (default 0%Q (linkUtilization s !! g) + msgSize / 1000000)%Q in
        let s1 := with_linkUtilization (<[g := util]> (linkUtilization s)) s in
        let priority := PRIORITY_int msg in
        q ← outputQueues s !! Z.to_nat g;
        if (PRIORITY_HIGH <=? priority) || (match q with [] => true | _ => false end)
        then Some (s1, [ToGate g msg])
        else Some (with_outputQueues (<[Z.to_nat g := pq_push msg q]> (outputQueues s)) s1, [])
      else Some (s, flood s inGate msg)
  | None => Some (s, flood s inGate msg)
  end.

Inductive Event : Type :=
  | Arrival (msg : Frame) (inGate : Z)
  | Fired (tm : Timer)
  | EndTx (g : Z).

Definition handleSelfMessage (libc : Libc) (s : t) (now : simtime_t) (tm : Timer)
  : t * list Output :=
  match tm with
  | ospfHelloTimer =>
      (s, sendOSPFHello s
            ++ [ScheduleAt ospfHelloTimer (now + SimTime (ospfHelloInterval s))])
  | ospfLSATimer =>
      (s, sendOSPFLSA s now
            ++ [ScheduleAt ospfLSATimer (now + SimTime (ospfLSAInterval s))])
  | ripUpdateTimer =>
      (s, sendRIPUpdate libc s
            ++ [ScheduleAt ripUpdateTimer (now + SimTime (ripUpdateInterval s))])
  | rateLimitResetTimer =>
      (with_synCounts ∅ s, [ScheduleAt rateLimitResetTimer (now + SimTime 1%Q)])
  end.

Definition handleMessage (libc : Libc) (s : t) (now : simtime_t) (ev : Event)
  : option (t * list Output) :=
  match ev with
  | Fired tm => Some (handleSelfMessage libc s now tm)
  | EndTx _ => Some (s, [])   (* the transmitter of that gate alone *)
  | Arrival msg inGate =>
      let k := kind msg in
      if k =? OSPF_HELLO then Some (s, [])
      else if (k =? OSPF_LSA) || (k =? OSPF_TE_UPDATE) then handleOSPFLSA s now inGate msg
      else if k =? RIP_UPDATE then handleRIPUpdate libc s now inGate msg
      else if k =? RIP_REQUEST then Some (handleRIPRequest libc s)
      else if k =? TCP_SYN then
        let src := SRC msg in
        let n := wrap32 (default 0 (synCounts s !! src) + 1) in
        let s1 := with_synCounts (<[src := n]> (synCounts s)) s in
        if Qltb (synRateLimit s) (inject_Z n) then Some (s1, [])
        else forwardPacket s1 inGate msg
      else forwardPacket s inGate msg
  end.

(** The states a router passes through, each with the time of the last
    event: [initialize()], then one handled event after another, at times
    that never decrease. *)
Inductive reachable (libc : Libc) : simtime_t -> t -> Prop :=
  | reach_init address protocol routes n limit hello lsa rip now :
      reachable libc now (initialize libc address protocol routes n limit hello lsa rip)
  | reach_step s now t ev s' out :
      reachable libc now s ->
      now <= t ->
      handleMessage libc s t ev = Some (s', out) ->
      reachable libc t s'.

End Router.

(** ** The DNS server ([dns.cc]): key exchange *)
Module DNS.

Record t : Type := mkDNS {
  addr : Z;
  answer : Z;
  sharedKeys : gmap Z string;
  myPublicKey : string;
  myPrivateKey : string;
  requestCounts : gmap Z Z;
  rateLimit : Q;
  tcpConnections : gmap Z TCPConnection
}.

Definition with_sharedKeys (k : gmap Z string) (s : t) : t :=
  {| addr := addr s; answer := answer s; sharedKeys := k;
     myPublicKey := myPublicKey s; myPrivateKey := myPrivateKey s;
     requestCounts := requestCounts s; rateLimit := rateLimit s;
     tcpConnections := tcpConnections s |}.

Definition initialize (address answerAddr : Z) (limit : Q) : t :=
  {| addr := address; answer := answerAddr; sharedKeys := ∅;
     myPublicKey := generateECDHPublicKey (wrap32 (address * 2));
     myPrivateKey := generateECDHPublicKey address;
     requestCounts := ∅; rateLimit := limit; tcpConnections := ∅ |}.

Definition handleKeyExchange (s : t) (msg : Frame) : option (t * list Action) :=
  let peerAddr := SRC msg in
  peerPublicKey ← par_string "publicKey" msg;
  sharedSecret ← computeSharedSecret (myPrivateKey s) peerPublicKey;
  let keys1 := <[peerAddr := sharedSecret]> (sharedKeys s) in
  (* "If this is a request (no shared key yet), send our public key" *)
  let reply :=
    match keys1 !! peerAddr with
    | None => true
    | Some k => String.eqb k EmptyString
    end in
  let response :=
    set_priority PRIORITY_HIGH
      (set_par "publicKey" (PString (myPublicKey s))
         (mk "KEY_EXCHANGE" KEY_EXCHANGE (addr s) peerAddr)) in
  let acts := if reply then [SendOnGate response] else [] in
  Some (with_sharedKeys (<[peerAddr := sharedSecret]> keys1) s, acts).

(** *** The rest of the DNS server *)

Definition with_tcpConnections (c : gmap Z TCPConnection) (s : t) : t :=
  {| addr := addr s; answer := answer s; sharedKeys := sharedKeys s;
     myPublicKey := myPublicKey s; myPrivateKey := myPrivateKey s;
     requestCounts := requestCounts s; rateLimit := rateLimit s;
     tcpConnections := c |}.

Definition with_requestCounts (c : gmap Z Z) (s : t) : t :=
  {| addr := addr s; answer := answer s; sharedKeys := sharedKeys s;
     myPublicKey := myPublicKey s; myPrivateKey := myPrivateKey s;
     requestCounts := c; rateLimit := rateLimit s;
     tcpConnections := tcpConnections s |}.

Definition handleTCPSyn (s : t) (serverSeq : Z) (msg : Frame)
  : option (t * list Action) :=
  let src := SRC msg in
  let seq := SEQ msg in
  cookie ← par_long "synCookie" msg;
  if negb (validateSYNCookie cookie src (addr s) seq) then Some (s, [])
  else
    let synAck :=
      set_par "synCookie" (PLong (generateSYNCookie (addr s) src serverSeq))
        (set_priority PRIORITY_HIGH
           (set_ack (wrap64 (seq + 1))
              (set_seq serverSeq (mk "TCP_SYN_ACK" TCP_SYN_ACK (addr s) src)))) in
    let conn :=
      {| remoteAddr := src; state := TCP_SYN_RECEIVED;
         sendSeq := wrap64 (serverSeq + 1); recvSeq := wrap64 (seq + 1);
         conn_cwnd := 1; conn_ssthresh := 64; rtt := 0; lastSent := 0;
         sharedKey := EmptyString |} in
    Some (with_tcpConnections (<[src := conn]> (tcpConnections s)) s,
          [SendOnGate synAck]).

Definition handleTCPAck (s : t) (msg : Frame) : t * list Action :=
  let src := SRC msg in
  match tcpConnections s !! src with
  | Some c =>
      (with_tcpConnections (<[src := HTTP.establish c]> (tcpConnections s)) s, [])
  | None => (s, [])
  end.

(** [msg->hasPar("protocol") && string(msg->par("protocol").stringValue()) == "UDP"]. *)
Definition isUDP (msg : Frame) : option bool :=
  if hasPar "protocol" msg then
    p ← par_string "protocol" msg; Some (String.eqb p "UDP")
  else Some false.

Definition handleDNSQuery (s : t) (msg : Frame) : option (t * list Action) :=
  let src := SRC msg in
  qname0 ← par_string "qname" msg;
  enc ← HTTP.isEncrypted msg;
  udp ← isUDP msg;
  let key : option string := sharedKeys s !! src in
  qname ← (match key with
           | Some k => if (enc : bool) then simpleDecrypt qname0 k else Some qname0
           | None => Some qname0
           end);
  let responseKind :=
    if (udp : bool) then UDP_DATA
    else if kind msg =? TCP_DATA then TCP_DATA else DNS_RESPONSE in
  let resp0 :=
    set_par "answer" (PLong (answer s))
      (set_par "qname" (PString (c_str qname))
         (mk "DNS_RESPONSE" responseKind (addr s) src)) in
  resp1 ← (match key with
           | Some k =>
               encryptedQname ← simpleEncrypt qname k;
               Some (set_par "encrypted" (PBool true)
                       (set_par "qname" (PString (c_str encryptedQname)) resp0))
           | None => Some resp0
           end);
  let resp2 := set_priority (PRIORITY_int msg) resp1 in
  let '(resp, conns) :=
    match (if responseKind =? TCP_DATA then tcpConnections s !! src else None) with
    | Some c =>
        (set_ack (recvSeq c) (set_seq (sendSeq c) resp2),
         <[src := HTTP.bump_sendSeq c]> (tcpConnections s))
    | None => (resp2, tcpConnections s)
    end in
  Some (with_tcpConnections conns s, [SendOnGate resp]).

Definition handleTCPData (s : t) (msg : Frame) : option (t * list Action) :=
  if hasPar "qname" msg then handleDNSQuery s msg else Some (s, []).

(** [requestCounts[src]]: zero when the source has no entry. *)
Definition count_of (m : gmap Z Z) (src : Z) : Z := default 0 (m !! src).

(** [requestCounts[src]++]. *)
Definition countRequest (s : t) (msg : Frame) : t :=
  with_requestCounts
    (<[SRC msg := wrap32 (count_of (requestCounts s) (SRC msg) + 1)]> (requestCounts s)) s.

(** [handleMessage] for a frame that is not a self-message: the rate limit,
    then the handler of the kind. *)
Definition handleFrame (s : t) (serverSeq : Z) (msg : Frame)
  : option (t * list Action) :=
  let k := kind msg in
  let s1 := countRequest s msg in
  (* requestCounts[src] > rateLimit *)
  if Qltb (rateLimit s1) (inject_Z (count_of (requestCounts s1) (SRC msg)))
  then Some (s1, [])
  else if k =? KEY_EXCHANGE then handleKeyExchange s1 msg
  else if k =? TCP_SYN then handleTCPSyn s1 serverSeq msg
  else if k =? TCP_ACK then Some (handleTCPAck s1 msg)
  else if k =? TCP_DATA then handleTCPData s1 msg
  else if k =? DNS_QUERY then handleDNSQuery s1 msg
  else Some (s1, []).

(** The branch [msg == rateLimitResetTimer]: the counters are cleared (and
    the timer is scheduled one second on). *)
Definition rateLimitReset (s : t) : t := with_requestCounts ∅ s.

End DNS.

(** * Notions and examples used in the statements *)

(** A SYN from client 1 with sequence number 5000 whose cookie is off by
    one, received by a fresh server 3. *)
Definition bad_syn : Frame :=
  set_par "synCookie" (PLong (generateSYNCookie 1 3 5000 + 1))
    (set_seq 5000 (mk "TCP_SYN" TCP_SYN 1 3)).

(** A client past slow start: [cwnd = 64 = ssthresh]. *)
Definition pc_avoidance : PC.t := PC.with_congestion 64 64 0 (PC.initialize 1 2).

(** The FIN that a node at [self] returns to [peer]. *)
Definition fin_reply (self peer : Z) : Frame :=
  set_priority PRIORITY_NORMAL (mk "TCP_FIN" TCP_FIN self peer).

(** A client holding an established connection to the HTTP server 3. *)
Definition conn_to_3 : TCPConnection :=
  {| remoteAddr := 3; state := TCP_ESTABLISHED; sendSeq := 5002; recvSeq := 7001;
     conn_cwnd := 1; conn_ssthresh := 64; rtt := 0; lastSent := 0;
     sharedKey := EmptyString |}.

Definition pc_established : PC.t :=
  PC.with_tcpConnections (<[3 := conn_to_3]> ∅) (PC.initialize 1 2).

(** Server 3 (limit of ten SYNs, service time of one millisecond) after it
    has accepted the SYN of client 1. *)
Definition http_connected : HTTP.t :=
  match HTTP.handleTCPSyn (HTTP.initialize 3 10 4096 (1 # 1000) 0) second 7000
          (set_par "synCookie" (PLong (generateSYNCookie 1 3 5000))
             (set_priority PRIORITY_NORMAL (set_seq 5000 (mk "TCP_SYN" TCP_SYN 1 3))))
  with
  | Some (s, _) => s
  | None => HTTP.initialize 3 10 4096 (1 # 1000) 0
  end.

(** The key-exchange frame that client 1 sends to [peer]. *)
Definition key_exchange_from_1 (peer : Z) : Frame :=
  match PC.initiateKeyExchange (PC.initialize 1 2) peer with
  | SendOnGate m :: _ => m
  | _ => mk "KEY_EXCHANGE" KEY_EXCHANGE 1 peer
  end.


(** The SYN that a client at [src] sends to [dst] with initial sequence
    number [seq] ([PC::sendHTTPRequestTCP]). *)
Definition syn_from (src dst seq : Z) : Frame :=
  set_par "synCookie" (PLong (generateSYNCookie src dst seq))
    (set_priority PRIORITY_NORMAL (set_seq seq (mk "TCP_SYN" TCP_SYN src dst))).

(** A C library for the examples: it converts fields of unsigned decimal
    digits only, and prints a whole-valued double by its digits. *)
Module IntLibc.

Definition digit (c : ascii) : option Z :=
  let n := Z.of_N (N_of_ascii c) in
  if (48 <=? n) && (n <=? 57) then Some (n - 48) else None.

(** The digits at the front of [s] as a number, and what follows them. *)
Fixpoint scan_digits (s : string) (acc : option Z) : option Z * string :=
  match s with
  | EmptyString => (acc, s)
  | String c rest =>
      match digit c with
      | Some d => scan_digits rest (Some (10 * default 0 acc + d))
      | None => (acc, s)
      end
  end.

Definition after_colon (s : string) : option string :=
  match s with
  | String c rest => if Ascii.eqb c ":"%char then Some rest else None
  | EmptyString => None
  end.

Definition scan2 (s : string) : option (Z * Z) :=
  let '(a, s1) := scan_digits s None in
  d ← a;
  s2 ← after_colon s1;
  g ← (scan_digits s2 None).1;
  Some (d, g).

Definition scan3 (s : string) : option (Z * Q * Z) :=
  let '(a, s1) := scan_digits s None in
  d ← a;
  s2 ← after_colon s1;
  let '(b, s3) := scan_digits s2 None in
  m ← b;
  s4 ← after_colon s3;
  h ← (scan_digits s4 None).1;
  Some (d, inject_Z m, h).

Definition libc : Router.Libc :=
  {| Router.scan_static := scan2;
     Router.scan_route := scan3;
     Router.show_double := fun q => Router.dec_of_Z (Qfloor q) |}.

End IntLibc.

(** A router with the static route [5:0] that receives, on gate 1, an update
    advertising 7 at one hop, 9 at fifteen hops and 5 at four hops. *)
Definition rip_router : Router.t :=
  Router.initialize IntLibc.libc 20 "RIP" "5:0" 2 10 1 5 30.

Definition rip_update : Frame :=
  set_priority PRIORITY_NORMAL
    (set_par "routes" (PString "7:1:1,9:2:15,5:3:4,")
       (mk "RIP_UPDATE" RIP_UPDATE 21 (-1))).

Definition lsdb_before (now : simtime_t) (s : Router.t) : Prop :=
  forall k r, Router.linkStateDB s !! k = Some r -> ls_timestamp r <= now.

(** Two LSAs of router 1 for its link 0: one originated at 1 s, one at 2 s,
    after the router has forwarded a frame over that link. *)
Definition ospf_A : Router.t :=
  Router.initialize IntLibc.libc 1 "OSPF-TE" "9:0" 2 10 1 5 30.

Definition ospf_A_loaded : option (Router.t * list Router.Output) :=
  Router.handleMessage IntLibc.libc ospf_A (second + second / 2)
    (Router.Arrival (mk "HTTP_GET" HTTP_GET 5 9) 1).

Definition lsa_old : LinkState * Frame := Router.originate ospf_A second 0.

Definition lsa_new : LinkState * Frame :=
  match ospf_A_loaded with
  | Some (a, _) => Router.originate a (2 * second) 0
  | None => lsa_old
  end.

(** Router 2 takes in the newer LSA at 3 s, then the older one at 4 s. *)
Definition ospf_B : Router.t :=
  Router.initialize IntLibc.libc 2 "OSPF-TE" "" 2 10 1 5 30.

Definition ospf_B_new : option (Router.t * list Router.Output) :=
  Router.handleOSPFLSA ospf_B (3 * second) 0 lsa_new.2.

Definition ospf_B_old : option (Router.t * list Router.Output) :=
  match ospf_B_new with
  | Some (b, _) => Router.handleOSPFLSA b (4 * second) 1 lsa_old.2
  | None => None
  end.

(** Every priority queue is empty and there is one per gate. *)
Definition queues_empty (s : Router.t) : Prop :=
  Forall (fun q : list Frame => q = []) (Router.outputQueues s)
  /\ length (Router.outputQueues s) = Z.to_nat (Router.gateSize s).

(** The history [w] of a channel is serial up to [busy]: its transmissions,
    most recent first, end by [busy] and each starts when the one before
    it has ended. *)
Fixpoint serial (busy : simtime_t) (w : list Link.Transmission) : Prop :=
  match w with
  | [] => True
  | x :: rest =>
      Link.tx_finish x <= busy
      /\ Link.tx_start x <= Link.tx_finish x
      /\ serial (Link.tx_start x) rest
  end.

(** What holds between two events of a node that sends through the
    transmitter only: the history is serial; a pending end-of-transmission
    event is due exactly at the channel's busy-until time; and with no such
    event pending the channel is idle and the FIFO is empty. *)
Definition tx_inv (now : simtime_t) (tx : Link.Transmitter) : Prop :=
  serial (Link.txFinishTime (Link.channel tx)) (Link.wire (Link.channel tx))
  /\ match Link.endTxEvent tx with
     | Some te => te = Link.txFinishTime (Link.channel tx) /\ now <= te
     | None => Link.txFinishTime (Link.channel tx) <= now /\ Link.txQueue tx = []
     end.

(** A 10 Mbit/s channel: 100000 ticks per bit. *)
Definition dur_10Mbps (m : Frame) : simtime_t := byteLength m * 8 * 100000.

Definition millisecond : Z := second / 1000.

(** The GET of client 1 over its connection to server 3, and the GET of
    client 4 over UDP, as the client builds them. *)
Definition tcp_get : Frame :=
  match PC.sendHTTPDataTCP pc_established 3 with
  | Some (_, SendOnGate m :: _) => m
  | _ => mk "HTTP_GET" TCP_DATA 1 3
  end.

Definition udp_get : Frame :=
  match PC.sendHTTPRequestUDP (PC.initialize 4 2) 3 with
  | Some (SendOnGate m :: _) => m
  | _ => mk "HTTP_GET" UDP_DATA 4 3
  end.

(** Server 3 with a service time of one millisecond. *)
Definition http_server : HTTP.t := HTTP.initialize 3 10 4096 (1 # 1000) 0.

(** A GET of high priority from client 4. *)
Definition high_get : Frame :=
  set_priority PRIORITY_HIGH
    (set_par "path" (PString "/") (mk "HTTP_GET" HTTP_GET 4 3)).

(** ** Notions for the further properties *)

(** A channel on which every frame takes 0.8 ms. *)
Definition dur_fixed (m : Frame) : simtime_t := 800000000.

(** The frames a transmitter has been given that are on the channel's
    history, oldest first, followed by those that wait in the FIFO. *)
Definition frames_of (tx : Link.Transmitter) : list Frame :=
  map Link.tx_frame (rev (Link.wire (Link.channel tx))) ++ Link.txQueue tx.

(** [Link.reachable] with the frames handed to [sendPacketOnGate] so far,
    in the order of the calls. *)
Inductive handed (dur : Frame -> simtime_t)
  : list Frame -> simtime_t -> Link.Transmitter -> Prop :=
  | handed_init : handed dur [] 0 Link.init
  | handed_send sent now tx t m :
      handed dur sent now tx ->
      now <= t ->
      (forall te, Link.endTxEvent tx = Some te -> t <= te) ->
      handed dur (sent ++ [m]) t (Link.sendPacketOnGate dur t m tx)
  | handed_endTx sent now tx te :
      handed dur sent now tx ->
      Link.endTxEvent tx = Some te ->
      handed dur sent te (Link.handleEndTx dur te tx).

(** The scheduler delivers up to [n] pending end-of-transmission events,
    each at its time, and nothing else. *)
Fixpoint drain (dur : Frame -> simtime_t) (n : nat) (tx : Link.Transmitter)
  : Link.Transmitter :=
  match n with
  | O => tx
  | S k =>
      match Link.endTxEvent tx with
      | Some te => drain dur k (Link.handleEndTx dur te tx)
      | None => tx
      end
  end.

(** The transmitter of one router gate ([router.cc]): [txQueue[g]],
    [endTxEvent[g]] and the channel of gate [g].  The functions of the
    router touch the entries of their gate only. *)
Module RouterLink.

Definition startTransmission (dur : Frame -> simtime_t) (now : simtime_t)
    (msg : Frame) (tx : Link.Transmitter) : Link.Transmitter :=
  let ch := Link.channel_send dur now msg (Link.channel tx) in
  let finishTime := Link.txFinishTime ch in
  {| Link.txQueue := Link.txQueue tx;
     Link.endTxEvent :=
       if now <? finishTime then Some finishTime else Link.endTxEvent tx;
     Link.channel := ch |}.

Definition sendPacketOnGate (dur : Frame -> simtime_t) (now : simtime_t)
    (msg : Frame) (tx : Link.Transmitter) : Link.Transmitter :=
  let finishTime := Link.txFinishTime (Link.channel tx) in
  if now <? finishTime then Link.enqueue msg tx
  else startTransmission dur now msg tx.

(** The branch [msg == endTxEvent[i]] of [handleSelfMessage]. *)
Definition handleEndTx (dur : Frame -> simtime_t) (now : simtime_t)
    (tx : Link.Transmitter) : Link.Transmitter :=
  match Link.txQueue tx with
  | [] => {| Link.txQueue := []; Link.endTxEvent := None;
             Link.channel := Link.channel tx |}
  | nextMsg :: rest =>
      startTransmission dur now nextMsg
        {| Link.txQueue := rest; Link.endTxEvent := None;
           Link.channel := Link.channel tx |}
  end.

(** What the scheduler may deliver to the transmitter of a gate. *)
Inductive reachable (dur : Frame -> simtime_t)
  : simtime_t -> Link.Transmitter -> Prop :=
  | reach_init : reachable dur 0 Link.init
  | reach_send now tx t m :
      reachable dur now tx ->
      now <= t ->
      (forall te, Link.endTxEvent tx = Some te -> t <= te) ->
      reachable dur t (sendPacketOnGate dur t m tx)
  | reach_endTx now tx te :
      reachable dur now tx ->
      Link.endTxEvent tx = Some te ->
      reachable dur te (handleEndTx dur te tx).

End RouterLink.

(** What holds of a router gate between two events. *)
Definition rtx_inv (now : simtime_t) (tx : Link.Transmitter) : Prop :=
  serial (Link.txFinishTime (Link.channel tx)) (Link.wire (Link.channel tx))
  /\ match Link.endTxEvent tx with
     | Some te => te = Link.txFinishTime (Link.channel tx) /\ now <= te
     | None => Link.txFinishTime (Link.channel tx) <= now
     end.

(** The connection that server 3 holds for client 1 when it has accepted the
    client's SYN of sequence number 5000 and drawn 7000 ([http_connected]). *)
Definition conn_from_1 : TCPConnection :=
  {| remoteAddr := 1; state := TCP_SYN_RECEIVED; sendSeq := 7001; recvSeq := 5001;
     conn_cwnd := 1; conn_ssthresh := 64; rtt := 0; lastSent := 0;
     sharedKey := EmptyString |}.

(** Some byte of [data] collides with the key stream: the byte at index
    [i + j] of the message, [j] being its index in [data], equals its key
    byte XOR 0xAA, so that its cipher byte is NUL. *)
Fixpoint collides (key : string) (i : nat) (data : string) : bool :=
  match data with
  | EmptyString => false
  | String c rest =>
      match String.get (i mod String.length key) key with
      | Some k => Ascii.eqb c (xor_char k char_AA) || collides key (S i) rest
      | None => false
      end
  end.


(** The cipher text of a path under the key ["key"]. *)
Definition cipher_example : string :=
  default EmptyString (simpleEncrypt "/index.html" "key").

(** The states a client passes through: [initialize()], then the start
    event, arriving frames and congestion timeouts in any order.  (The
    retransmit timer only logs, and the end-of-transmission event concerns
    the transmitter alone.) *)
Inductive pc_run (qname protocol : string) (address dns : Z) : PC.t -> Prop :=
  | pc_run_init : pc_run qname protocol address dns (PC.initialize address dns)
  | pc_run_start s now seq retransmit s' acts retransmit' :
      pc_run qname protocol address dns s ->
      PC.start qname protocol s now seq retransmit = Some (s', acts, retransmit') ->
      pc_run qname protocol address dns s'
  | pc_run_frame s now seq msg s' acts :
      pc_run qname protocol address dns s ->
      PC.handleFrame qname protocol s now seq msg = Some (s', acts) ->
      pc_run qname protocol address dns s'
  | pc_run_timeout s :
      pc_run qname protocol address dns s ->
      pc_run qname protocol address dns (PC.handleCongestionTimeout s).

(** What a handler other than those of the congestion control leaves as it
    is. *)
Definition same_congestion (s s' : PC.t) : Prop :=
  PC.cwnd s' = PC.cwnd s /\ PC.ssthresh s' = PC.ssthresh s
  /\ PC.dupAckCount s' = PC.dupAckCount s.

(** The states an HTTP server passes through: [initialize()], then arriving
    frames, sweeps of [synFloodCheckTimer] and firings of [sendQueueTimer]
    in any order.  (The end-of-transmission event concerns the transmitter
    alone.) *)
Inductive http_run : HTTP.t -> Prop :=
  | http_run_init address limit pageSize service now :
      http_run (HTTP.initialize address limit pageSize service now)
  | http_run_frame s now serverSeq msg s' acts :
      http_run s ->
      HTTP.handleFrame s now serverSeq msg = Some (s', acts) ->
      http_run s'
  | http_run_sweep s now :
      http_run s -> http_run (HTTP.synFloodCheck s now)
  | http_run_queue s now :
      http_run s -> http_run (HTTP.processSendQueue s now).1.

(** The connection table and the two window maps of a server agree. *)
Definition conn_inv (s : HTTP.t) : Prop :=
  forall src,
    match HTTP.tcpConnections s !! src with
    | Some c =>
        remoteAddr c = src
        /\ (state c = TCP_SYN_RECEIVED \/ state c = TCP_ESTABLISHED)
        /\ (exists w, HTTP.cwndMap s !! src = Some w /\ (1 <= w)%Q)
        /\ HTTP.ssthreshMap s !! src = Some 64%Q
    | None => HTTP.cwndMap s !! src = None /\ HTTP.ssthreshMap s !! src = None
    end.

(** A queue in which no frame has a higher priority than a frame before
    it. *)
Fixpoint descending (q : list Frame) : Prop :=
  match q with
  | [] => True
  | x :: rest => Forall (fun y => PRIORITY y <= PRIORITY x) rest /\ descending rest
  end.

(** The queued responses are in descending order, below high priority,
    and their priority parameter holds an [int] (so that [PRIORITY()] reads
    it back unchanged). *)
Definition queue_inv (s : HTTP.t) : Prop :=
  descending (HTTP.responseQueue s)
  /\ Forall (fun m => PRIORITY m < PRIORITY_HIGH) (HTTP.responseQueue s)
  /\ Forall (fun m => PRIORITY_int m = PRIORITY m) (HTTP.responseQueue s)
  /\ (HTTP.sendQueueTimer s = None <-> HTTP.responseQueue s = []).

(** Server 3 holding the response to the GET of client 1 in its queue. *)
Definition http_queued : HTTP.t :=
  match HTTP.handleFrame http_server second 0 tcp_get with
  | Some (s, _) => s
  | None => http_server
  end.

Definition queued_response : Frame :=
  match HTTP.responseQueue http_queued with
  | m :: _ => m
  | [] => mk "HTTP_RESPONSE" HTTP_RESPONSE 3 1
  end.

(** One state of a router and a later one: any number of handled events
    in between. *)
Inductive router_steps (libc : Router.Libc) : Router.t -> Router.t -> Prop :=
  | steps_refl s : router_steps libc s s
  | steps_step s s1 t ev s2 out :
      router_steps libc s s1 ->
      Router.handleMessage libc s1 t ev = Some (s2, out) ->
      router_steps libc s s2.

(** What holds of every entry of a routing table. *)
Definition routes_wf (rt : gmap Z RouteEntry) : Prop :=
  forall dest e, rt !! dest = Some e -> destAddr e = dest /\ hopCount e < 16.

(** A series of events handled by a router, each at its time; the outputs
    are not recorded. *)
Fixpoint run_events (libc : Router.Libc) (s : Router.t)
    (l : list (simtime_t * Router.Event)) : option Router.t :=
  match l with
  | [] => Some s
  | (t, ev) :: rest =>
      match Router.handleMessage libc s t ev with
      | Some (s', _) => run_events libc s' rest
      | None => None
      end
  end.

(** The event is the arrival of a SYN from [src]. *)
Definition is_syn_from (src : Z) (ev : Router.Event) : bool :=
  match ev with
  | Router.Arrival m _ => (kind m =? TCP_SYN) && (SRC m =? src)
  | _ => false
  end.

(** The event is the firing of [rateLimitResetTimer]. *)
Definition is_reset (ev : Router.Event) : bool :=
  match ev with
  | Router.Fired Router.rateLimitResetTimer => true
  | _ => false
  end.

(** [synCounts[src]] of a router: zero when the source has no entry. *)
Definition router_count (s : Router.t) (src : Z) : Z :=
  default 0 (Router.synCounts s !! src).

(** The router of [rip_router] after the update [rip_update]. *)
Definition rip_router_updated : Router.t :=
  match Router.handleRIPUpdate IntLibc.libc rip_router 1000 1 rip_update with
  | Some (s, _) => s
  | None => rip_router
  end.

(** The router of [ospf_A] after it has forwarded a frame over its link 0. *)
Definition ospf_A_after : Router.t :=
  match ospf_A_loaded with
  | Some (a, _) => a
  | None => ospf_A
  end.

(** A router that lets two SYNs per source through, and two SYNs of client 1
    on their way to server 3. *)
Definition syn_router : Router.t :=
  Router.initialize IntLibc.libc 20 "STATIC" "3:0" 2 2 1 5 30.

Definition two_syns : list (simtime_t * Router.Event) :=
  [(0, Router.Arrival (syn_from 1 3 5000) 1);
   (10, Router.Arrival (syn_from 1 3 5001) 1)].

Definition syn_router_after : Router.t :=
  default syn_router (run_events IntLibc.libc syn_router two_syns).

(** Every call in [acts] is a [sendPacketOnGate]. *)
Definition only_gate (acts : list Action) : Prop :=
  Forall (fun a => match a with SendOnGate _ => True | SendDelayed _ _ => False end) acts.

(** The client with its transmitter: the states and times that the
    scheduler can produce.  An event is delivered at a time that is not in
    the past and not after the pending end-of-transmission event. *)
Inductive pc_node (dur : Frame -> simtime_t) (qname protocol : string)
    (address dns : Z) : simtime_t -> PC.t -> Link.Transmitter -> Prop :=
  | pc_node_init :
      pc_node dur qname protocol address dns 0 (PC.initialize address dns) Link.init
  | pc_node_start now s tx t seq retransmit s' acts retransmit' :
      pc_node dur qname protocol address dns now s tx ->
      now <= t ->
      (forall te, Link.endTxEvent tx = Some te -> t <= te) ->
      PC.start qname protocol s t seq retransmit = Some (s', acts, retransmit') ->
      pc_node dur qname protocol address dns t s' (Link.perform_all dur t acts tx)
  | pc_node_frame now s tx t seq msg s' acts :
      pc_node dur qname protocol address dns now s tx ->
      now <= t ->
      (forall te, Link.endTxEvent tx = Some te -> t <= te) ->
      PC.handleFrame qname protocol s t seq msg = Some (s', acts) ->
      pc_node dur qname protocol address dns t s' (Link.perform_all dur t acts tx)
  | pc_node_timeout now s tx t :
      pc_node dur qname protocol address dns now s tx ->
      now <= t ->
      (forall te, Link.endTxEvent tx = Some te -> t <= te) ->
      pc_node dur qname protocol address dns t (PC.handleCongestionTimeout s) tx
  | pc_node_endTx now s tx te :
      pc_node dur qname protocol address dns now s tx ->
      Link.endTxEvent tx = Some te ->
      pc_node dur qname protocol address dns te s (Link.handleEndTx dur te tx).

(** The DNS server with its transmitter. *)
Inductive dns_node (dur : Frame -> simtime_t) (address answerAddr : Z) (limit : Q)
  : simtime_t -> DNS.t -> Link.Transmitter -> Prop :=
  | dns_node_init :
      dns_node dur address answerAddr limit 0
        (DNS.initialize address answerAddr limit) Link.init
  | dns_node_frame now s tx t serverSeq msg s' acts :
      dns_node dur address answerAddr limit now s tx ->
      now <= t ->
      (forall te, Link.endTxEvent tx = Some te -> t <= te) ->
      DNS.handleFrame s serverSeq msg = Some (s', acts) ->
      dns_node dur address answerAddr limit t s' (Link.perform_all dur t acts tx)
  | dns_node_reset now s tx t :
      dns_node dur address answerAddr limit now s tx ->
      now <= t ->
      (forall te, Link.endTxEvent tx = Some te -> t <= te) ->
      dns_node dur address answerAddr limit t (DNS.rateLimitReset s) tx
  | dns_node_endTx now s tx te :
      dns_node dur address answerAddr limit now s tx ->
      Link.endTxEvent tx = Some te ->
      dns_node dur address answerAddr limit te s (Link.handleEndTx dur te tx).

(** What client 1 hands to its transmitter at its start event at 1 s, and the
    transmitter afterwards. *)
Definition pc_start_acts : list Action :=
  match PC.start "example.com" "UDP" (PC.initialize 1 2) second 4242 None with
  | Some (_, acts, _) => acts
  | None => []
  end.

Definition pc_started_tx : Link.Transmitter :=
  Link.perform_all dur_fixed second pc_start_acts Link.init.

(** The query of client 1 over UDP, the DNS server 2 after it has handled the
    query at 1 s, what it hands to its transmitter, and the transmitter
    afterwards. *)
Definition dns_query_example : Frame :=
  set_par "protocol" (PString "UDP")
    (set_priority PRIORITY_HIGH
       (set_par "qname" (PString "example.com") (mk "DNS_QUERY" DNS_QUERY 1 2))).

Definition dns_answered : DNS.t * list Action :=
  default (DNS.initialize 2 3 100, [])
    (DNS.handleFrame (DNS.initialize 2 3 100) 0 dns_query_example).

Definition dns_answered_tx : Link.Transmitter :=
  Link.perform_all dur_fixed second dns_answered.2 Link.init.

(** A series of frames handled by the DNS server, each with the server's
    random draw; the replies are not recorded. *)
Fixpoint dns_burst (s : DNS.t) (l : list (Z * Frame)) : option DNS.t :=
  match l with
  | [] => Some s
  | (serverSeq, msg) :: rest =>
      match DNS.handleFrame s serverSeq msg with
      | Some (s', _) => dns_burst s' rest
      | None => None
      end
  end.

(** The frames of [l] that come from [src]. *)
Definition frames_from (src : Z) (l : list (Z * Frame)) : list (Z * Frame) :=
  List.filter (fun e => SRC e.2 =? src) l.

(** A DNS server 2 that lets two frames per source through, and the first
    two frames of client 1. *)
Definition dns_limited : DNS.t := DNS.initialize 2 3 2.

Definition dns_two : list (Z * Frame) :=
  [(0, key_exchange_from_1 2); (0, dns_query_example)].

Definition dns_limited_after : DNS.t :=
  default dns_limited (dns_burst dns_limited dns_two).

(** The text has no comma and no NUL byte. *)
Fixpoint clean (s : string) : bool :=
  match s with
  | EmptyString => true
  | String c rest => negb (Ascii.eqb c ","%char) && negb (Ascii.eqb c zero) && clean rest
  end.

(** The item that [sendRIPUpdate] writes for one entry of the table,
    without its final comma. *)
Definition rip_item (libc : Router.Libc) (e : Z * RouteEntry) : string :=
  (Router.dec_of_Z e.1 ++ ":" ++ Router.show_double libc (metric e.2) ++ ":"
     ++ Router.dec_of_Z (hopCount e.2))%string.

(** The update that the router of [rip_router] advertises, and a neighbour
    with an empty table. *)
Definition rip_advert : Frame :=
  set_priority PRIORITY_NORMAL
    (set_par "routes"
       (PString (Router.routes_payload IntLibc.libc (Router.routingTable rip_router)))
       (mk "RIP_UPDATE" RIP_UPDATE 20 (-1))).

Definition rip_neighbour : Router.t :=
  Router.initialize IntLibc.libc 21 "RIP" "" 2 10 1 5 30.

(** [n] rounds of a key exchange between two clients: [c1] handles the
    frame, [c2] handles the reply of [c1], and so on with the reply of
    [c2].  The result is the two clients and the frame in flight after the
    last round; [None] when a handler fails or stays silent. *)
Fixpoint key_rounds (n : nat) (c1 c2 : PC.t) (msg : Frame)
  : option (PC.t * PC.t * Frame) :=
  match n with
  | O => Some (c1, c2, msg)
  | S k =>
      match PC.handleKeyExchange c1 msg with
      | Some (c1', [SendOnGate r1]) =>
          match PC.handleKeyExchange c2 r1 with
          | Some (c2', [SendOnGate r2]) => key_rounds k c1' c2' r2
          | _ => None
          end
      | _ => None
      end
  end.

(** The key-exchange frame that a client 4 sends to client 1. *)
Definition key_exchange_from_4 : Frame :=
  set_priority PRIORITY_HIGH
    (set_par "publicKey" (PString (PC.myPublicKey (PC.initialize 4 2)))
       (mk "KEY_EXCHANGE" KEY_EXCHANGE 4 1)).

(** Client 1 after it has sent its SYN (sequence number 4242) to server 3,
    the SYN-ACK of the server, and the client after it has handled it. *)
Definition pc_syn_sent : PC.t :=
  (PC.sendHTTPRequestTCP (PC.initialize 1 2) second 4242 3).1.

Definition syn_ack_example : Frame :=
  set_par "synCookie" (PLong (generateSYNCookie 3 1 7001))
    (set_priority PRIORITY_HIGH
       (set_ack 4243 (set_seq 7001 (mk "TCP_SYN_ACK" TCP_SYN_ACK 3 1)))).

Definition pc_syn_acked : PC.t * list Action :=
  default (pc_syn_sent, [])
    (PC.handleTCPSynAck "example.com" pc_syn_sent syn_ack_example).

(** * Properties *)

(** ** Arithmetic of doubles and machine words *)

Lemma Qltb_lt (x y : Q) : Qltb x y = true <-> (x < y)%Q.
Proof.
  unfold Qltb. rewrite negb_true_iff. split.
  - intros H. apply Qnot_le_lt. intros Hle.
    apply Qle_bool_iff in Hle. congruence.
  - intros H. destruct (Qle_bool y x) eqn:E; [|reflexivity].
    apply Qle_bool_iff in E. exfalso. apply (Qlt_not_le _ _ H E).
Qed.

Lemma Qltb_ge (x y : Q) : Qltb x y = false <-> (y <= x)%Q.
Proof.
  unfold Qltb. rewrite negb_false_iff. apply Qle_bool_iff.
Qed.


Lemma wrap32_small (z : Z) : - 2 ^ 31 <= z < 2 ^ 31 -> wrap32 z = z.
Proof.
  intros H. unfold wrap32. rewrite Z.mod_small; lia.
Qed.

(** Wrapping to 64 bits leaves the low 24 bits alone. *)
Lemma wrap64_low24 (z : Z) : Z.land (wrap64 z) 0xFFFFFF = Z.land z 0xFFFFFF.
Proof.
  change 0xFFFFFF with (Z.ones 24).
  rewrite !Z.land_ones by lia. unfold wrap64.
  change (2 ^ 24) with 16777216. change (2 ^ 63) with (16777216 * 549755813888).
  change (2 ^ 64) with (16777216 * 1099511627776).
  Z.to_euclidean_division_equations. lia.
Qed.

Lemma shiftl24_low24 (z : Z) : Z.land (Z.shiftl z 24) 0xFFFFFF = 0.
Proof.
  change 0xFFFFFF with (Z.ones 24).
  rewrite Z.land_ones by lia. rewrite Z.shiftl_mul_pow2 by lia.
  apply Z.mod_mul. lia.
Qed.

(** ** SYN cookies *)

(** The low 24 bits of a cookie are the XOR-fold of the three inputs and the
    secret. *)
Lemma generateSYNCookie_low24 (src dst seq : Z) :
  Z.land (generateSYNCookie src dst seq) 0xFFFFFF
  = Z.land (Z.lxor (Z.lxor (Z.lxor src dst) seq) secret) 0xFFFFFF.
Proof.
  unfold generateSYNCookie.
  rewrite Z.land_lor_distr_l, wrap64_low24, shiftl24_low24, Z.lor_0_r.
  rewrite <- Z.land_assoc. f_equal.
Qed.

Lemma validateSYNCookie_spec (cookie src dst seq : Z) :
  validateSYNCookie cookie src dst seq = true
  <-> Z.land cookie 0xFFFFFF = Z.land (generateSYNCookie src dst seq) 0xFFFFFF.
Proof. unfold validateSYNCookie. cbv zeta. apply Z.eqb_eq. Qed.

Lemma validateSYNCookie_generate (src dst seq : Z) :
  validateSYNCookie (generateSYNCookie src dst seq) src dst seq = true.
Proof. apply validateSYNCookie_spec. reflexivity. Qed.

(** A SYN whose cookie fails validation is answered by nothing and creates
    no connection, whether or not the rate limiter lets it through. *)
Lemma handleTCPSyn_bad_cookie (s : HTTP.t) (now : simtime_t) (serverSeq : Z)
    (msg : Frame) (cookie : Z) :
  par_long "synCookie" msg = Some cookie ->
  validateSYNCookie cookie (SRC msg) (HTTP.addr s) (SEQ msg) = false ->
  exists s',
    HTTP.handleTCPSyn s now serverSeq msg = Some (s', [])
    /\ HTTP.tcpConnections s' = HTTP.tcpConnections s.
Proof.
  intros Hpar Hbad. unfold HTTP.handleTCPSyn. cbv zeta.
  destruct (Qltb _ _).
  - eexists. split; reflexivity.
  - unfold HTTP.cookieStage. rewrite Hpar. cbn [mbind option_bind].
    change (HTTP.addr (HTTP.countSyn s now msg)) with (HTTP.addr s).
    rewrite Hbad. cbn [negb]. eexists. split; reflexivity.
Qed.

(** C2.  [validateSYNCookie] accepts a cookie exactly when its low 24 bits
    are those of [generateSYNCookie] for the same source, destination and
    sequence number (which are the low 24 bits of the XOR of the three with
    the secret); a generated cookie always validates; and the server answers
    a SYN whose cookie fails with no frame and no new connection. *)
Theorem C2_syn_cookie_validation :
  (forall cookie src dst seq : Z,
      validateSYNCookie cookie src dst seq = true
      <-> Z.land cookie 0xFFFFFF = Z.land (generateSYNCookie src dst seq) 0xFFFFFF)
  /\ (forall src dst seq : Z,
         Z.land (generateSYNCookie src dst seq) 0xFFFFFF
         = Z.land (Z.lxor (Z.lxor (Z.lxor src dst) seq) secret) 0xFFFFFF)
  /\ (forall src dst seq : Z,
         validateSYNCookie (generateSYNCookie src dst seq) src dst seq = true)
  /\ (forall (s : HTTP.t) (now : simtime_t) (serverSeq : Z) (msg : Frame) (cookie : Z),
         par_long "synCookie" msg = Some cookie ->
         validateSYNCookie cookie (SRC msg) (HTTP.addr s) (SEQ msg) = false ->
         exists s',
           HTTP.handleTCPSyn s now serverSeq msg = Some (s', [])
           /\ HTTP.tcpConnections s' = HTTP.tcpConnections s).
Proof.
  split; [exact validateSYNCookie_spec|].
  split; [exact generateSYNCookie_low24|].
  split; [exact validateSYNCookie_generate|].
  exact handleTCPSyn_bad_cookie.
Qed.

(** On a fresh server 3, a SYN of client 1 whose cookie is off by one gets no
    reply and no connection. *)
Lemma C2_witness :
  validateSYNCookie (generateSYNCookie 1 3 5000 + 1) 1 3 5000 = false
  /\ exists s',
       HTTP.handleTCPSyn (HTTP.initialize 3 10 4096 (1 # 100) 0) 7 4242 bad_syn
       = Some (s', [])
       /\ HTTP.tcpConnections s' = HTTP.tcpConnections (HTTP.initialize 3 10 4096 (1 # 100) 0).
Proof.
  split; [reflexivity|].
  apply (proj2 (proj2 (proj2 C2_syn_cookie_validation))
           (HTTP.initialize 3 10 4096 (1 # 100) 0) 7 4242 bad_syn
           (generateSYNCookie 1 3 5000 + 1));
    reflexivity.
Defined.

(** ** XOR encryption *)

Lemma xor_char_cancel (c k : ascii) :
  xor_char (xor_char (xor_char (xor_char c k) char_AA) k) char_AA = c.
Proof.
  destruct c as [c0 c1 c2 c3 c4 c5 c6 c7], k as [k0 k1 k2 k3 k4 k5 k6 k7].
  cbn. f_equal; [destruct c0, k0|destruct c1, k1|destruct c2, k2|destruct c3, k3
                |destruct c4, k4|destruct c5, k5|destruct c6, k6|destruct c7, k7];
    reflexivity.
Qed.

Lemma get_in_range (s : string) (n : nat) :
  (n < String.length s)%nat -> exists c, String.get n s = Some c.
Proof.
  revert n. induction s as [|a s IH]; intros n Hn; cbn in Hn; [lia|].
  destruct n as [|n]; cbn; [eauto|]. apply IH. lia.
Qed.

Lemma key_char (key : string) (i : nat) :
  key <> EmptyString ->
  exists k, String.get (i mod String.length key) key = Some k.
Proof.
  intros Hk. apply get_in_range. apply Nat.mod_upper_bound.
  destruct key; [congruence|cbn; lia].
Qed.

(** Encrypting from index [i] succeeds, and encrypting the result from the
    same index gives the input back. *)
Lemma encrypt_from_involutive (key : string) :
  key <> EmptyString ->
  forall (data : string) (i : nat),
    exists e, encrypt_from key i data = Some e /\ encrypt_from key i e = Some data.
Proof.
  intros Hk. induction data as [|c rest IH]; intros i.
  - exists EmptyString. split; reflexivity.
  - destruct (key_char key i Hk) as [k Hget].
    destruct (IH (S i)) as [e [He Hback]].
    exists (String (xor_char (xor_char c k) char_AA) e).
    cbn [encrypt_from]. rewrite Hget, He, Hback, xor_char_cancel.
    split; reflexivity.
Qed.

(** C6.  With a non-empty key, [simpleEncrypt] returns a string that
    [simpleDecrypt] under the same key maps back to the input. *)
Theorem C6_xor_involution (x k : string) :
  k <> EmptyString ->
  exists e, simpleEncrypt x k = Some e /\ simpleDecrypt e k = Some x.
Proof.
  intros Hk. unfold simpleDecrypt, simpleEncrypt.
  apply encrypt_from_involutive. exact Hk.
Qed.

(** The database query of the client under the key ["key"]. *)
Lemma C6_witness :
  "key"%string <> EmptyString
  /\ exists e, simpleEncrypt "SELECT * FROM users" "key" = Some e
               /\ simpleDecrypt e "key" = Some "SELECT * FROM users"%string.
Proof.
  split; [discriminate|].
  apply (C6_xor_involution "SELECT * FROM users" "key"). discriminate.
Defined.

(** ** Congestion window of the client *)

Lemma cwnd_step_ge (w : Q) : (1 <= w)%Q -> (w <= w * 2)%Q /\ (w <= w + 1 / w)%Q.
Proof.
  intros Hw. split; [lra|].
  assert (Hinv : (0 < / w)%Q) by (apply Qinv_lt_0_compat; lra).
  unfold Qdiv. rewrite Qmult_1_l. lra.
Qed.

(** The window does not decrease either when each operation is rounded,
    as long as rounding is monotone and leaves the old window and zero as
    they are. *)
Lemma window_after_ack_rounded (rnd : Q -> Q) (w th : Q) :
  (forall x y, (x <= y)%Q -> (rnd x <= rnd y)%Q) ->
  (rnd w == w)%Q ->
  (rnd 0 == 0)%Q ->
  (1 <= w)%Q ->
  (w <= PC.window_after_ack rnd w th)%Q.
Proof.
  intros Hmono Hw H0 Hge. unfold PC.window_after_ack.
  apply Qle_trans with (rnd w); [rewrite Hw; apply Qle_refl|].
  destruct (Qltb w th); apply Hmono.
  - lra.
  - assert (Hinv : (0 < / w)%Q) by (apply Qinv_lt_0_compat; lra).
    assert (Hpos : (0 <= rnd (1 / w))%Q).
    { rewrite <- H0. apply Hmono. unfold Qdiv. rewrite Qmult_1_l. lra. }
    lra.
Qed.

(** C5.  When the client handles an ACK with [cwnd >= 1], the window does
    not decrease; it doubles below [ssthresh] and grows by [1/cwnd] at or
    above it. *)
Theorem C5_cwnd_never_decreases (s : PC.t) (msg : Frame) :
  (1 <= PC.cwnd s)%Q ->
  (PC.cwnd s <= PC.cwnd (PC.handleTCPAck s msg).1)%Q
  /\ ((PC.cwnd s < PC.ssthresh s)%Q ->
      PC.cwnd (PC.handleTCPAck s msg).1 = (PC.cwnd s * 2)%Q)
  /\ ((PC.ssthresh s <= PC.cwnd s)%Q ->
      PC.cwnd (PC.handleTCPAck s msg).1 = (PC.cwnd s + 1 / PC.cwnd s)%Q).
Proof.
  intros Hw. destruct (cwnd_step_ge _ Hw) as [Hdouble Hadd].
  unfold PC.handleTCPAck, PC.window_after_ack. cbn [fst PC.cwnd PC.with_congestion].
  destruct (Qltb (PC.cwnd s) (PC.ssthresh s)) eqn:E.
  - apply Qltb_lt in E. repeat split; auto. intros Hge. exfalso. lra.
  - apply Qltb_ge in E. repeat split; auto. intros Hlt. exfalso. lra.
Qed.

(** A client in congestion avoidance ([cwnd = ssthresh = 64]) handles an
    ACK. *)
Lemma C5_witness :
  (1 <= PC.cwnd pc_avoidance)%Q
  /\ (PC.cwnd pc_avoidance
      <= PC.cwnd (PC.handleTCPAck pc_avoidance (mk "TCP_ACK" TCP_ACK 3 1)).1)%Q
  /\ ((PC.cwnd pc_avoidance < PC.ssthresh pc_avoidance)%Q ->
      PC.cwnd (PC.handleTCPAck pc_avoidance (mk "TCP_ACK" TCP_ACK 3 1)).1
      = (PC.cwnd pc_avoidance * 2)%Q)
  /\ ((PC.ssthresh pc_avoidance <= PC.cwnd pc_avoidance)%Q ->
      PC.cwnd (PC.handleTCPAck pc_avoidance (mk "TCP_ACK" TCP_ACK 3 1)).1
      = (PC.cwnd pc_avoidance + 1 / PC.cwnd pc_avoidance)%Q).
Proof.
  split; [discriminate|].
  apply (C5_cwnd_never_decreases pc_avoidance (mk "TCP_ACK" TCP_ACK 3 1)).
  discriminate.
Defined.

(** ** TCP teardown *)

(** The client answers the FIN of server 3 and keeps the connection entry,
    marked closed: the entry is not removed. *)
Lemma C8_counterexample :
  PC.tcpConnections pc_established !! 3 = Some conn_to_3
  /\ (PC.handleTCPFin pc_established (mk "TCP_FIN" TCP_FIN 3 1)).2
     = [SendOnGate (fin_reply 1 3)]
  /\ PC.tcpConnections (PC.handleTCPFin pc_established (mk "TCP_FIN" TCP_FIN 3 1)).1 !! 3
     = Some (PC.set_state TCP_CLOSED conn_to_3)
  /\ PC.tcpConnections (PC.handleTCPFin pc_established (mk "TCP_FIN" TCP_FIN 3 1)).1 !! 3
     <> None.
Proof.
  split; [reflexivity|]. split; [reflexivity|].
  assert (H : PC.tcpConnections
                (PC.handleTCPFin pc_established (mk "TCP_FIN" TCP_FIN 3 1)).1 !! 3
              = Some (PC.set_state TCP_CLOSED conn_to_3)) by reflexivity.
  split; [exact H|]. rewrite H. discriminate.
Qed.

(** C8 (amended).  On a FIN the HTTP server sends a FIN reply to the peer and
    erases the peer from its connection map and from both window maps; the
    client sends the same reply but keeps an entry for the peer, in state
    closed (default-constructed when there was none).  Other peers' entries
    are untouched on both. *)
Theorem C8_fin_teardown :
  (forall (s : HTTP.t) (msg : Frame),
      (HTTP.handleTCPFin s msg).2 = [SendOnGate (fin_reply (HTTP.addr s) (SRC msg))]
      /\ HTTP.tcpConnections (HTTP.handleTCPFin s msg).1 !! SRC msg = None
      /\ HTTP.cwndMap (HTTP.handleTCPFin s msg).1 !! SRC msg = None
      /\ HTTP.ssthreshMap (HTTP.handleTCPFin s msg).1 !! SRC msg = None
      /\ (forall p : Z, p <> SRC msg ->
            HTTP.tcpConnections (HTTP.handleTCPFin s msg).1 !! p
            = HTTP.tcpConnections s !! p))
  /\ (forall (s : PC.t) (msg : Frame),
         (PC.handleTCPFin s msg).2 = [SendOnGate (fin_reply (PC.addr s) (SRC msg))]
         /\ PC.tcpConnections (PC.handleTCPFin s msg).1 !! SRC msg
            = Some (PC.set_state TCP_CLOSED
                      (default TCPConnection_default (PC.tcpConnections s !! SRC msg)))
         /\ (forall p : Z, p <> SRC msg ->
               PC.tcpConnections (PC.handleTCPFin s msg).1 !! p
               = PC.tcpConnections s !! p)).
Proof.
  split.
  - intros s msg. unfold HTTP.handleTCPFin. cbn.
    split; [reflexivity|].
    rewrite !lookup_delete_eq. repeat split.
    intros p Hp. apply lookup_delete_ne. congruence.
  - intros s msg. unfold PC.handleTCPFin, PC.conn_at. cbn.
    split; [reflexivity|].
    rewrite lookup_insert_eq. split; [reflexivity|].
    intros p Hp. apply lookup_insert_ne. congruence.
Qed.

(** The HTTP server 3 after the SYN of client 1, and the client holding its
    connection to 3, each receiving the other's FIN. *)
Lemma C8_witness :
  HTTP.tcpConnections http_connected !! 1 <> None
  /\ (HTTP.handleTCPFin http_connected (fin_reply 1 3)).2 = [SendOnGate (fin_reply 3 1)]
  /\ HTTP.tcpConnections (HTTP.handleTCPFin http_connected (fin_reply 1 3)).1 !! 1 = None
  /\ PC.tcpConnections (PC.handleTCPFin pc_established (fin_reply 3 1)).1 !! 3
     = Some (PC.set_state TCP_CLOSED conn_to_3)
  /\ PC.tcpConnections (PC.handleTCPFin pc_established (fin_reply 1 1)).1 !! 3
     = PC.tcpConnections pc_established !! 3.
Proof.
  split; [vm_compute; discriminate|].
  split; [exact (proj1 (proj1 C8_fin_teardown http_connected (fin_reply 1 3)))|].
  split; [exact (proj1 (proj2 (proj1 C8_fin_teardown http_connected (fin_reply 1 3))))|].
  split; [exact (proj1 (proj2 (proj2 C8_fin_teardown pc_established (fin_reply 3 1))))|].
  apply (proj2 (proj2 (proj2 C8_fin_teardown pc_established (fin_reply 1 1)))).
  discriminate.
Defined.

(** ** Key exchange *)

Lemma secret_from_nonempty (combined : string) (i n : nat) (out : string) :
  secret_from combined i (S n) = Some out -> out <> EmptyString.
Proof.
  cbn [secret_from]. destruct (String.get _ combined); [|discriminate].
  destruct (secret_from combined (S i) n); [|discriminate].
  intros [= <-]. discriminate.
Qed.

Lemma computeSharedSecret_nonempty (a b out : string) :
  computeSharedSecret a b = Some out -> String.eqb out EmptyString = false.
Proof.
  unfold computeSharedSecret. intros H. apply secret_from_nonempty in H.
  destruct out; [congruence|reflexivity].
Qed.

(** The steps shared by the two servers: read the key, compute the secret,
    and see the reply test fail on the entry just written. *)
Ltac silent_exchange priv msg :=
  let pk := fresh "pk" in
  let sec := fresh "sec" in
  let Hsec := fresh "Hsec" in
  destruct (par_string "publicKey" msg) as [pk|]; [|discriminate];
  cbn [mbind option_bind];
  destruct (computeSharedSecret priv pk) as [sec|] eqn:Hsec; [|discriminate];
  cbn [mbind option_bind]; rewrite lookup_insert_eq;
  rewrite (computeSharedSecret_nonempty _ _ _ Hsec);
  intros [= <- <-]; split; [reflexivity|];
  exists sec; cbn; apply lookup_insert_eq.

(** The reply test of the servers' [handleKeyExchange] runs after the key
    has been stored, so it never holds: whatever the state, the server stores
    the secret and sends nothing. *)
Lemma HTTP_handleKeyExchange_silent (s s' : HTTP.t) (msg : Frame) (acts : list Action) :
  HTTP.handleKeyExchange s msg = Some (s', acts) ->
  acts = [] /\ exists k, HTTP.sharedKeys s' !! SRC msg = Some k.
Proof.
  unfold HTTP.handleKeyExchange.
  silent_exchange (HTTP.myPrivateKey s) msg.
Qed.

Lemma DNS_handleKeyExchange_silent (s s' : DNS.t) (msg : Frame) (acts : list Action) :
  DNS.handleKeyExchange s msg = Some (s', acts) ->
  acts = [] /\ exists k, DNS.sharedKeys s' !! SRC msg = Some k.
Proof.
  unfold DNS.handleKeyExchange.
  silent_exchange (DNS.myPrivateKey s) msg.
Qed.

(** C7 (the code at the failing input).  A fresh HTTP server 3 and a fresh
    DNS server 2 hold no key for client 1; on its first key-exchange frame
    each stores a shared secret and sends no reply. *)
Theorem C7_first_key_exchange_unanswered :
  HTTP.sharedKeys (HTTP.initialize 3 10 4096 (1 # 1000) 0) !! 1 = None
  /\ (exists s',
         HTTP.handleKeyExchange (HTTP.initialize 3 10 4096 (1 # 1000) 0)
           (key_exchange_from_1 3) = Some (s', [])
         /\ HTTP.sharedKeys s' !! 1 = Some "lndAoti@tvlCHu}|"%string)
  /\ DNS.sharedKeys (DNS.initialize 2 3 100) !! 1 = None
  /\ (exists s',
         DNS.handleKeyExchange (DNS.initialize 2 3 100) (key_exchange_from_1 2)
         = Some (s', [])
         /\ exists k, DNS.sharedKeys s' !! 1 = Some k).
Proof.
  split; [reflexivity|]. split.
  - eexists. split; [vm_compute; reflexivity|]. vm_compute. reflexivity.
  - split; [reflexivity|].
    destruct (DNS.handleKeyExchange (DNS.initialize 2 3 100) (key_exchange_from_1 2))
      as [[s' acts]|] eqn:E; [|discriminate E].
    destruct (DNS_handleKeyExchange_silent _ _ _ _ E) as [-> Hk].
    exists s'. split; [reflexivity|exact Hk].
Qed.

(** ** SYN-flood limiter of the HTTP server *)


Lemma countSyn_count (s : HTTP.t) (now : simtime_t) (msg : Frame) :
  HTTP.count_of (HTTP.synCounts (HTTP.countSyn s now msg)) (SRC msg)
  = wrap32 (HTTP.count_of (HTTP.synCounts s) (SRC msg) + 1).
Proof.
  unfold HTTP.countSyn. cbn [HTTP.synCounts HTTP.with_syn].
  unfold HTTP.count_of at 1. rewrite lookup_insert_eq. reflexivity.
Qed.


Lemma handleTCPSyn_within_limit (s : HTTP.t) (now : simtime_t) (serverSeq : Z) (msg : Frame) :
  (inject_Z (wrap32 (HTTP.count_of (HTTP.synCounts s) (SRC msg) + 1))
   <= HTTP.synRateLimit s)%Q ->
  HTTP.handleTCPSyn s now serverSeq msg
  = HTTP.cookieStage (HTTP.countSyn s now msg) serverSeq msg.
Proof.
  intros H. apply Qltb_ge in H. unfold HTTP.handleTCPSyn. cbv zeta.
  rewrite countSyn_count.
  change (HTTP.synRateLimit (HTTP.countSyn s now msg)) with (HTTP.synRateLimit s).
  rewrite H. reflexivity.
Qed.








(** ** Distance-vector import *)









(** ** Link-state database *)

Lemma handleOSPFLSA_db (s s' : Router.t) (now : simtime_t) (inGate : Z) (msg : Frame)
    (out : list Router.Output) :
  Router.handleOSPFLSA s now inGate msg = Some (s', out) ->
  exists (l : Z) (cost bandwidth delay : Q),
    par_long "linkId" msg = Some l
    /\ par_double "cost" msg = Some cost
    /\ par_double "bandwidth" msg = Some bandwidth
    /\ par_double "delay" msg = Some delay
    /\ Router.linkStateDB s'
       = <[Router.lsdb_key (SRC msg) (wrap32 l) :=
             {| ls_routerId := SRC msg; ls_linkId := wrap32 l; ls_cost := cost;
                ls_bandwidth := bandwidth; ls_delay := delay; ls_timestamp := now |}]>
           (Router.linkStateDB s)
    /\ Router.outputQueues s' = Router.outputQueues s
    /\ Router.gateSize s' = Router.gateSize s.
Proof.
  unfold Router.handleOSPFLSA.
  destruct (par_long "linkId" msg) as [l|]; [|discriminate].
  destruct (par_double "cost" msg) as [c|]; [|discriminate].
  destruct (par_double "bandwidth" msg) as [b|]; [|discriminate].
  destruct (par_double "delay" msg) as [d|]; [|discriminate].
  cbn [mbind option_bind]. intros [= <- <-].
  exists l, c, b, d. repeat split.
Qed.

Lemma forwardPacket_frame (s s' : Router.t) (inGate : Z) (msg : Frame)
    (out : list Router.Output) :
  Router.forwardPacket s inGate msg = Some (s', out) ->
  Router.linkStateDB s' = Router.linkStateDB s
  /\ Router.gateSize s' = Router.gateSize s
  /\ Router.routingTable s' = Router.routingTable s.
Proof.
  unfold Router.forwardPacket.
  destruct (Router.routingTable s !! DST msg) as [e|]; [|intros [= <- <-]; auto].
  destruct ((0 <=? nextHop e) && (nextHop e <? Router.gateSize s));
    [|intros [= <- <-]; auto].
  cbn [Router.outputQueues Router.with_linkUtilization].
  destruct (Router.outputQueues s !! Z.to_nat (nextHop e)) as [q|]; [|discriminate].
  cbn [mbind option_bind].
  destruct (_ || _); intros [= <- <-]; auto.
Qed.

(** Only the LSA handler writes the database, and it stamps the record it
    writes with the time of the event. *)
Lemma handleMessage_db (libc : Router.Libc) (s s' : Router.t) (t : simtime_t)
    (ev : Router.Event) (out : list Router.Output) :
  Router.handleMessage libc s t ev = Some (s', out) ->
  Router.linkStateDB s' = Router.linkStateDB s
  \/ exists key ls,
       Router.linkStateDB s' = <[key := ls]> (Router.linkStateDB s)
       /\ ls_timestamp ls = t.
Proof.
  destruct ev as [msg inGate|tm|g]; cbn [Router.handleMessage].
  - destruct (kind msg =? OSPF_HELLO); [intros [= <- <-]; auto|].
    destruct ((kind msg =? OSPF_LSA) || (kind msg =? OSPF_TE_UPDATE)).
    { intros H. apply handleOSPFLSA_db in H.
      destruct H as (l & c & b & d & _ & _ & _ & _ & Hdb & _).
      right. eexists _, _. split; [exact Hdb|reflexivity]. }
    destruct (kind msg =? RIP_UPDATE).
    { unfold Router.handleRIPUpdate.
      destruct (par_string "routes" msg); [|discriminate].
      intros [= <- <-]. auto. }
    destruct (kind msg =? RIP_REQUEST); [intros [= <- <-]; auto|].
    destruct (kind msg =? TCP_SYN).
    { destruct (Qltb _ _); [intros [= <- <-]; auto|].
      intros H. apply forwardPacket_frame in H. left. apply H. }
    intros H. apply forwardPacket_frame in H. left. apply H.
  - destruct tm; intros [= <- <-]; auto.
  - intros [= <- <-]. auto.
Qed.

Lemma reachable_lsdb_before (libc : Router.Libc) (now : simtime_t) (s : Router.t) :
  Router.reachable libc now s -> lsdb_before now s.
Proof.
  induction 1 as [| s now t ev s' out Hreach IH Hle Hstep].
  - intros k r H. cbn in H. rewrite lookup_empty in H. discriminate.
  - intros k r H. destruct (handleMessage_db _ _ _ _ _ _ Hstep) as [Heq|(key & ls & Heq & Hts)].
    + rewrite Heq in H. specialize (IH k r H). lia.
    + rewrite Heq in H. destruct (decide (key = k)) as [->|Hne].
      * rewrite lookup_insert_eq in H. injection H as <-. lia.
      * rewrite lookup_insert_ne in H by exact Hne. specialize (IH k r H). lia.
Qed.

(** The older LSA is not ignored: it replaces the record that the newer one
    left, and the database ends with the older cost. *)
Lemma C4_counterexample :
  ls_timestamp lsa_old.1 < ls_timestamp lsa_new.1
  /\ ~ (ls_cost lsa_old.1 == ls_cost lsa_new.1)%Q
  /\ exists b1 out1 held b2 out2 final,
       ospf_B_new = Some (b1, out1)
       /\ Router.linkStateDB b1 !! 1000 = Some held
       /\ ls_cost held = ls_cost lsa_new.1
       /\ ls_timestamp lsa_old.1 < ls_timestamp held
       /\ ospf_B_old = Some (b2, out2)
       /\ Router.linkStateDB b2 !! 1000 = Some final
       /\ ls_cost final = ls_cost lsa_old.1
       /\ final <> held.
Proof.
  split; [reflexivity|].
  split; [vm_compute; discriminate|].
  destruct ospf_B_new as [[b1 out1]|] eqn:E1; [|discriminate E1].
  destruct ospf_B_old as [[b2 out2]|] eqn:E2;
    [|unfold ospf_B_old in E2; rewrite E1 in E2; vm_compute in E1;
      injection E1 as <- <-; discriminate E2].
  unfold ospf_B_old in E2. rewrite E1 in E2.
  vm_compute in E1. injection E1 as <- <-.
  vm_compute in E2. injection E2 as <- <-.
  eexists _, _, _, _, _, _.
  split; [reflexivity|]. split; [vm_compute; reflexivity|].
  split; [vm_compute; reflexivity|]. split; [vm_compute; reflexivity|].
  split; [reflexivity|]. split; [vm_compute; reflexivity|].
  split; [vm_compute; reflexivity|]. vm_compute. discriminate.
Qed.

(** C4 (amended).  An LSA that the router handles always replaces the record
    of its key [origin * 1000 + linkId] by the advertised cost, bandwidth and
    delay, stamped with the time of handling; there is no test of age.  Over
    a run, whose event times never decrease, the timestamp stored under a key
    never decreases and a stored key is never removed. *)
Theorem C4_lsdb_overwrite :
  (forall (s s' : Router.t) (now : simtime_t) (inGate : Z) (msg : Frame)
          (out : list Router.Output),
      Router.handleOSPFLSA s now inGate msg = Some (s', out) ->
      exists (l : Z) (cost bandwidth delay : Q),
        par_long "linkId" msg = Some l
        /\ par_double "cost" msg = Some cost
        /\ par_double "bandwidth" msg = Some bandwidth
        /\ par_double "delay" msg = Some delay
        /\ Router.linkStateDB s' !! Router.lsdb_key (SRC msg) (wrap32 l)
           = Some {| ls_routerId := SRC msg; ls_linkId := wrap32 l; ls_cost := cost;
                     ls_bandwidth := bandwidth; ls_delay := delay;
                     ls_timestamp := now |}
        /\ (forall k, k <> Router.lsdb_key (SRC msg) (wrap32 l) ->
              Router.linkStateDB s' !! k = Router.linkStateDB s !! k))
  /\ (forall (libc : Router.Libc) (now t : simtime_t) (s s' : Router.t)
             (ev : Router.Event) (out : list Router.Output),
         Router.reachable libc now s ->
         now <= t ->
         Router.handleMessage libc s t ev = Some (s', out) ->
         forall (k : Z) (old : LinkState),
           Router.linkStateDB s !! k = Some old ->
           exists new,
             Router.linkStateDB s' !! k = Some new
             /\ ls_timestamp old <= ls_timestamp new).
Proof.
  split.
  - intros s s' now inGate msg out H.
    destruct (handleOSPFLSA_db _ _ _ _ _ _ H)
      as (l & c & b & d & Hl & Hc & Hb & Hd & Hdb & _).
    exists l, c, b, d. rewrite Hdb, lookup_insert_eq.
    repeat split; try assumption.
    intros k Hk. apply lookup_insert_ne. congruence.
  - intros libc now t s s' ev out Hreach Hle Hstep k old Hold.
    pose proof (reachable_lsdb_before _ _ _ Hreach k old Hold) as Hts.
    destruct (handleMessage_db _ _ _ _ _ _ Hstep) as [Heq|(key & ls & Heq & Hstamp)].
    + exists old. rewrite Heq. split; [exact Hold|lia].
    + rewrite Heq. destruct (decide (key = k)) as [->|Hne].
      * exists ls. rewrite lookup_insert_eq. split; [reflexivity|lia].
      * exists old. rewrite lookup_insert_ne by exact Hne. split; [exact Hold|lia].
Qed.

(** Router 2 takes in the LSA that router 1 originated at 2 s. *)
Lemma C4_witness :
  exists s' l cost bandwidth delay,
    Router.handleOSPFLSA ospf_B (3 * second) 0 lsa_new.2
    = Some (s', [Router.ToGate 1 lsa_new.2])
    /\ par_long "linkId" lsa_new.2 = Some l
    /\ par_double "cost" lsa_new.2 = Some cost
    /\ par_double "bandwidth" lsa_new.2 = Some bandwidth
    /\ par_double "delay" lsa_new.2 = Some delay
    /\ Router.linkStateDB s' !! Router.lsdb_key (SRC lsa_new.2) (wrap32 l)
       = Some {| ls_routerId := SRC lsa_new.2; ls_linkId := wrap32 l; ls_cost := cost;
                 ls_bandwidth := bandwidth; ls_delay := delay;
                 ls_timestamp := 3 * second |}.
Proof.
  destruct (Router.handleOSPFLSA ospf_B (3 * second) 0 lsa_new.2)
    as [[s' out]|] eqn:E; [|discriminate E].
  destruct (proj1 C4_lsdb_overwrite ospf_B s' (3 * second) 0 lsa_new.2 out E)
    as (l & c & b & d & Hl & Hc & Hb & Hd & Hdb & _).
  exists s', l, c, b, d.
  split; [vm_compute in E; injection E as <- <-; reflexivity|].
  repeat split; assumption.
Defined.

(** ** Router priority queues *)

(** [forwardPacket] writes a priority queue only by pushing a frame of
    priority below high into a queue that already holds one.  The priority
    is the one [forwardPacket] reads, an [int]. *)
Lemma forwardPacket_push (s s' : Router.t) (inGate : Z) (msg : Frame)
    (out : list Router.Output) :
  Router.forwardPacket s inGate msg = Some (s', out) ->
  Router.outputQueues s' = Router.outputQueues s
  \/ exists (e : RouteEntry) (q : list Frame),
       Router.routingTable s !! DST msg = Some e
       /\ Router.outputQueues s !! Z.to_nat (nextHop e) = Some q
       /\ q <> []
       /\ PRIORITY_int msg < PRIORITY_HIGH
       /\ out = []
       /\ Router.outputQueues s'
          = <[Z.to_nat (nextHop e) := Router.pq_push msg q]> (Router.outputQueues s).
Proof.
  unfold Router.forwardPacket.
  destruct (Router.routingTable s !! DST msg) as [e|]; [|intros [= <- <-]; auto].
  destruct ((0 <=? nextHop e) && (nextHop e <? Router.gateSize s));
    [|intros [= <- <-]; auto].
  cbn [Router.outputQueues Router.with_linkUtilization].
  destruct (Router.outputQueues s !! Z.to_nat (nextHop e)) as [q|] eqn:Hq;
    [|discriminate].
  cbn [mbind option_bind].
  destruct (PRIORITY_HIGH <=? PRIORITY_int msg) eqn:Hp; cbn [orb].
  - intros [= <- <-]. auto.
  - destruct q as [|x q]; intros [= <- <-]; [auto|].
    right. exists e, (x :: q). apply Z.leb_gt in Hp.
    repeat split; auto; discriminate.
Qed.

(** On a route through a valid gate [forwardPacket] hands the frame to the
    transmitter when its priority is at least high or the gate's queue is
    empty, and pushes it into the queue otherwise. *)
Lemma forwardPacket_hit (s : Router.t) (inGate : Z) (msg : Frame) (e : RouteEntry)
    (q : list Frame) :
  Router.routingTable s !! DST msg = Some e ->
  0 <= nextHop e < Router.gateSize s ->
  Router.outputQueues s !! Z.to_nat (nextHop e) = Some q ->
  (PRIORITY_HIGH <= PRIORITY_int msg \/ q = [] ->
   exists s',
     Router.forwardPacket s inGate msg = Some (s', [Router.ToGate (nextHop e) msg])
     /\ Router.outputQueues s' = Router.outputQueues s)
  /\ (PRIORITY_int msg < PRIORITY_HIGH /\ q <> [] ->
      exists s',
        Router.forwardPacket s inGate msg = Some (s', [])
        /\ Router.outputQueues s'
           = <[Z.to_nat (nextHop e) := Router.pq_push msg q]> (Router.outputQueues s)).
Proof.
  intros Hroute Hgate Hq. unfold Router.forwardPacket. rewrite Hroute.
  assert (Hin : (0 <=? nextHop e) && (nextHop e <? Router.gateSize s) = true).
  { apply andb_true_iff. split; [apply Z.leb_le|apply Z.ltb_lt]; lia. }
  rewrite Hin. cbn [Router.outputQueues Router.with_linkUtilization].
  rewrite Hq. cbn [mbind option_bind]. split.
  - intros [Hp | Hq0]; [|subst q].
    + apply Z.leb_le in Hp. rewrite Hp. cbn [orb]. eexists. split; reflexivity.
    + rewrite orb_true_r. eexists. split; reflexivity.
  - intros [Hp Hne]. apply Z.leb_gt in Hp. rewrite Hp. cbn [orb].
    destruct q as [|x q]; [congruence|]. eexists. split; reflexivity.
Qed.

Lemma forwardPacket_direct (s : Router.t) (inGate : Z) (msg : Frame) (e : RouteEntry) :
  queues_empty s ->
  Router.routingTable s !! DST msg = Some e ->
  0 <= nextHop e < Router.gateSize s ->
  exists s',
    Router.forwardPacket s inGate msg = Some (s', [Router.ToGate (nextHop e) msg])
    /\ Router.outputQueues s' = Router.outputQueues s.
Proof.
  intros [Hempty Hlen] Hroute Hgate. unfold Router.forwardPacket.
  rewrite Hroute.
  assert (Hin : (0 <=? nextHop e) && (nextHop e <? Router.gateSize s) = true).
  { apply andb_true_iff. split; [apply Z.leb_le|apply Z.ltb_lt]; lia. }
  rewrite Hin. cbn [Router.outputQueues Router.with_linkUtilization].
  destruct (Router.outputQueues s !! Z.to_nat (nextHop e)) as [q|] eqn:Hq.
  - rewrite Forall_lookup in Hempty. rewrite (Hempty _ _ Hq).
    cbn [mbind option_bind]. rewrite orb_true_r.
    eexists. split; reflexivity.
  - apply lookup_ge_None in Hq. lia.
Qed.

Lemma forwardPacket_queues (s s' : Router.t) (inGate : Z) (msg : Frame)
    (out : list Router.Output) :
  queues_empty s ->
  Router.forwardPacket s inGate msg = Some (s', out) ->
  queues_empty s'.
Proof.
  intros Hinv H. pose proof (forwardPacket_frame _ _ _ _ _ H) as (_ & Hg & _).
  destruct (forwardPacket_push _ _ _ _ _ H) as [Heq|(e & q & _ & Hq & Hne & _)].
  - unfold queues_empty. rewrite Heq, Hg. exact Hinv.
  - destruct Hinv as [Hempty _]. rewrite Forall_lookup in Hempty.
    exfalso. apply Hne. exact (Hempty _ _ Hq).
Qed.

Lemma initialize_queues (libc : Router.Libc) (address : Z) (protocol routes : string)
    (n : Z) (limit hello lsa rip : Q) :
  queues_empty (Router.initialize libc address protocol routes n limit hello lsa rip).
Proof.
  split; cbn [Router.outputQueues Router.gateSize Router.initialize].
  - apply Forall_forall. intros q Hq. apply list_elem_of_In, in_map_iff in Hq.
    destruct Hq as (? & <- & _). reflexivity.
  - rewrite length_map. unfold Router.gates. apply length_seqZ.
Qed.

Lemma handleMessage_queues (libc : Router.Libc) (s s' : Router.t) (t : simtime_t)
    (ev : Router.Event) (out : list Router.Output) :
  queues_empty s ->
  Router.handleMessage libc s t ev = Some (s', out) ->
  queues_empty s'.
Proof.
  intros Hinv. destruct ev as [msg inGate|tm|g]; cbn [Router.handleMessage].
  - destruct (kind msg =? OSPF_HELLO); [intros [= <- <-]; exact Hinv|].
    destruct ((kind msg =? OSPF_LSA) || (kind msg =? OSPF_TE_UPDATE)).
    { intros H. apply handleOSPFLSA_db in H.
      destruct H as (l & c & b & d & _ & _ & _ & _ & _ & Hq & Hg).
      unfold queues_empty. rewrite Hq, Hg. exact Hinv. }
    destruct (kind msg =? RIP_UPDATE).
    { unfold Router.handleRIPUpdate.
      destruct (par_string "routes" msg); [|discriminate].
      intros [= <- <-]. exact Hinv. }
    destruct (kind msg =? RIP_REQUEST); [intros [= <- <-]; exact Hinv|].
    destruct (kind msg =? TCP_SYN).
    { destruct (Qltb _ _); [intros [= <- <-]; exact Hinv|].
      apply forwardPacket_queues. exact Hinv. }
    apply forwardPacket_queues. exact Hinv.
  - destruct tm; intros [= <- <-]; exact Hinv.
  - intros [= <- <-]. exact Hinv.
Qed.

Lemma reachable_queues (libc : Router.Libc) (now : simtime_t) (s : Router.t) :
  Router.reachable libc now s -> queues_empty s.
Proof.
  induction 1 as [| s now t ev s' out Hreach IH Hle Hstep].
  - apply initialize_queues.
  - exact (handleMessage_queues _ _ _ _ _ _ IH Hstep).
Qed.

(** C10.  On a route through a valid gate [forwardPacket] hands the frame
    to the gate's transmitter when its priority (read through [PRIORITY()],
    an [int]) is at least high or the gate's priority queue is empty, and
    pushes it into that queue otherwise; it writes a priority queue in no
    other way.  The queues are empty after
    [initialize], so in every state of a run all priority queues are empty,
    and a frame whose destination has a route through a valid gate is handed
    to that gate's transmitter at once. *)
Theorem C10_router_priority_queues_stay_empty :
  (forall (s : Router.t) (inGate : Z) (msg : Frame) (e : RouteEntry) (q : list Frame),
      Router.routingTable s !! DST msg = Some e ->
      0 <= nextHop e < Router.gateSize s ->
      Router.outputQueues s !! Z.to_nat (nextHop e) = Some q ->
      (PRIORITY_HIGH <= PRIORITY_int msg \/ q = [] ->
       exists s',
         Router.forwardPacket s inGate msg = Some (s', [Router.ToGate (nextHop e) msg])
         /\ Router.outputQueues s' = Router.outputQueues s)
      /\ (PRIORITY_int msg < PRIORITY_HIGH /\ q <> [] ->
          exists s',
            Router.forwardPacket s inGate msg = Some (s', [])
            /\ Router.outputQueues s'
               = <[Z.to_nat (nextHop e) := Router.pq_push msg q]> (Router.outputQueues s)))
  /\ (forall (s s' : Router.t) (inGate : Z) (msg : Frame) (out : list Router.Output),
         Router.forwardPacket s inGate msg = Some (s', out) ->
         Router.outputQueues s' = Router.outputQueues s
         \/ exists (e : RouteEntry) (q : list Frame),
              Router.routingTable s !! DST msg = Some e
              /\ Router.outputQueues s !! Z.to_nat (nextHop e) = Some q
              /\ q <> []
              /\ PRIORITY_int msg < PRIORITY_HIGH
              /\ out = []
              /\ Router.outputQueues s'
                 = <[Z.to_nat (nextHop e) := Router.pq_push msg q]> (Router.outputQueues s))
  /\ (forall (libc : Router.Libc) (now : simtime_t) (s : Router.t),
         Router.reachable libc now s ->
         Forall (fun q : list Frame => q = []) (Router.outputQueues s)
         /\ (forall (inGate : Z) (msg : Frame) (e : RouteEntry),
               Router.routingTable s !! DST msg = Some e ->
               0 <= nextHop e < Router.gateSize s ->
               exists s',
                 Router.forwardPacket s inGate msg
                 = Some (s', [Router.ToGate (nextHop e) msg])
                 /\ Router.outputQueues s' = Router.outputQueues s)).
Proof.
  split; [exact forwardPacket_hit|].
  split; [exact forwardPacket_push|].
  intros libc now s Hreach.
  pose proof (reachable_queues _ _ _ Hreach) as Hinv.
  split; [exact (proj1 Hinv)|].
  intros inGate msg e Hroute Hgate.
  exact (forwardPacket_direct _ inGate _ _ Hinv Hroute Hgate).
Qed.

(** A router with the static route [9:0] after it has forwarded one
    low-priority frame to 9: its queues are empty. *)
Lemma C10_witness :
  exists a,
    Router.handleMessage IntLibc.libc ospf_A (second + second / 2)
      (Router.Arrival (set_priority PRIORITY_LOW (mk "HTTP_GET" HTTP_GET 5 9)) 1)
    = Some (a, [Router.ToGate 0 (set_priority PRIORITY_LOW (mk "HTTP_GET" HTTP_GET 5 9))])
    /\ Forall (fun q : list Frame => q = []) (Router.outputQueues a).
Proof.
  destruct (Router.handleMessage IntLibc.libc ospf_A (second + second / 2)
              (Router.Arrival (set_priority PRIORITY_LOW (mk "HTTP_GET" HTTP_GET 5 9)) 1))
    as [[a out]|] eqn:E; [|discriminate E].
  exists a. split; [vm_compute in E; injection E as <- <-; reflexivity|].
  refine (proj1 (proj2 (proj2 C10_router_priority_queues_stay_empty) IntLibc.libc
                   (second + second / 2) a _)).
  refine (Router.reach_step IntLibc.libc ospf_A 0 _ _ a out _ _ E).
  - unfold ospf_A. apply Router.reach_init.
  - vm_compute. discriminate.
Defined.

(** ** Link transmitter *)

Lemma serial_mono (w : list Link.Transmission) (busy busy' : simtime_t) :
  busy <= busy' -> serial busy w -> serial busy' w.
Proof.
  destruct w as [|x rest]; cbn; [auto|]. intros Hle (Hf & Hs & Hrest).
  repeat split; [lia|exact Hs|exact Hrest].
Qed.

Lemma serial_idle (w : list Link.Transmission) :
  forall busy t, serial busy w -> busy <= t -> List.filter (Link.on_wire t) w = [].
Proof.
  induction w as [|x rest IH]; intros busy t Hser Hle; cbn; [reflexivity|].
  destruct Hser as (Hf & Hs & Hrest).
  assert (E : Link.on_wire t x = false).
  { unfold Link.on_wire. apply andb_false_iff. right. apply Z.ltb_ge. lia. }
  rewrite E. apply (IH (Link.tx_start x)); [exact Hrest|lia].
Qed.

Lemma serial_one_at_a_time (w : list Link.Transmission) :
  forall busy t, serial busy w -> (length (List.filter (Link.on_wire t) w) <= 1)%nat.
Proof.
  induction w as [|x rest IH]; intros busy t Hser; cbn; [lia|].
  destruct Hser as (Hf & Hs & Hrest).
  destruct (Link.on_wire t x) eqn:E.
  - unfold Link.on_wire in E. apply andb_true_iff in E as [E1 _].
    apply Z.leb_le in E1.
    rewrite (serial_idle rest (Link.tx_start x) t Hrest E1). cbn. lia.
  - exact (IH _ t Hrest).
Qed.

Section Transmitter.

Variable dur : Frame -> simtime_t.
Hypothesis dur_nonneg : forall m, 0 <= dur m.

Lemma startTransmission_inv (now : simtime_t) (msg : Frame) (tx : Link.Transmitter) :
  serial (Link.txFinishTime (Link.channel tx)) (Link.wire (Link.channel tx)) ->
  Link.txFinishTime (Link.channel tx) <= now ->
  tx_inv now (Link.startTransmission dur now msg tx).
Proof.
  intros Hser Hidle. pose proof (dur_nonneg msg) as Hd.
  unfold tx_inv, Link.startTransmission. cbn. repeat split; try lia.
  exact (serial_mono _ _ _ Hidle Hser).
Qed.

Lemma sendPacketOnGate_inv (now t : simtime_t) (msg : Frame) (tx : Link.Transmitter) :
  tx_inv now tx ->
  now <= t ->
  (forall te, Link.endTxEvent tx = Some te -> t <= te) ->
  tx_inv t (Link.sendPacketOnGate dur t msg tx).
Proof.
  intros [Hser Hev] Hle Hdue. unfold Link.sendPacketOnGate. cbv zeta.
  destruct (t <? Link.txFinishTime (Link.channel tx)) eqn:Hbusy.
  - apply Z.ltb_lt in Hbusy. unfold tx_inv, Link.enqueue. cbn.
    split; [exact Hser|].
    destruct (Link.endTxEvent tx) as [te|]; [|lia].
    split; [apply Hev|apply Hdue; reflexivity].
  - apply Z.ltb_ge in Hbusy.
    destruct (Link.endTxEvent tx) as [te|] eqn:Hte.
    + unfold tx_inv, Link.enqueue. cbn. rewrite Hte.
      split; [exact Hser|]. split; [apply Hev|apply Hdue; reflexivity].
    + apply startTransmission_inv; assumption.
Qed.

Lemma handleEndTx_inv (now te : simtime_t) (tx : Link.Transmitter) :
  tx_inv now tx ->
  Link.endTxEvent tx = Some te ->
  tx_inv te (Link.handleEndTx dur te tx).
Proof.
  intros [Hser Hev] Hte. rewrite Hte in Hev. destruct Hev as [-> Hle].
  unfold Link.handleEndTx. destruct (Link.txQueue tx) as [|m rest].
  - unfold tx_inv. cbn. split; [exact Hser|]. split; [lia|reflexivity].
  - apply startTransmission_inv; cbn; [exact Hser|lia].
Qed.

Lemma reachable_inv (now : simtime_t) (tx : Link.Transmitter) :
  Link.reachable dur now tx -> tx_inv now tx.
Proof.
  induction 1 as [|now tx t m Hreach IH Hle Hdue|now tx te Hreach IH Hte].
  - unfold tx_inv. cbn. split; [exact I|]. split; [lia|reflexivity].
  - exact (sendPacketOnGate_inv _ _ _ _ IH Hle Hdue).
  - exact (handleEndTx_inv _ _ _ IH Hte).
Qed.

(** A frame handed to the transmitter while the channel is busy or an
    end-of-transmission event is pending goes to the tail of the FIFO and
    the channel is left alone. *)
Lemma sendPacketOnGate_busy (t : simtime_t) (msg : Frame) (tx : Link.Transmitter) :
  t < Link.txFinishTime (Link.channel tx) \/ Link.endTxEvent tx <> None ->
  Link.sendPacketOnGate dur t msg tx
  = {| Link.txQueue := Link.txQueue tx ++ [msg];
       Link.endTxEvent := Link.endTxEvent tx;
       Link.channel := Link.channel tx |}.
Proof.
  intros H. unfold Link.sendPacketOnGate, Link.enqueue. cbv zeta.
  destruct (t <? Link.txFinishTime (Link.channel tx)) eqn:Hbusy; [reflexivity|].
  destruct (Link.endTxEvent tx) as [te|] eqn:Hte; [reflexivity|].
  apply Z.ltb_ge in Hbusy. destruct H as [H|H]; [lia|congruence].
Qed.

(** Link serializer safety for a node whose only sender is the
    transmitter (the client): at every instant at most one frame is on
    the wire. *)
Lemma transmitter_serializes (now : simtime_t) (tx : Link.Transmitter) :
  Link.reachable dur now tx ->
  forall t, (length (Link.in_transmission t (Link.channel tx)) <= 1)%nat.
Proof.
  intros Hreach t. destruct (reachable_inv _ _ Hreach) as [Hser _].
  exact (serial_one_at_a_time _ _ t Hser).
Qed.

End Transmitter.

(** *** The HTTP server's delayed responses *)

(** C1 (the code at the failing input).  The server queues the response to
    the TCP request that arrives at 1 s and schedules [sendQueueTimer] for
    1.001 s; when the timer fires the response starts on the channel, which
    is busy until 1.0018 s with the end-of-transmission event pending.  A
    request that arrives at 1.0011 s and is answered with [sendDelayed] (a
    request over UDP, or a GET of high priority) does not have its response
    appended to the FIFO: the response goes on the channel at 1.0014 s (UDP)
    or 1.0016 s (high priority), and two frames are then in transmission at
    the same instant. *)
Theorem C1_http_response_overlaps :
  exists s1 tx1 s2 tx2,
    HTTP.handleMessage dur_10Mbps second (HTTP.Arrival tcp_get 0)
      (http_server, Link.init) = Some (s1, tx1)
    /\ HTTP.sendQueueTimer s1 = Some (second + millisecond)
    /\ HTTP.handleMessage dur_10Mbps (second + millisecond) HTTP.SendQueueTimer
         (s1, tx1) = Some (s2, tx2)
    /\ second + millisecond + millisecond / 10 < Link.txFinishTime (Link.channel tx2)
    /\ Link.endTxEvent tx2 = Some (Link.txFinishTime (Link.channel tx2))
    /\ (exists s3 tx3,
           HTTP.handleMessage dur_10Mbps (second + millisecond + millisecond / 10)
             (HTTP.Arrival udp_get 0) (s2, tx2) = Some (s3, tx3)
           /\ Link.txQueue tx3 = []
           /\ length (Link.in_transmission (second + millisecond + millisecond / 2)
                        (Link.channel tx3)) = 2%nat)
    /\ (exists s3 tx3,
           HTTP.handleMessage dur_10Mbps (second + millisecond + millisecond / 10)
             (HTTP.Arrival high_get 0) (s2, tx2) = Some (s3, tx3)
           /\ Link.txQueue tx3 = []
           /\ length (Link.in_transmission (second + millisecond + 7 * millisecond / 10)
                        (Link.channel tx3)) = 2%nat).
Proof.
  destruct (HTTP.handleMessage dur_10Mbps second (HTTP.Arrival tcp_get 0)
              (http_server, Link.init)) as [[s1 tx1]|] eqn:E1; [|discriminate E1].
  exists s1, tx1. vm_compute in E1. injection E1 as <- <-.
  match goal with
  | |- exists s2 tx2, _ /\ _ /\ ?run = _ /\ _ =>
      destruct run as [[s2 tx2]|] eqn:E2; [|discriminate E2]
  end.
  exists s2, tx2. vm_compute in E2. injection E2 as <- <-.
  split; [reflexivity|]. split; [reflexivity|]. split; [reflexivity|].
  split; [reflexivity|]. split; [reflexivity|].
  split.
  - destruct (HTTP.handleMessage dur_10Mbps (second + millisecond + millisecond / 10)
                (HTTP.Arrival udp_get 0) _) as [[s3 tx3]|] eqn:E3; [|discriminate E3].
    exists s3, tx3. vm_compute in E3. injection E3 as <- <-.
    repeat split; vm_compute; reflexivity.
  - destruct (HTTP.handleMessage dur_10Mbps (second + millisecond + millisecond / 10)
                (HTTP.Arrival high_get 0) _) as [[s3 tx3]|] eqn:E3; [|discriminate E3].
    exists s3, tx3. vm_compute in E3. injection E3 as <- <-.
    repeat split; vm_compute; reflexivity.
Qed.

(** * Further properties of the code *)

(** ** The transmitter of an endpoint *)

(** Two frames handed over at 0 and at 0.3 ms on a channel that needs 0.8 ms
    for each: one frame at most is on the wire at 1 ms. *)
Lemma transmitter_serializes_witness :
  (length
     (Link.in_transmission 1000000000%Z
        (Link.channel
           (Link.sendPacketOnGate dur_fixed 300000000%Z
              (mk "TCP_ACK" TCP_ACK 1%Z 3%Z)
              (Link.sendPacketOnGate dur_fixed 0%Z
                 (mk "TCP_SYN" TCP_SYN 1%Z 3%Z) Link.init))))
   <= 1)%nat.
Proof.
  apply (transmitter_serializes dur_fixed) with (now := 300000000).
  - intros m. unfold dur_fixed. lia.
  - apply (Link.reach_send dur_fixed 0); [|lia|].
    + apply (Link.reach_send dur_fixed 0); [apply Link.reach_init|lia|].
      intros te H. discriminate H.
    + intros te H. vm_compute in H. injection H as <-. lia.
Defined.

Section TransmitterOrder.

Variable dur : Frame -> simtime_t.
Hypothesis dur_nonneg : forall m, 0 <= dur m.

Lemma handed_reachable (sent : list Frame) (now : simtime_t) (tx : Link.Transmitter) :
  handed dur sent now tx -> Link.reachable dur now tx.
Proof.
  induction 1 as [|sent now tx t m H IH Hle Hdue|sent now tx te H IH Hte].
  - apply Link.reach_init.
  - exact (Link.reach_send dur now tx t m IH Hle Hdue).
  - exact (Link.reach_endTx dur now tx te IH Hte).
Qed.

Lemma frames_of_send (now t : simtime_t) (m : Frame) (tx : Link.Transmitter) :
  tx_inv now tx ->
  frames_of (Link.sendPacketOnGate dur t m tx) = frames_of tx ++ [m].
Proof.
  intros [_ Hev]. unfold Link.sendPacketOnGate, frames_of. cbv zeta.
  destruct (t <? Link.txFinishTime (Link.channel tx)).
  - cbn. apply app_assoc.
  - destruct (Link.endTxEvent tx) as [te|].
    + cbn. apply app_assoc.
    + destruct Hev as [_ Hq]. cbn. rewrite Hq, map_app, !app_nil_r.
      reflexivity.
Qed.

Lemma frames_of_endTx (te : simtime_t) (tx : Link.Transmitter) :
  frames_of (Link.handleEndTx dur te tx) = frames_of tx.
Proof.
  unfold Link.handleEndTx, frames_of. destruct (Link.txQueue tx) as [|m rest].
  - reflexivity.
  - cbn. rewrite map_app, <- app_assoc. reflexivity.
Qed.

(** The transmitter of an endpoint neither loses nor reorders frames: the
    frames put on the channel, in the order of their transmission, followed
    by the frames waiting in the FIFO, are the frames handed to
    [sendPacketOnGate], in the order of the calls. *)
Theorem transmitter_fifo (sent : list Frame) (now : simtime_t) (tx : Link.Transmitter) :
  handed dur sent now tx -> frames_of tx = sent.
Proof.
  induction 1 as [|sent now tx t m H IH Hle Hdue|sent now tx te H IH Hte].
  - reflexivity.
  - rewrite (frames_of_send now t m tx); [rewrite IH; reflexivity|].
    apply (reachable_inv dur dur_nonneg). exact (handed_reachable _ _ _ H).
  - rewrite frames_of_endTx. exact IH.
Qed.

Lemma drain_idle (n : nat) (tx : Link.Transmitter) :
  Link.endTxEvent tx = None -> drain dur n tx = tx.
Proof. intros H. destruct n; cbn; [reflexivity|]. rewrite H. reflexivity. Qed.

Lemma drain_inv (n : nat) :
  forall (now : simtime_t) (tx : Link.Transmitter),
    tx_inv now tx ->
    (length (Link.txQueue tx) < n)%nat ->
    Link.txQueue (drain dur n tx) = []
    /\ Link.endTxEvent (drain dur n tx) = None
    /\ frames_of (drain dur n tx) = frames_of tx
    /\ exists t, tx_inv t (drain dur n tx).
Proof.
  induction n as [|k IH]; intros now tx Hinv Hlen; [lia|].
  cbn [drain]. destruct (Link.endTxEvent tx) as [te|] eqn:Hte.
  - pose proof (handleEndTx_inv dur dur_nonneg now te tx Hinv Hte) as Hinv'.
    unfold Link.handleEndTx in *. destruct (Link.txQueue tx) as [|m rest] eqn:Hq.
    + rewrite drain_idle by reflexivity. cbn.
      repeat split; [unfold frames_of; cbn; rewrite Hq; reflexivity|].
      exists te. exact Hinv'.
    + destruct (IH te _ Hinv') as (H1 & H2 & H3 & H4); [cbn in *; lia|].
      repeat split; try assumption.
      rewrite H3. unfold frames_of. cbn. rewrite Hq, map_app, <- app_assoc.
      reflexivity.
  - destruct Hinv as [Hser Hev]. rewrite Hte in Hev. destruct Hev as [Hidle Hq].
    repeat split; try assumption. exists now. split; [exact Hser|].
    rewrite Hte. auto.
Qed.

(** No frame stays behind in the FIFO of an endpoint: when the scheduler
    delivers the pending end-of-transmission events, after one more event
    than there are frames waiting the FIFO is empty, no event is pending,
    every frame handed over has been put on the channel in order, and the
    transmissions still do not overlap. *)
Theorem transmitter_drains (now : simtime_t) (tx : Link.Transmitter) :
  Link.reachable dur now tx ->
  Link.txQueue (drain dur (S (length (Link.txQueue tx))) tx) = []
  /\ Link.endTxEvent (drain dur (S (length (Link.txQueue tx))) tx) = None
  /\ map Link.tx_frame
       (rev (Link.wire (Link.channel (drain dur (S (length (Link.txQueue tx))) tx))))
     = frames_of tx
  /\ (forall t,
        (length (Link.in_transmission t
                   (Link.channel (drain dur (S (length (Link.txQueue tx))) tx)))
         <= 1)%nat).
Proof.
  intros Hreach. pose proof (reachable_inv dur dur_nonneg _ _ Hreach) as Hinv.
  destruct (drain_inv (S (length (Link.txQueue tx))) now tx Hinv)
    as (Hq & Hev & Hfr & t0 & Hinv'); [lia|].
  split; [exact Hq|]. split; [exact Hev|]. split.
  - rewrite <- Hfr. unfold frames_of. rewrite Hq, app_nil_r. reflexivity.
  - intros t. destruct Hinv' as [Hser _].
    exact (serial_one_at_a_time _ _ t Hser).
Qed.

End TransmitterOrder.

(** ** The transmitter of a router gate *)

Section RouterTransmitter.

Variable dur : Frame -> simtime_t.
Hypothesis dur_nonneg : forall m, 0 <= dur m.

Lemma router_startTransmission_inv (now : simtime_t) (msg : Frame)
    (tx : Link.Transmitter) :
  serial (Link.txFinishTime (Link.channel tx)) (Link.wire (Link.channel tx)) ->
  Link.txFinishTime (Link.channel tx) <= now ->
  (forall te, Link.endTxEvent tx = Some te -> te = now) ->
  rtx_inv now (RouterLink.startTransmission dur now msg tx).
Proof.
  intros Hser Hidle Hdue. pose proof (dur_nonneg msg) as Hd.
  unfold rtx_inv, RouterLink.startTransmission. cbn. split.
  - repeat split; try lia. exact (serial_mono _ _ _ Hidle Hser).
  - destruct (now <? now + dur msg) eqn:E.
    + split; [reflexivity|lia].
    + apply Z.ltb_ge in E. destruct (Link.endTxEvent tx) as [te|].
      * rewrite (Hdue te eq_refl). lia.
      * lia.
Qed.

Lemma router_sendPacketOnGate_inv (now t : simtime_t) (msg : Frame)
    (tx : Link.Transmitter) :
  rtx_inv now tx ->
  now <= t ->
  (forall te, Link.endTxEvent tx = Some te -> t <= te) ->
  rtx_inv t (RouterLink.sendPacketOnGate dur t msg tx).
Proof.
  intros [Hser Hev] Hle Hdue. unfold RouterLink.sendPacketOnGate. cbv zeta.
  destruct (t <? Link.txFinishTime (Link.channel tx)) eqn:Hbusy.
  - apply Z.ltb_lt in Hbusy. unfold rtx_inv, Link.enqueue. cbn.
    split; [exact Hser|].
    destruct (Link.endTxEvent tx) as [te|]; [|lia].
    split; [apply Hev|apply Hdue; reflexivity].
  - apply Z.ltb_ge in Hbusy. apply router_startTransmission_inv; try assumption.
    intros te Hte. rewrite Hte in Hev. specialize (Hdue te Hte). lia.
Qed.

Lemma router_handleEndTx_inv (now te : simtime_t) (tx : Link.Transmitter) :
  rtx_inv now tx ->
  Link.endTxEvent tx = Some te ->
  rtx_inv te (RouterLink.handleEndTx dur te tx).
Proof.
  intros [Hser Hev] Hte. rewrite Hte in Hev. destruct Hev as [-> Hle].
  unfold RouterLink.handleEndTx. destruct (Link.txQueue tx) as [|m rest].
  - unfold rtx_inv. cbn. split; [exact Hser|lia].
  - apply router_startTransmission_inv; cbn; [exact Hser|lia|discriminate].
Qed.

Lemma router_reachable_inv (now : simtime_t) (tx : Link.Transmitter) :
  RouterLink.reachable dur now tx -> rtx_inv now tx.
Proof.
  induction 1 as [|now tx t m Hreach IH Hle Hdue|now tx te Hreach IH Hte].
  - unfold rtx_inv. cbn. split; [exact I|lia].
  - exact (router_sendPacketOnGate_inv _ _ _ _ IH Hle Hdue).
  - exact (router_handleEndTx_inv _ _ _ IH Hte).
Qed.

(** On every gate of a router at most one frame is in transmission at any
    instant, although the router's [sendPacketOnGate] tests the channel's
    busy-until time only and not the pending end-of-transmission event. *)
Theorem router_transmitter_serializes (now : simtime_t) (tx : Link.Transmitter) :
  RouterLink.reachable dur now tx ->
  forall t, (length (Link.in_transmission t (Link.channel tx)) <= 1)%nat.
Proof.
  intros Hreach t. destruct (router_reachable_inv _ _ Hreach) as [Hser _].
  exact (serial_one_at_a_time _ _ t Hser).
Qed.

End RouterTransmitter.

(** Two frames handed over at 0 and at 0.3 ms: the second waits in the FIFO
    behind the first, which is on the channel. *)
Lemma transmitter_fifo_witness :
  frames_of
    (Link.sendPacketOnGate dur_fixed 300000000%Z (mk "TCP_ACK" TCP_ACK 1%Z 3%Z)
       (Link.sendPacketOnGate dur_fixed 0%Z (mk "TCP_SYN" TCP_SYN 1%Z 3%Z) Link.init))
  = [mk "TCP_SYN" TCP_SYN 1%Z 3%Z; mk "TCP_ACK" TCP_ACK 1%Z 3%Z].
Proof.
  apply (transmitter_fifo dur_fixed) with (now := 300000000).
  - intros m. unfold dur_fixed. lia.
  - apply (handed_send dur_fixed [mk "TCP_SYN" TCP_SYN 1 3] 0); [|lia|].
    + apply (handed_send dur_fixed [] 0); [apply handed_init|lia|].
      intros te H. discriminate H.
    + intros te H. vm_compute in H. injection H as <-. lia.
Defined.

(** The same two frames: two end-of-transmission events later both have
    been on the channel, one after the other. *)
Lemma transmitter_drains_witness :
  Link.txQueue
    (drain dur_fixed 2
       (Link.sendPacketOnGate dur_fixed 300000000%Z (mk "TCP_ACK" TCP_ACK 1%Z 3%Z)
          (Link.sendPacketOnGate dur_fixed 0%Z (mk "TCP_SYN" TCP_SYN 1%Z 3%Z) Link.init)))
  = [].
Proof.
  apply (transmitter_drains dur_fixed) with (now := 300000000%Z)
    (tx := Link.sendPacketOnGate dur_fixed 300000000%Z (mk "TCP_ACK" TCP_ACK 1%Z 3%Z)
             (Link.sendPacketOnGate dur_fixed 0%Z (mk "TCP_SYN" TCP_SYN 1%Z 3%Z) Link.init)).
  - intros m. unfold dur_fixed. lia.
  - apply (Link.reach_send dur_fixed 0); [|lia|].
    + apply (Link.reach_send dur_fixed 0); [apply Link.reach_init|lia|].
      intros te H. discriminate H.
    + intros te H. vm_compute in H. injection H as <-. lia.
Defined.

(** Two frames handed to a router gate at 0 and at 0.3 ms. *)
Lemma router_transmitter_serializes_witness :
  (length
     (Link.in_transmission 1000000000%Z
        (Link.channel
           (RouterLink.sendPacketOnGate dur_fixed 300000000%Z
              (mk "TCP_ACK" TCP_ACK 1%Z 3%Z)
              (RouterLink.sendPacketOnGate dur_fixed 0%Z
                 (mk "TCP_SYN" TCP_SYN 1%Z 3%Z) Link.init))))
   <= 1)%nat.
Proof.
  apply (router_transmitter_serializes dur_fixed) with (now := 300000000).
  - intros m. unfold dur_fixed. lia.
  - apply (RouterLink.reach_send dur_fixed 0); [|lia|].
    + apply (RouterLink.reach_send dur_fixed 0); [apply RouterLink.reach_init|lia|].
      intros te H. discriminate H.
    + intros te H. vm_compute in H. injection H as <-. lia.
Defined.

(** ** Opening a connection *)

Lemma wrap64_small (z : Z) : - 2 ^ 63 <= z < 2 ^ 63 -> wrap64 z = z.
Proof. intros H. unfold wrap64. rewrite Z.mod_small; lia. Qed.

Lemma HTTP_handleFrame_syn (s : HTTP.t) (now sq : Z) (m : Frame) :
  kind m = TCP_SYN -> HTTP.handleFrame s now sq m = HTTP.handleTCPSyn s now sq m.
Proof. intros H. unfold HTTP.handleFrame. rewrite H. reflexivity. Qed.

Lemma HTTP_handleFrame_ack (s : HTTP.t) (now sq : Z) (m : Frame) :
  kind m = TCP_ACK -> HTTP.handleFrame s now sq m = Some (HTTP.handleTCPAck s m).
Proof. intros H. unfold HTTP.handleFrame. rewrite H. reflexivity. Qed.

Lemma HTTP_handleFrame_data (s : HTTP.t) (now sq : Z) (m : Frame) :
  kind m = TCP_DATA -> HTTP.handleFrame s now sq m = HTTP.handleTCPData s now m.
Proof. intros H. unfold HTTP.handleFrame. rewrite H. reflexivity. Qed.

Lemma PC_handleFrame_synack (q p : string) (s : PC.t) (now sq : Z) (m : Frame) :
  kind m = TCP_SYN_ACK -> PC.handleFrame q p s now sq m = PC.handleTCPSynAck q s m.
Proof. intros H. unfold PC.handleFrame. rewrite H. reflexivity. Qed.

Lemma PC_handleFrame_data (q p : string) (s : PC.t) (now sq : Z) (m : Frame) :
  kind m = TCP_DATA -> PC.handleFrame q p s now sq m = PC.handleTCPData s now sq m.
Proof. intros H. unfold PC.handleFrame. rewrite H. reflexivity. Qed.

Lemma PC_handleFrame_udp (q p : string) (s : PC.t) (now sq : Z) (m : Frame) :
  kind m = UDP_DATA -> PC.handleFrame q p s now sq m = Some (PC.handleUDPData s m).
Proof. intros H. unfold PC.handleFrame. rewrite H. reflexivity. Qed.

Ltac frame_fields :=
  cbn [kind SRC DST SEQ ACK PRIORITY pars name byteLength mk set_par set_priority
       set_seq set_ack par_long par_string par_bool hasPar par_update par_lookup
       PC.syn_frame String.eqb Ascii.eqb Bool.eqb mbind option_bind].

Ltac conn_fields :=
  unfold PC.bump_sendSeq, PC.establish, PC.syn_sent, HTTP.bump_sendSeq,
    HTTP.establish, id;
  cbn [remoteAddr state sendSeq recvSeq conn_cwnd conn_ssthresh rtt lastSent
       sharedKey default].

(** The three-way handshake between a client and an HTTP server.  A client
    that holds no key for the server opens a connection with a sequence
    number [seq0]; the server, within its SYN limit for the client, accepts
    the cookie and answers with a SYN-ACK of sequence number [serverSeq];
    the client accepts the server's cookie and answers with the ACK
    followed by its GET; the ACK completes the handshake at the server.
    Both ends then hold an established connection whose sequence numbers
    agree: the server expects [seq0 + 1], which is the number of the GET,
    and the client expects [serverSeq + 1], which is the number the server
    sends next. *)
Theorem three_way_handshake (qname protocol : string) (c : PC.t) (h : HTTP.t)
    (now t1 t2 t3 seq0 serverSeq r2 r3 : Z) :
  HTTP.addr h <> PC.dnsAddr c ->
  HTTP.addr h <> 601 ->
  PC.sharedKeys c !! HTTP.addr h = None ->
  (inject_Z (wrap32 (HTTP.count_of (HTTP.synCounts h) (PC.addr c) + 1))
   <= HTTP.synRateLimit h)%Q ->
  1000 <= seq0 <= 9999 ->
  1000 <= serverSeq <= 9999 ->
  exists c1 syn h1 synAck c2 ack get h2,
    PC.sendHTTPRequestTCP c now seq0 (HTTP.addr h) = (c1, [SendOnGate syn])
    /\ HTTP.handleFrame h t1 serverSeq syn = Some (h1, [SendOnGate synAck])
    /\ PC.handleFrame qname protocol c1 t2 r2 synAck
       = Some (c2, [SendOnGate ack; SendOnGate get])
    /\ HTTP.handleFrame h1 t3 r3 ack = Some (h2, [])
    /\ PC.tcpConnections c2 !! HTTP.addr h
       = Some {| remoteAddr := HTTP.addr h; state := TCP_ESTABLISHED;
                 sendSeq := seq0 + 2; recvSeq := serverSeq + 1; conn_cwnd := 1;
                 conn_ssthresh := 64; rtt := 0; lastSent := now;
                 sharedKey := EmptyString |}
    /\ HTTP.tcpConnections h2 !! PC.addr c
       = Some {| remoteAddr := PC.addr c; state := TCP_ESTABLISHED;
                 sendSeq := serverSeq + 1; recvSeq := seq0 + 1; conn_cwnd := 1;
                 conn_ssthresh := 64; rtt := 0; lastSent := 0;
                 sharedKey := EmptyString |}
    /\ (kind ack = TCP_ACK /\ SEQ ack = seq0 + 1 /\ ACK ack = serverSeq + 1)
    /\ (kind get = TCP_DATA /\ DST get = HTTP.addr h /\ SEQ get = seq0 + 1
        /\ par_string "path" get = Some "/"%string).
Proof.
  intros Hdns Hdb Hkey Hlim Hs0 Hs1.
  assert (W0 : wrap64 (seq0 + 1) = seq0 + 1) by (apply wrap64_small; lia).
  assert (W1 : wrap64 (serverSeq + 1) = serverSeq + 1) by (apply wrap64_small; lia).
  assert (W2 : wrap64 (seq0 + 1 + 1) = seq0 + 2) by (rewrite wrap64_small; lia).
  eexists _, _, _, _, _, _, _, _.
  split; [reflexivity|].
  split.
  { rewrite HTTP_handleFrame_syn by reflexivity.
    rewrite handleTCPSyn_within_limit by exact Hlim.
    unfold HTTP.cookieStage. frame_fields.
    change (HTTP.addr (HTTP.countSyn h t1 _)) with (HTTP.addr h).
    rewrite validateSYNCookie_generate. cbn [negb]. reflexivity. }
  split.
  { rewrite PC_handleFrame_synack by reflexivity.
    unfold PC.handleTCPSynAck. frame_fields.
    cbn [PC.tcpConnections PC.with_tcpConnections]. rewrite lookup_insert_eq.
    cbn [state PC.syn_sent PC.addr PC.with_tcpConnections].
    rewrite validateSYNCookie_generate.
    cbn [PC.dnsAddr PC.with_tcpConnections].
    rewrite (proj2 (Z.eqb_neq _ _) Hdns), (proj2 (Z.eqb_neq _ _) Hdb).
    unfold PC.sendHTTPDataTCP, PC.conn_at.
    cbn [PC.tcpConnections PC.with_tcpConnections PC.sharedKeys].
    rewrite lookup_insert_eq, Hkey.
    cbn [PC.attach_encrypted mbind option_bind default]. reflexivity. }
  split.
  { rewrite HTTP_handleFrame_ack by reflexivity.
    unfold HTTP.handleTCPAck. frame_fields.
    cbn [HTTP.tcpConnections HTTP.with_windows HTTP.with_tcpConnections
         HTTP.cwndMap HTTP.ssthreshMap].
    rewrite !lookup_insert_eq. reflexivity. }
  split.
  { cbn [PC.tcpConnections PC.with_tcpConnections]. rewrite lookup_insert_eq.
    conn_fields. rewrite W0, W1, W2. reflexivity. }
  split.
  { cbn [HTTP.tcpConnections HTTP.with_windows HTTP.with_tcpConnections].
    rewrite lookup_insert_eq. conn_fields. rewrite W0, W1. reflexivity. }
  split.
  { frame_fields. conn_fields. rewrite W0, W1. auto. }
  frame_fields. conn_fields. rewrite W0. auto.
Qed.

(** Client 1 opens a connection to server 3 at 1 s. *)
Lemma three_way_handshake_witness :
  exists c1 syn h1 synAck c2 ack get h2,
    PC.sendHTTPRequestTCP (PC.initialize 1 2) second 4242 (HTTP.addr http_server)
    = (c1, [SendOnGate syn])
    /\ HTTP.handleFrame http_server second 7001 syn = Some (h1, [SendOnGate synAck])
    /\ PC.handleFrame "example.com" "TCP" c1 second 0 synAck
       = Some (c2, [SendOnGate ack; SendOnGate get])
    /\ HTTP.handleFrame h1 second 0 ack = Some (h2, [])
    /\ PC.tcpConnections c2 !! HTTP.addr http_server
       = Some {| remoteAddr := HTTP.addr http_server; state := TCP_ESTABLISHED;
                 sendSeq := 4242 + 2; recvSeq := 7001 + 1; conn_cwnd := 1;
                 conn_ssthresh := 64; rtt := 0; lastSent := second;
                 sharedKey := EmptyString |}
    /\ HTTP.tcpConnections h2 !! PC.addr (PC.initialize 1 2)
       = Some {| remoteAddr := PC.addr (PC.initialize 1 2); state := TCP_ESTABLISHED;
                 sendSeq := 7001 + 1; recvSeq := 4242 + 1; conn_cwnd := 1;
                 conn_ssthresh := 64; rtt := 0; lastSent := 0;
                 sharedKey := EmptyString |}
    /\ (kind ack = TCP_ACK /\ SEQ ack = 4242 + 1 /\ ACK ack = 7001 + 1)
    /\ (kind get = TCP_DATA /\ DST get = HTTP.addr http_server /\ SEQ get = 4242 + 1
        /\ par_string "path" get = Some "/"%string).
Proof.
  apply (three_way_handshake "example.com" "TCP" (PC.initialize 1 2) http_server).
  - discriminate.
  - discriminate.
  - reflexivity.
  - vm_compute. discriminate.
  - lia.
  - lia.
Defined.

(** ** A request over an established connection *)

(** A GET over an established connection, end to end.  The client holds no
    key for the server and no connection to the database 601; the server
    holds a connection for the client, no key, and an idle response queue.
    The server queues the response and schedules [sendQueueTimer] one
    service time on; when the timer fires the response leaves through the
    transmitter, of kind [TCP_DATA], numbered with the server's [sendSeq]
    and acknowledging its [recvSeq], with the page size in [bytes], and the
    server's [sendSeq] has advanced by one.  The client answers it by
    opening a connection to the database (a SYN to 601, sent first) and by
    an ACK for the sequence number after the response's. *)
Theorem http_get_over_tcp (qname protocol : string) (c : PC.t) (h : HTTP.t)
    (cc sc : TCPConnection) (t1 t2 t3 r1 dbSeq : Z) :
  PC.tcpConnections c !! HTTP.addr h = Some cc ->
  PC.sharedKeys c !! HTTP.addr h = None ->
  PC.tcpConnections c !! 601 = None ->
  HTTP.tcpConnections h !! PC.addr c = Some sc ->
  HTTP.sharedKeys h !! PC.addr c = None ->
  HTTP.responseQueue h = [] ->
  HTTP.sendQueueTimer h = None ->
  - 2 ^ 62 <= sendSeq sc < 2 ^ 62 ->
  exists c1 get h1 resp h2 c2 syn ack,
    PC.sendHTTPDataTCP c (HTTP.addr h) = Some (c1, [SendOnGate get])
    /\ HTTP.handleFrame h t1 r1 get = Some (h1, [])
    /\ HTTP.sendQueueTimer h1 = Some (t1 + SimTime (HTTP.serviceTime h))
    /\ HTTP.processSendQueue h1 t2 = (h2, [SendOnGate resp])
    /\ (kind resp = TCP_DATA /\ SRC resp = HTTP.addr h /\ DST resp = PC.addr c
        /\ SEQ resp = sendSeq sc /\ ACK resp = recvSeq sc
        /\ par_long "bytes" resp = Some (HTTP.pageSizeBytes h)
        /\ hasPar "encrypted" resp = false)
    /\ HTTP.tcpConnections h2 !! PC.addr c = Some (HTTP.bump_sendSeq sc)
    /\ HTTP.responseQueue h2 = []
    /\ HTTP.sendQueueTimer h2 = None
    /\ PC.handleFrame qname protocol c1 t3 dbSeq resp
       = Some (c2, [SendOnGate syn; SendOnGate ack])
    /\ (kind syn = TCP_SYN /\ DST syn = 601 /\ SEQ syn = dbSeq)
    /\ (kind ack = TCP_ACK /\ DST ack = HTTP.addr h /\ ACK ack = sendSeq sc + 1).
Proof.
  intros Hcc Hck Hdb Hsc Hsk Hq Htm Hseq.
  assert (Hne : HTTP.addr h <> 601) by (intros E; rewrite E in Hcc; congruence).
  assert (W : wrap64 (sendSeq sc + 1) = sendSeq sc + 1) by (apply wrap64_small; lia).
  eexists _, _, _, _, _, _, _, _.
  split.
  { unfold PC.sendHTTPDataTCP. rewrite Hck.
    cbn [PC.attach_encrypted mbind option_bind]. reflexivity. }
  split.
  { rewrite HTTP_handleFrame_data by reflexivity.
    unfold HTTP.handleTCPData. frame_fields.
    unfold HTTP.handleHTTPGet, HTTP.isEncrypted. frame_fields.
    rewrite Hsk. cbn [HTTP.attach_encData mbind option_bind].
    change (TCP_DATA =? TCP_DATA) with true. cbn iota. rewrite Hsc.
    change (PRIORITY_HIGH <=? PRIORITY_NORMAL) with false. cbn iota.
    rewrite Hq, Htm. cbn [HTTP.pq_push]. reflexivity. }
  split; [reflexivity|].
  split; [reflexivity|].
  split.
  { frame_fields. repeat split; reflexivity. }
  split.
  { cbn [HTTP.tcpConnections HTTP.with_responseQueue HTTP.with_tcpConnections].
    rewrite lookup_insert_eq. reflexivity. }
  split; [reflexivity|].
  split; [reflexivity|].
  split.
  { rewrite PC_handleFrame_data by reflexivity.
    unfold PC.handleTCPData, PC.isEncrypted. frame_fields.
    cbn [PC.tcpConnections PC.with_tcpConnections].
    rewrite lookup_insert_ne by exact Hne. rewrite Hdb.
    unfold PC.sendDBRequestTCP. cbn [app]. reflexivity. }
  split.
  { frame_fields. repeat split; reflexivity. }
  frame_fields. rewrite W. repeat split; reflexivity.
Qed.


Lemma http_get_over_tcp_witness :
  exists c1 get h1 resp h2 c2 syn ack,
    PC.sendHTTPDataTCP pc_established (HTTP.addr http_connected)
    = Some (c1, [SendOnGate get])
    /\ HTTP.handleFrame http_connected (2 * second) 0 get = Some (h1, [])
    /\ HTTP.sendQueueTimer h1
       = Some (2 * second + SimTime (HTTP.serviceTime http_connected))
    /\ HTTP.processSendQueue h1 (2 * second + millisecond) = (h2, [SendOnGate resp])
    /\ (kind resp = TCP_DATA /\ SRC resp = HTTP.addr http_connected
        /\ DST resp = PC.addr pc_established
        /\ SEQ resp = sendSeq conn_from_1 /\ ACK resp = recvSeq conn_from_1
        /\ par_long "bytes" resp = Some (HTTP.pageSizeBytes http_connected)
        /\ hasPar "encrypted" resp = false)
    /\ HTTP.tcpConnections h2 !! PC.addr pc_established
       = Some (HTTP.bump_sendSeq conn_from_1)
    /\ HTTP.responseQueue h2 = []
    /\ HTTP.sendQueueTimer h2 = None
    /\ PC.handleFrame "example.com" "TCP" c1 (3 * second) 6000 resp
       = Some (c2, [SendOnGate syn; SendOnGate ack])
    /\ (kind syn = TCP_SYN /\ DST syn = 601 /\ SEQ syn = 6000)
    /\ (kind ack = TCP_ACK /\ DST ack = HTTP.addr http_connected
        /\ ACK ack = sendSeq conn_from_1 + 1).
Proof.
  apply (http_get_over_tcp "example.com" "TCP" pc_established http_connected
           conn_to_3 conn_from_1).
  - reflexivity.
  - reflexivity.
  - reflexivity.
  - vm_compute. reflexivity.
  - reflexivity.
  - reflexivity.
  - reflexivity.
  - cbn [sendSeq conn_from_1]. lia.
Defined.

(** ** Name lookup *)

Lemma secret_from_total (combined : string) :
  combined <> EmptyString ->
  forall n i, exists out, secret_from combined i n = Some out /\ String.length out = n.
Proof.
  intros Hne. induction n as [|n IH]; intros i.
  - exists EmptyString. split; reflexivity.
  - destruct (key_char combined i Hne) as [ch Hget].
    destruct (IH (S i)) as (out & Hout & Hlen).
    exists (String (secret_char ch i) out). cbn [secret_from].
    rewrite Hget, Hout. split; [reflexivity|]. cbn. rewrite Hlen. reflexivity.
Qed.

Lemma append_nonempty_l (a b : string) :
  a <> EmptyString -> (a ++ b)%string <> EmptyString.
Proof. destruct a; [congruence|discriminate]. Qed.

Lemma computeSharedSecret_total (a b : string) :
  a <> EmptyString ->
  exists k, computeSharedSecret a b = Some k /\ String.length k = 16%nat.
Proof.
  intros Ha. unfold computeSharedSecret.
  apply secret_from_total. apply append_nonempty_l. exact Ha.
Qed.

Lemma simpleEncrypt_total (data key : string) :
  key <> EmptyString -> exists e, simpleEncrypt data key = Some e.
Proof.
  intros Hk. destruct (encrypt_from_involutive key Hk data 0) as (e & He & _).
  exists e. exact He.
Qed.

Lemma DNS_within_limit (d : DNS.t) (m : Frame) (sq : Z) :
  (inject_Z (wrap32 (DNS.count_of (DNS.requestCounts d) (SRC m) + 1)) <= DNS.rateLimit d)%Q ->
  DNS.handleFrame d sq m
  = let s1 := DNS.countRequest d m in
    if kind m =? KEY_EXCHANGE then DNS.handleKeyExchange s1 m
    else if kind m =? TCP_SYN then DNS.handleTCPSyn s1 sq m
    else if kind m =? TCP_ACK then Some (DNS.handleTCPAck s1 m)
    else if kind m =? TCP_DATA then DNS.handleTCPData s1 m
    else if kind m =? DNS_QUERY then DNS.handleDNSQuery s1 m
    else Some (s1, []).
Proof.
  intros H. unfold DNS.handleFrame. cbv zeta.
  replace (Qltb _ _) with false; [reflexivity|].
  symmetry. apply Qltb_ge.
  unfold DNS.countRequest, DNS.count_of at 1.
  cbn [DNS.requestCounts DNS.with_requestCounts DNS.rateLimit].
  rewrite lookup_insert_eq. exact H.
Qed.

Lemma limit_below (n k m : Z) (L : Q) :
  0 <= n -> 0 < k <= m -> n + m < 2 ^ 31 ->
  (inject_Z (n + m) <= L)%Q ->
  wrap32 (n + k) = n + k /\ (inject_Z (n + k) <= L)%Q.
Proof.
  intros Hn Hk Hm HL. split.
  - apply wrap32_small. lia.
  - eapply Qle_trans; [|exact HL]. rewrite <- Zle_Qle. lia.
Qed.

Lemma PC_start_udp (qname protocol : string) (c : PC.t) (now seq : Z)
    (retransmit : option simtime_t) :
  protocol = "UDP"%string \/ protocol = "AUTO"%string ->
  PC.sharedKeys c !! PC.dnsAddr c = None ->
  PC.start qname protocol c now seq retransmit
  = Some (c,
          [SendOnGate
             (set_priority PRIORITY_HIGH
                (set_par "publicKey" (PString (PC.myPublicKey c))
                   (mk "KEY_EXCHANGE" KEY_EXCHANGE (PC.addr c) (PC.dnsAddr c))));
           SendOnGate
             (set_par "protocol" (PString "UDP")
                (set_priority PRIORITY_HIGH
                   (set_par "qname" (PString (c_str qname))
                      (mk "DNS_QUERY" DNS_QUERY (PC.addr c) (PC.dnsAddr c)))))],
          retransmit).
Proof.
  intros Hp Hk. unfold PC.start, PC.sendDNSQueryUDP, PC.initiateKeyExchange.
  rewrite Hk. destruct Hp as [-> | ->]; reflexivity.
Qed.

(** A name lookup over UDP, end to end.  At its start event a client with
    protocol UDP or AUTO sends its key-exchange frame and its query to the
    DNS server.  The server, within its rate limit for the client, stores a
    key and does not answer the key exchange; it answers the query (which
    carries [protocol = "UDP"]) with a frame of kind [UDP_DATA], encrypted
    under the key that only the server holds.  The client hands a frame of
    that kind to [handleUDPData], which discards it: the state of the client
    is unchanged and it sends nothing, so neither [handleDNSResponse] nor
    the HTTP request that it would issue is reached. *)
Theorem dns_lookup_over_udp_stalls (qname protocol : string) (c : PC.t) (d : DNS.t)
    (now seq r1 r2 t3 r3 : Z) (retransmit : option simtime_t) :
  protocol = "UDP"%string \/ protocol = "AUTO"%string ->
  PC.sharedKeys c !! PC.dnsAddr c = None ->
  DNS.myPrivateKey d <> EmptyString ->
  0 <= DNS.count_of (DNS.requestCounts d) (PC.addr c) ->
  DNS.count_of (DNS.requestCounts d) (PC.addr c) + 2 < 2 ^ 31 ->
  (inject_Z (DNS.count_of (DNS.requestCounts d) (PC.addr c) + 2) <= DNS.rateLimit d)%Q ->
  exists key query d1 d2 resp,
    PC.start qname protocol c now seq retransmit
    = Some (c, [SendOnGate key; SendOnGate query], retransmit)
    /\ DNS.handleFrame d r1 key = Some (d1, [])
    /\ DNS.handleFrame d1 r2 query = Some (d2, [SendOnGate resp])
    /\ (kind resp = UDP_DATA /\ SRC resp = DNS.addr d /\ DST resp = PC.addr c
        /\ par_long "answer" resp = Some (DNS.answer d)
        /\ par_bool "encrypted" resp = Some true)
    /\ PC.handleFrame qname protocol c t3 r3 resp = Some (c, []).
Proof.
  intros Hp Hk Hpriv Hn0 Hn31 HL.
  destruct (limit_below _ 1 2 _ Hn0 ltac:(lia) Hn31 HL) as [W1 L1].
  destruct (limit_below _ 2 2 _ Hn0 ltac:(lia) Hn31 HL) as [W2 L2].
  destruct (computeSharedSecret_total (DNS.myPrivateKey d) (PC.myPublicKey c) Hpriv)
    as (k & Hsec & Hlen).
  assert (Hkne : k <> EmptyString) by (intros ->; discriminate Hlen).
  destruct (simpleEncrypt_total (c_str qname) k Hkne) as (e & He).
  eexists _, _, _, _, _.
  split; [apply PC_start_udp; assumption|].
  split.
  { rewrite DNS_within_limit; frame_fields; [|rewrite W1; exact L1].
    cbv zeta. change (KEY_EXCHANGE =? KEY_EXCHANGE) with true. cbn iota.
    unfold DNS.handleKeyExchange. frame_fields.
    cbn [DNS.myPrivateKey DNS.countRequest DNS.with_requestCounts].
    rewrite Hsec. cbn [mbind option_bind]. rewrite lookup_insert_eq.
    rewrite (computeSharedSecret_nonempty _ _ _ Hsec). reflexivity. }
  split.
  { rewrite DNS_within_limit; frame_fields.
    2:{ unfold DNS.count_of at 1.
        cbn [DNS.requestCounts DNS.with_sharedKeys DNS.countRequest
             DNS.with_requestCounts DNS.rateLimit].
        rewrite lookup_insert_eq. unfold id. cbn [default]. frame_fields. rewrite W1.
        replace (DNS.count_of (DNS.requestCounts d) (PC.addr c) + 1 + 1)
          with (DNS.count_of (DNS.requestCounts d) (PC.addr c) + 2) by lia.
        rewrite W2. exact L2. }
    cbv zeta. change (DNS_QUERY =? KEY_EXCHANGE) with false.
    change (DNS_QUERY =? TCP_SYN) with false.
    change (DNS_QUERY =? TCP_ACK) with false.
    change (DNS_QUERY =? TCP_DATA) with false.
    change (DNS_QUERY =? DNS_QUERY) with true. cbn iota.
    unfold DNS.handleDNSQuery, HTTP.isEncrypted, DNS.isUDP. frame_fields.
    cbn [DNS.sharedKeys DNS.countRequest DNS.with_requestCounts DNS.with_sharedKeys].
    rewrite insert_insert_eq, lookup_insert_eq. cbn iota.
    cbn [mbind option_bind]. 
    rewrite He. cbn [mbind option_bind]. frame_fields. reflexivity. }
  split.
  { frame_fields. repeat split; reflexivity. }
  rewrite PC_handleFrame_udp by reflexivity. reflexivity.
Qed.

Lemma PC_start_tcp (qname protocol : string) (c : PC.t) (now seq : Z)
    (retransmit : option simtime_t) :
  protocol <> "UDP"%string -> protocol <> "AUTO"%string ->
  PC.start qname protocol c now seq retransmit
  = Some (PC.with_tcpConnections
            (<[PC.dnsAddr c := PC.syn_sent (PC.dnsAddr c) seq now]> (PC.tcpConnections c)) c,
          [SendOnGate
             (set_priority PRIORITY_HIGH
                (set_par "publicKey" (PString (PC.myPublicKey c))
                   (mk "KEY_EXCHANGE" KEY_EXCHANGE (PC.addr c) (PC.dnsAddr c))));
           SendOnGate (PC.syn_frame c (PC.dnsAddr c) seq PRIORITY_HIGH)],
          match retransmit with
          | Some scheduled => Some scheduled
          | None => Some (now + SimTime 3%Q)
          end).
Proof.
  intros H1 H2. unfold PC.start.
  rewrite (proj2 (String.eqb_neq _ _) H1), (proj2 (String.eqb_neq _ _) H2).
  reflexivity.
Qed.

Lemma DNS_count_insert (m : gmap Z Z) (a v : Z) : DNS.count_of (<[a := v]> m) a = v.
Proof. unfold DNS.count_of. rewrite lookup_insert_eq. reflexivity. Qed.

Ltac dns_limit n :=
  cbn [DNS.requestCounts DNS.with_tcpConnections DNS.with_sharedKeys DNS.countRequest
       DNS.with_requestCounts DNS.rateLimit PC.addr PC.with_tcpConnections];
  frame_fields;
  cbn [DNS.addr DNS.requestCounts DNS.with_tcpConnections DNS.with_sharedKeys
       DNS.countRequest DNS.with_requestCounts DNS.rateLimit PC.addr
       PC.with_tcpConnections];
  rewrite ?DNS_count_insert; fold n.

(** A name lookup over TCP, end to end.  With any other protocol setting
    the client sends its key-exchange frame and a SYN; the server stays
    silent on the first and completes the handshake on the second; the
    client then sends its query as [TCP_DATA] and the server answers with a
    frame of kind [TCP_DATA] that carries the answer but no [bytes].  The
    client answers such a frame with an acknowledgement and nothing else,
    and the server answers the acknowledgement with nothing: the lookup
    ends there, and the answer is not used to contact the HTTP server. *)
Theorem dns_lookup_over_tcp_stalls (qname protocol : string) (c : PC.t) (d : DNS.t)
    (now seq serverSeq r1 r2 r3 r4 t1 t2 q1 q2 : Z) (retransmit : option simtime_t) :
  protocol <> "UDP"%string -> protocol <> "AUTO"%string ->
  DNS.addr d = PC.dnsAddr c ->
  PC.sharedKeys c !! PC.dnsAddr c = None ->
  DNS.myPrivateKey d <> EmptyString ->
  0 <= DNS.count_of (DNS.requestCounts d) (PC.addr c) ->
  DNS.count_of (DNS.requestCounts d) (PC.addr c) + 5 < 2 ^ 31 ->
  (inject_Z (DNS.count_of (DNS.requestCounts d) (PC.addr c) + 5) <= DNS.rateLimit d)%Q ->
  exists c1 key syn rt d1 d2 synAck c2 ack data d3 d4 resp ack2 d5,
    PC.start qname protocol c now seq retransmit
    = Some (c1, [SendOnGate key; SendOnGate syn], rt)
    /\ DNS.handleFrame d r1 key = Some (d1, [])
    /\ DNS.handleFrame d1 serverSeq syn = Some (d2, [SendOnGate synAck])
    /\ PC.handleFrame qname protocol c1 t1 q1 synAck
       = Some (c2, [SendOnGate ack; SendOnGate data])
    /\ DNS.handleFrame d2 r2 ack = Some (d3, [])
    /\ DNS.handleFrame d3 r3 data = Some (d4, [SendOnGate resp])
    /\ (kind resp = TCP_DATA /\ DST resp = PC.addr c
        /\ par_long "answer" resp = Some (DNS.answer d)
        /\ hasPar "bytes" resp = false)
    /\ PC.handleFrame qname protocol c2 t2 q2 resp = Some (c2, [SendOnGate ack2])
    /\ kind ack2 = TCP_ACK
    /\ DNS.handleFrame d4 r4 ack2 = Some (d5, []).
Proof.
  intros Hp1 Hp2 Haddr Hk Hpriv Hn0 Hn31 HL.
  set (n := DNS.count_of (DNS.requestCounts d) (PC.addr c)) in *.
  destruct (limit_below n 1 5 _ Hn0 ltac:(lia) Hn31 HL) as [W1 L1].
  destruct (limit_below n 2 5 _ Hn0 ltac:(lia) Hn31 HL) as [W2 L2].
  destruct (limit_below n 3 5 _ Hn0 ltac:(lia) Hn31 HL) as [W3 L3].
  destruct (limit_below n 4 5 _ Hn0 ltac:(lia) Hn31 HL) as [W4 L4].
  destruct (limit_below n 5 5 _ Hn0 ltac:(lia) Hn31 HL) as [W5 L5].
  replace (n + 2) with (n + 1 + 1) in W2, L2 by lia.
  replace (n + 3) with (n + 1 + 1 + 1) in W3, L3 by lia.
  replace (n + 4) with (n + 1 + 1 + 1 + 1) in W4, L4 by lia.
  replace (n + 5) with (n + 1 + 1 + 1 + 1 + 1) in W5, L5 by lia.
  destruct (computeSharedSecret_total (DNS.myPrivateKey d) (PC.myPublicKey c) Hpriv)
    as (k & Hsec & Hlen).
  assert (Hkne : k <> EmptyString) by (intros ->; discriminate Hlen).
  destruct (simpleEncrypt_total (c_str qname) k Hkne) as (e & He).
  eexists _, _, _, _, _, _, _, _, _, _, _, _, _, _, _.
  split; [apply PC_start_tcp; assumption|].
  split.
  { rewrite DNS_within_limit; [|dns_limit n; rewrite W1; exact L1].
    frame_fields. cbv zeta. change (KEY_EXCHANGE =? KEY_EXCHANGE) with true. cbn iota.
    unfold DNS.handleKeyExchange. frame_fields.
    cbn [DNS.myPrivateKey DNS.countRequest DNS.with_requestCounts].
    rewrite Hsec. cbn [mbind option_bind]. rewrite lookup_insert_eq.
    rewrite (computeSharedSecret_nonempty _ _ _ Hsec). reflexivity. }
  split.
  { rewrite DNS_within_limit; [|dns_limit n; rewrite W1, W2; exact L2].
    frame_fields. cbv zeta. change (TCP_SYN =? KEY_EXCHANGE) with false.
    change (TCP_SYN =? TCP_SYN) with true. cbn iota.
    unfold DNS.handleTCPSyn. frame_fields.
    cbn [DNS.addr DNS.countRequest DNS.with_requestCounts DNS.with_sharedKeys].
    rewrite Haddr, validateSYNCookie_generate. cbn [negb]. reflexivity. }
  split.
  { rewrite PC_handleFrame_synack by reflexivity.
    unfold PC.handleTCPSynAck. frame_fields.
    cbn [PC.tcpConnections PC.with_tcpConnections]. rewrite lookup_insert_eq.
    cbn [state PC.syn_sent PC.addr PC.with_tcpConnections].
    rewrite validateSYNCookie_generate.
    cbn [PC.dnsAddr PC.with_tcpConnections]. rewrite Z.eqb_refl.
    unfold PC.sendDNSDataTCP, PC.conn_at.
    cbn [PC.tcpConnections PC.with_tcpConnections PC.sharedKeys].
    rewrite lookup_insert_eq, Hk.
    cbn [PC.attach_encrypted mbind option_bind default]. reflexivity. }
  split.
  { rewrite DNS_within_limit; [|dns_limit n; rewrite W1, W2, W3; exact L3].
    frame_fields. cbv zeta. change (TCP_ACK =? KEY_EXCHANGE) with false.
    change (TCP_ACK =? TCP_SYN) with false.
    change (TCP_ACK =? TCP_ACK) with true. cbn iota.
    unfold DNS.handleTCPAck. frame_fields.
    cbn [DNS.tcpConnections DNS.countRequest DNS.with_requestCounts
         DNS.with_tcpConnections PC.addr PC.with_tcpConnections].
    rewrite lookup_insert_eq. reflexivity. }
  split.
  { rewrite DNS_within_limit; [|dns_limit n; rewrite W1, W2, W3, W4; exact L4].
    frame_fields. cbv zeta. change (TCP_DATA =? KEY_EXCHANGE) with false.
    change (TCP_DATA =? TCP_SYN) with false.
    change (TCP_DATA =? TCP_ACK) with false.
    change (TCP_DATA =? TCP_DATA) with true. cbn iota.
    unfold DNS.handleTCPData. frame_fields.
    unfold DNS.handleDNSQuery, HTTP.isEncrypted, DNS.isUDP. frame_fields.
    cbn [DNS.sharedKeys DNS.tcpConnections DNS.countRequest DNS.with_requestCounts
         DNS.with_sharedKeys DNS.with_tcpConnections PC.addr PC.with_tcpConnections].
    rewrite !lookup_insert_eq. cbn iota.
    cbn [mbind option_bind].
    rewrite He. cbn [mbind option_bind]. frame_fields.
    change (TCP_DATA =? TCP_DATA) with true. cbn iota.
    reflexivity. }
  split.
  { frame_fields. repeat split; reflexivity. }
  split.
  { rewrite PC_handleFrame_data by reflexivity.
    unfold PC.handleTCPData. frame_fields. reflexivity. }
  split; [reflexivity|].
  rewrite DNS_within_limit; [|dns_limit n; rewrite W1, W2, W3, W4, W5; exact L5].
  frame_fields. cbv zeta. change (TCP_ACK =? KEY_EXCHANGE) with false.
  change (TCP_ACK =? TCP_SYN) with false.
  change (TCP_ACK =? TCP_ACK) with true. cbn iota.
  unfold DNS.handleTCPAck. frame_fields.
  cbn [DNS.tcpConnections DNS.countRequest DNS.with_requestCounts
       DNS.with_tcpConnections PC.addr PC.with_tcpConnections].
  rewrite lookup_insert_eq. reflexivity.
Qed.

(** Client 1 (protocol UDP) and a fresh DNS server 2 that answers 3. *)
Lemma dns_lookup_over_udp_stalls_witness :
  exists key query d1 d2 resp,
    PC.start "example.com" "UDP" (PC.initialize 1 2) second 4242 None
    = Some (PC.initialize 1 2, [SendOnGate key; SendOnGate query], None)
    /\ DNS.handleFrame (DNS.initialize 2 3 100) 0 key = Some (d1, [])
    /\ DNS.handleFrame d1 0 query = Some (d2, [SendOnGate resp])
    /\ (kind resp = UDP_DATA /\ SRC resp = DNS.addr (DNS.initialize 2 3 100)
        /\ DST resp = PC.addr (PC.initialize 1 2)
        /\ par_long "answer" resp = Some (DNS.answer (DNS.initialize 2 3 100))
        /\ par_bool "encrypted" resp = Some true)
    /\ PC.handleFrame "example.com" "UDP" (PC.initialize 1 2) (2 * second) 0 resp
       = Some (PC.initialize 1 2, []).
Proof.
  apply (dns_lookup_over_udp_stalls "example.com" "UDP" (PC.initialize 1 2)
           (DNS.initialize 2 3 100)).
  - left. reflexivity.
  - reflexivity.
  - vm_compute. discriminate.
  - vm_compute. discriminate.
  - reflexivity.
  - vm_compute. discriminate.
Defined.

(** Client 1 (protocol TCP) and a fresh DNS server 2 that answers 3. *)
Lemma dns_lookup_over_tcp_stalls_witness :
  exists c1 key syn rt d1 d2 synAck c2 ack data d3 d4 resp ack2 d5,
    PC.start "example.com" "TCP" (PC.initialize 1 2) second 4242 None
    = Some (c1, [SendOnGate key; SendOnGate syn], rt)
    /\ DNS.handleFrame (DNS.initialize 2 3 100) 0 key = Some (d1, [])
    /\ DNS.handleFrame d1 7000 syn = Some (d2, [SendOnGate synAck])
    /\ PC.handleFrame "example.com" "TCP" c1 (2 * second) 0 synAck
       = Some (c2, [SendOnGate ack; SendOnGate data])
    /\ DNS.handleFrame d2 0 ack = Some (d3, [])
    /\ DNS.handleFrame d3 0 data = Some (d4, [SendOnGate resp])
    /\ (kind resp = TCP_DATA /\ DST resp = PC.addr (PC.initialize 1 2)
        /\ par_long "answer" resp = Some (DNS.answer (DNS.initialize 2 3 100))
        /\ hasPar "bytes" resp = false)
    /\ PC.handleFrame "example.com" "TCP" c2 (3 * second) 0 resp
       = Some (c2, [SendOnGate ack2])
    /\ kind ack2 = TCP_ACK
    /\ DNS.handleFrame d4 0 ack2 = Some (d5, []).
Proof.
  apply (dns_lookup_over_tcp_stalls "example.com" "TCP" (PC.initialize 1 2)
           (DNS.initialize 2 3 100)).
  - discriminate.
  - discriminate.
  - reflexivity.
  - reflexivity.
  - vm_compute. discriminate.
  - vm_compute. discriminate.
  - reflexivity.
  - vm_compute. discriminate.
Defined.

(** ** Encrypted parameters on the wire *)

Lemma xor_char_zero (c k : ascii) :
  xor_char (xor_char c k) char_AA = zero <-> c = xor_char k char_AA.
Proof.
  destruct c as [c0 c1 c2 c3 c4 c5 c6 c7], k as [k0 k1 k2 k3 k4 k5 k6 k7].
  cbn. split; intros H; injection H as H0 H1 H2 H3 H4 H5 H6 H7.
  - f_equal; [destruct c0, k0|destruct c1, k1|destruct c2, k2|destruct c3, k3
             |destruct c4, k4|destruct c5, k5|destruct c6, k6|destruct c7, k7];
      first [reflexivity | discriminate].
  - subst. f_equal; [destruct k0|destruct k1|destruct k2|destruct k3
                    |destruct k4|destruct k5|destruct k6|destruct k7]; reflexivity.
Qed.

Lemma c_str_encrypt_from (key : string) :
  forall (data e : string) (i : nat),
    encrypt_from key i data = Some e ->
    encrypt_from key i (c_str e)
    = Some (substring 0 (String.length (c_str e)) data)
    /\ (collides key i data = false -> c_str e = e)
    /\ (collides key i data = true
        -> (String.length (c_str e) < String.length data)%nat)
    /\ (String.length (c_str e) <= String.length data)%nat.
Proof.
  induction data as [|c rest IH]; intros e i H; cbn [encrypt_from] in H.
  - injection H as <-. cbn. repeat split; [discriminate|lia].
  - destruct (String.get (i mod String.length key) key) as [k|] eqn:Hget;
      [|discriminate H].
    destruct (encrypt_from key (S i) rest) as [out|] eqn:Hout; [|discriminate H].
    injection H as <-. destruct (IH out (S i) Hout) as (IH1 & IH2 & IH3 & IH4).
    cbn [c_str collides]. rewrite Hget.
    destruct (Ascii.eqb (xor_char (xor_char c k) char_AA) zero) eqn:Ez.
    + apply Ascii.eqb_eq in Ez. pose proof (proj1 (xor_char_zero c k) Ez) as Hc.
      rewrite (proj2 (Ascii.eqb_eq _ _) Hc). cbn.
      repeat split; [discriminate|lia|lia].
    + assert (Hc : Ascii.eqb c (xor_char k char_AA) = false).
      { apply Ascii.eqb_neq. intros Hc. apply Ascii.eqb_neq in Ez. apply Ez.
        apply xor_char_zero. exact Hc. }
      rewrite Hc. cbn [orb encrypt_from String.length substring]. rewrite Hget, IH1.
      rewrite xor_char_cancel. split; [reflexivity|]. split; [|split].
      * intros Hn. rewrite (IH2 Hn). reflexivity.
      * intros Hy. specialize (IH3 Hy). lia.
      * lia.
Qed.

(** What the receiver of an encrypted parameter decrypts.  The sender
    stores [simpleEncrypt(data, key).c_str()], which ends at the first NUL
    byte of the cipher text: the receiver gets back the bytes of [data]
    before the first byte that collides with the key stream, that is all of
    [data] when no byte collides and a strictly shorter text otherwise. *)
Theorem encrypted_parameter_round_trip (data key e : string) :
  simpleEncrypt data key = Some e ->
  simpleDecrypt (c_str e) key
  = Some (substring 0 (String.length (c_str e)) data)
  /\ (collides key 0 data = false -> simpleDecrypt (c_str e) key = Some data)
  /\ (collides key 0 data = true
      -> (String.length (c_str e) < String.length data)%nat).
Proof.
  unfold simpleDecrypt, simpleEncrypt. intros H.
  destruct (c_str_encrypt_from key data e 0 H) as (H1 & H2 & H3 & _).
  split; [exact H1|]. split; [|exact H3].
  intros Hn. rewrite (H2 Hn).
  destruct data as [|c rest]; [injection H as <-; reflexivity|].
  assert (Hk : key <> EmptyString) by (intros ->; discriminate H).
  destruct (encrypt_from_involutive key Hk (String c rest) 0) as (e' & He' & Hback).
  rewrite H in He'. injection He' as <-. exact Hback.
Qed.

Lemma encrypted_parameter_round_trip_witness :
  simpleDecrypt (c_str cipher_example) "key"
  = Some (substring 0 (String.length (c_str cipher_example)) "/index.html")
  /\ (collides "key" 0 "/index.html" = false
      -> simpleDecrypt (c_str cipher_example) "key" = Some "/index.html"%string)
  /\ (collides "key" 0 "/index.html" = true
      -> (String.length (c_str cipher_example) < String.length "/index.html")%nat).
Proof.
  apply (encrypted_parameter_round_trip "/index.html" "key" cipher_example).
  vm_compute. reflexivity.
Defined.

(** ** The secret derived in a key exchange *)

Lemma lxor_5A_byte (c : ascii) : (N.lxor (N_of_ascii c) 0x5A < 256)%N.
Proof.
  destruct c as [[] [] [] [] [] [] [] []]; vm_compute; reflexivity.
Qed.

Lemma secret_char_inj (c1 c2 : ascii) (i : nat) :
  secret_char c1 i = secret_char c2 i -> c1 = c2.
Proof.
  unfold secret_char. intros H.
  apply (f_equal N_of_ascii) in H.
  rewrite !N_ascii_embedding in H by (apply N.mod_upper_bound; discriminate).
  pose proof (lxor_5A_byte c1) as B1. pose proof (lxor_5A_byte c2) as B2.
  set (x1 := N.lxor (N_of_ascii c1) 90) in *.
  set (x2 := N.lxor (N_of_ascii c2) 90) in *.
  assert (E : x1 = x2).
  { pose proof (N.div_mod (x1 + N.of_nat i) 256 ltac:(discriminate)) as D1.
    pose proof (N.div_mod (x2 + N.of_nat i) 256 ltac:(discriminate)) as D2.
    pose proof (N.mod_upper_bound (x1 + N.of_nat i) 256 ltac:(discriminate)) as U1.
    rewrite H in D1. lia. }
  unfold x1, x2 in E. apply (f_equal (fun n => N.lxor n 90)) in E.
  rewrite !N.lxor_assoc, N.lxor_nilpotent, !N.lxor_0_r in E.
  rewrite <- (ascii_N_embedding c1), <- (ascii_N_embedding c2), E. reflexivity.
Qed.

Lemma secret_from_get (combined : string) :
  forall (n i : nat) (out : string),
    secret_from combined i n = Some out ->
    forall j, (j < n)%nat ->
      exists c, String.get ((i + j) mod String.length combined) combined = Some c
                /\ String.get j out = Some (secret_char c (i + j)).
Proof.
  induction n as [|n IH]; intros i out H j Hj; [lia|].
  cbn [secret_from] in H.
  destruct (String.get (i mod String.length combined) combined) as [c|] eqn:Hget;
    [|discriminate H].
  destruct (secret_from combined (S i) n) as [rest|] eqn:Hrest; [|discriminate H].
  injection H as <-. destruct j as [|j].
  - exists c. rewrite Nat.add_0_r. split; [exact Hget|reflexivity].
  - destruct (IH (S i) rest Hrest j ltac:(lia)) as (c' & Hc' & Hout).
    exists c'. replace (i + S j)%nat with (S i + j)%nat by lia.
    split; [exact Hc'|exact Hout].
Qed.

Lemma get_append_l (a b : string) (j : nat) :
  (j < String.length a)%nat -> String.get j (a ++ b)%string = String.get j a.
Proof. intros Hj. symmetry. apply append_correct1. exact Hj. Qed.

Lemma length_append (a b : string) :
  String.length (a ++ b)%string = (String.length a + String.length b)%nat.
Proof.
  induction a as [|x a IH]; [reflexivity|].
  change (String x a ++ b)%string with (String x (a ++ b)%string).
  cbn [String.length]. rewrite IH. reflexivity.
Qed.

Lemma differ_at (a : string) :
  forall b, String.length a = String.length b -> a <> b ->
    exists j, (j < String.length a)%nat /\ String.get j a <> String.get j b.
Proof.
  induction a as [|x a IH]; intros [|y b] Hlen Hne; cbn in Hlen; try discriminate.
  - congruence.
  - destruct (Ascii.eqb_spec x y) as [->|Hxy].
    + destruct (IH b) as (j & Hj & Hget); [lia|congruence|].
      exists (S j). cbn. split; [lia|exact Hget].
    + exists O. cbn. split; [lia|congruence].
Qed.

(** The secret that [computeSharedSecret] derives is not shared.  Two nodes
    whose private keys differ (and have the same length of at most 16
    characters, as the eight hexadecimal digits that [generateECDHPublicKey]
    gives to small addresses) derive different secrets from each other's
    public key, whatever the public keys are: the first bytes of the secret
    are a function of the node's own private key alone. *)
Theorem shared_secret_not_shared (privA pubA privB pubB : string) :
  String.length privA = String.length privB ->
  (String.length privA <= 16)%nat ->
  privA <> privB ->
  exists kA kB,
    computeSharedSecret privA pubB = Some kA
    /\ computeSharedSecret privB pubA = Some kB
    /\ kA <> kB.
Proof.
  intros Hlen H16 Hne.
  destruct (differ_at privA privB Hlen Hne) as (j & Hj & Hget).
  assert (HA : privA <> EmptyString) by (intros ->; cbn in Hj; lia).
  assert (HB : privB <> EmptyString) by (intros ->; cbn in Hlen; rewrite Hlen in Hj; lia).
  destruct (computeSharedSecret_total privA pubB HA) as (kA & HkA & _).
  destruct (computeSharedSecret_total privB pubA HB) as (kB & HkB & _).
  exists kA, kB. split; [exact HkA|]. split; [exact HkB|].
  intros E. subst kB. unfold computeSharedSecret in *.
  destruct (secret_from_get _ _ _ _ HkA j ltac:(lia)) as (cA & HcA & HoA).
  destruct (secret_from_get _ _ _ _ HkB j ltac:(lia)) as (cB & HcB & HoB).
  cbn [Nat.add] in *.
  rewrite Nat.mod_small, get_append_l in HcA by (rewrite ?length_append; lia).
  rewrite Nat.mod_small, get_append_l in HcB by (rewrite ?length_append; lia).
  rewrite HoA in HoB. injection HoB as HoB. apply secret_char_inj in HoB.
  apply Hget. congruence.
Qed.

(** Client 1 and server 3 with the keys that [initialize()] gives them. *)
Lemma shared_secret_not_shared_witness :
  exists kA kB,
    computeSharedSecret (PC.myPrivateKey (PC.initialize 1 2))
      (HTTP.myPublicKey http_server) = Some kA
    /\ computeSharedSecret (HTTP.myPrivateKey http_server)
         (PC.myPublicKey (PC.initialize 1 2)) = Some kB
    /\ kA <> kB.
Proof.
  apply shared_secret_not_shared.
  - reflexivity.
  - vm_compute. lia.
  - vm_compute. discriminate.
Defined.

(** ** The congestion window over a run of the client *)

Ltac same_cong_step :=
  match goal with
  | H : Some _ = Some _ |- _ => injection H as <- <-
  | H : None = Some _ |- _ => discriminate H
  | H : (_, _) = (_, _) |- _ => injection H as <- <-
  | H : context [match ?x with _ => _ end] |- _ =>
      let E := fresh "E" in destruct x eqn:E
  | H : context [mbind _ ?x] |- _ =>
      let E := fresh "E" in destruct x eqn:E; cbn [mbind option_bind] in H
  end.

Lemma sendDNSDataTCP_congestion q s p s' acts :
  PC.sendDNSDataTCP q s p = Some (s', acts) -> same_congestion s s'.
Proof.
  unfold PC.sendDNSDataTCP. cbv zeta. intros H.
  destruct (PC.attach_encrypted _ _ _ _); cbn [mbind option_bind] in H;
    [|discriminate H].
  injection H as <- <-. repeat split.
Qed.

Lemma sendDBQueryTCP_congestion s p s' acts :
  PC.sendDBQueryTCP s p = Some (s', acts) -> same_congestion s s'.
Proof.
  unfold PC.sendDBQueryTCP. cbv zeta. intros H.
  destruct (PC.attach_encrypted _ _ _ _); cbn [mbind option_bind] in H;
    [|discriminate H].
  injection H as <- <-. repeat split.
Qed.

Lemma sendHTTPDataTCP_congestion s p s' acts :
  PC.sendHTTPDataTCP s p = Some (s', acts) -> same_congestion s s'.
Proof.
  unfold PC.sendHTTPDataTCP. cbv zeta. intros H.
  destruct (PC.attach_encrypted _ _ _ _); cbn [mbind option_bind] in H;
    [|discriminate H].
  injection H as <- <-. repeat split.
Qed.

Lemma handleTCPSynAck_congestion q s m s' acts :
  PC.handleTCPSynAck q s m = Some (s', acts) -> same_congestion s s'.
Proof.
  unfold PC.handleTCPSynAck. cbv zeta. intros H.
  destruct (PC.tcpConnections s !! SRC m) as [c|]; [|injection H as <- <-; repeat split].
  destruct (state c); try (injection H as <- <-; repeat split).
  destruct (par_long "synCookie" m) as [cookie|]; cbn [mbind option_bind] in H;
    [|discriminate H].
  destruct (validateSYNCookie _ _ _ _); [|injection H as <- <-; repeat split].
  match type of H with
  | context [mbind _ ?x] => destruct x as [[s2 a2]|] eqn:E
  end; cbn [mbind option_bind] in H; [|discriminate H].
  injection H as <- <-.
  assert (Hs : same_congestion
                 (PC.with_tcpConnections
                    (<[SRC m := PC.establish (wrap64 (SEQ m + 1)) c]> (PC.tcpConnections s)) s)
                 s2).
  { destruct (SRC m =? PC.dnsAddr s);
      [exact (sendDNSDataTCP_congestion _ _ _ _ _ E)|].
    destruct (SRC m =? 601);
      [exact (sendDBQueryTCP_congestion _ _ _ _ E)
      |exact (sendHTTPDataTCP_congestion _ _ _ _ E)]. }
  exact Hs.
Qed.

Lemma handleTCPData_congestion s now seq m s' acts :
  PC.handleTCPData s now seq m = Some (s', acts) -> same_congestion s s'.
Proof.
  unfold PC.handleTCPData, PC.sendDBRequestTCP. cbv zeta. intros H.
  destruct (hasPar "bytes" m); [|injection H as <- <-; repeat split].
  destruct (par_long "bytes" m); cbn [mbind option_bind] in H; [|discriminate H].
  destruct (PC.isEncrypted m); cbn [mbind option_bind] in H; [|discriminate H].
  match type of H with
  | context [mbind _ ?x] => destruct x
  end; cbn [mbind option_bind] in H; [|discriminate H].
  destruct (PC.tcpConnections s !! 601); injection H as <- <-; repeat split.
Qed.

Lemma handleFrame_congestion q p s now seq m s' acts :
  PC.handleFrame q p s now seq m = Some (s', acts) ->
  same_congestion s s' \/ s' = (PC.handleTCPAck s m).1.
Proof.
  unfold PC.handleFrame. cbv zeta. intros H.
  destruct (kind m =? DNS_RESPONSE).
  { left. unfold PC.handleDNSResponse, PC.sendHTTPRequestTCP in H.
    repeat same_cong_step; repeat split. }
  destruct (kind m =? HTTP_RESPONSE).
  { left. unfold PC.handleHTTPResponse in H. repeat same_cong_step; repeat split. }
  destruct (kind m =? PC.DB_RESPONSE).
  { left. unfold PC.handleDBResponse in H. repeat same_cong_step; repeat split. }
  destruct (kind m =? TCP_SYN_ACK).
  { left. exact (handleTCPSynAck_congestion _ _ _ _ _ H). }
  destruct (kind m =? TCP_ACK).
  { right. assert (E : PC.handleTCPAck s m = (s', acts)) by congruence.
    rewrite E. reflexivity. }
  destruct (kind m =? TCP_DATA).
  { left. exact (handleTCPData_congestion _ _ _ _ _ _ H). }
  destruct (kind m =? TCP_FIN).
  { left. injection H as <- <-. repeat split. }
  destruct (kind m =? UDP_DATA).
  { left. injection H as <- <-. repeat split. }
  destruct (kind m =? KEY_EXCHANGE).
  { left. unfold PC.handleKeyExchange in H. repeat same_cong_step; repeat split. }
  destruct (kind m =? ENCRYPTED_DATA).
  { left. unfold PC.handleEncryptedData in H. repeat same_cong_step; repeat split. }
  left. injection H as <- <-. repeat split.
Qed.

Lemma start_congestion q p s now seq r s' acts r' :
  PC.start q p s now seq r = Some (s', acts, r') -> same_congestion s s'.
Proof.
  unfold PC.start, PC.sendDNSQueryTCP. cbv zeta. intros H.
  destruct (String.eqb p "UDP" || String.eqb p "AUTO").
  - destruct (PC.sendDNSQueryUDP q s); cbn [mbind option_bind] in H;
      [|discriminate H].
    injection H as <- <- <-. repeat split.
  - injection H as <- <- <-. repeat split.
Qed.

(** Over every run of the client the congestion window is at least one
    segment and the slow-start threshold is positive, so that the division
    [1.0 / cwnd] of the congestion-avoidance branch never has a zero
    divisor; the duplicate-ACK counter stays at zero. *)
Theorem pc_window_invariant (qname protocol : string) (address dns : Z) (s : PC.t) :
  pc_run qname protocol address dns s ->
  (1 <= PC.cwnd s)%Q /\ (0 < PC.ssthresh s)%Q /\ PC.dupAckCount s = 0.
Proof.
  induction 1 as [|s now seq r s' acts r' Hrun IH Hstep
                  |s now seq msg s' acts Hrun IH Hstep
                  |s Hrun IH].
  - cbn. repeat split; lra.
  - destruct (start_congestion _ _ _ _ _ _ _ _ _ Hstep) as (-> & -> & ->). exact IH.
  - destruct IH as (Hw & Hth & Hd).
    destruct (handleFrame_congestion _ _ _ _ _ _ _ _ Hstep) as [(-> & -> & ->)| ->].
    + repeat split; assumption.
    + destruct (cwnd_step_ge _ Hw) as [Hdouble Hadd].
      unfold PC.handleTCPAck, PC.window_after_ack.
      cbn [fst PC.cwnd PC.ssthresh PC.dupAckCount PC.with_congestion].
      split; [|split; [exact Hth|reflexivity]].
      destruct (Qltb (PC.cwnd s) (PC.ssthresh s)); lra.
  - destruct IH as (Hw & Hth & Hd). unfold PC.handleCongestionTimeout.
    cbn [PC.cwnd PC.ssthresh PC.dupAckCount PC.with_congestion].
    repeat split; try lra.
    apply Qlt_shift_div_l; lra.
Qed.

(** The client after an ACK and a congestion timeout. *)
Lemma pc_window_invariant_witness :
  (1 <= PC.cwnd (PC.handleCongestionTimeout
                   (PC.handleTCPAck (PC.initialize 1 2) (mk "TCP_ACK" TCP_ACK 3 1)).1))%Q
  /\ (0 < PC.ssthresh (PC.handleCongestionTimeout
                         (PC.handleTCPAck (PC.initialize 1 2)
                            (mk "TCP_ACK" TCP_ACK 3 1)).1))%Q
  /\ PC.dupAckCount (PC.handleCongestionTimeout
                       (PC.handleTCPAck (PC.initialize 1 2)
                          (mk "TCP_ACK" TCP_ACK 3 1)).1) = 0.
Proof.
  apply (pc_window_invariant "example.com" "TCP" 1 2).
  apply pc_run_timeout.
  apply (pc_run_frame _ _ _ _ (PC.initialize 1 2) 0 0 (mk "TCP_ACK" TCP_ACK 3 1) _ []).
  - apply pc_run_init.
  - reflexivity.
Defined.

(** ** The HTTP server over a run *)

Lemma pq_push_Forall (P : Frame -> Prop) (m : Frame) (q : list Frame) :
  P m -> Forall P q -> Forall P (HTTP.pq_push m q).
Proof.
  intros Hm. induction q as [|x rest IH]; intros Hq; cbn [HTTP.pq_push].
  - constructor; [exact Hm|constructor].
  - destruct (PRIORITY_int x <? PRIORITY_int m).
    + constructor; assumption.
    + apply Forall_cons in Hq as [Hx Hrest]. constructor; [exact Hx|auto].
Qed.

Lemma wrap32_idem (z : Z) : wrap32 (wrap32 z) = wrap32 z.
Proof.
  apply wrap32_small. unfold wrap32.
  pose proof (Z.mod_pos_bound (z + 2 ^ 31) (2 ^ 32) ltac:(lia)). lia.
Qed.

(** A frame whose priority was set from a [PRIORITY()] read holds an
    [int]. *)
Lemma PRIORITY_int_read (resp msg : Frame) :
  PRIORITY resp = PRIORITY_int msg -> PRIORITY_int resp = PRIORITY resp.
Proof. unfold PRIORITY_int. intros ->. apply wrap32_idem. Qed.

(** Among frames whose priority holds an [int], the comparison of
    [MessagePriorityCompare] is the comparison of the parameters. *)
Lemma pq_push_descending (m : Frame) (q : list Frame) :
  PRIORITY_int m = PRIORITY m ->
  Forall (fun x => PRIORITY_int x = PRIORITY x) q ->
  descending q -> descending (HTTP.pq_push m q).
Proof.
  intros Hm. induction q as [|x rest IH]; intros Hint Hq; cbn [HTTP.pq_push].
  - cbn. split; [constructor|exact I].
  - destruct Hq as [Hx Hrest]. apply Forall_cons in Hint as [Hxi Hri].
    rewrite Hxi, Hm. destruct (PRIORITY x <? PRIORITY m) eqn:E.
    + apply Z.ltb_lt in E. cbn [descending]. split; [|split; assumption].
      constructor; [lia|].
      eapply Forall_impl; [exact Hx|]. cbn. intros y Hy. lia.
    + apply Z.ltb_ge in E. cbn [descending]. split; [|auto].
      apply pq_push_Forall; assumption.
Qed.

Lemma pq_push_nonempty (m : Frame) (q : list Frame) : HTTP.pq_push m q <> [].
Proof. destruct q as [|x rest]; cbn; [discriminate|]. destruct (_ <? _); discriminate. Qed.

Lemma attach_encData_priority (key : option string) (data : string)
    (resp0 resp1 : Frame) :
  HTTP.attach_encData key data resp0 = Some resp1 -> PRIORITY resp1 = PRIORITY resp0.
Proof.
  unfold HTTP.attach_encData. destruct key as [k|]; [|intros [= <-]; reflexivity].
  destruct (simpleEncrypt data k); cbn [mbind option_bind]; [|discriminate].
  intros [= <-]. reflexivity.
Qed.

(** What [handleHTTPGet] does to the connection table and to the queue:
    the connections keep their keys, peers and states, and the queue stays
    as it is or takes one frame with the priority read from the request. *)
Lemma handleHTTPGet_effect (s s' : HTTP.t) (now : simtime_t) (msg : Frame)
    (acts : list Action) :
  HTTP.handleHTTPGet s now msg = Some (s', acts) ->
  HTTP.cwndMap s' = HTTP.cwndMap s
  /\ HTTP.ssthreshMap s' = HTTP.ssthreshMap s
  /\ (HTTP.tcpConnections s' = HTTP.tcpConnections s
      \/ exists c, HTTP.tcpConnections s !! SRC msg = Some c
                   /\ HTTP.tcpConnections s'
                      = <[SRC msg := HTTP.bump_sendSeq c]> (HTTP.tcpConnections s))
  /\ ((HTTP.responseQueue s' = HTTP.responseQueue s
       /\ HTTP.sendQueueTimer s' = HTTP.sendQueueTimer s)
      \/ exists resp,
           PRIORITY resp = PRIORITY_int msg /\ PRIORITY_int msg < PRIORITY_HIGH
           /\ HTTP.responseQueue s' = HTTP.pq_push resp (HTTP.responseQueue s)
           /\ HTTP.sendQueueTimer s' <> None).
Proof.
  unfold HTTP.handleHTTPGet. cbv zeta. intros H.
  destruct (par_string "path" msg); cbn [mbind option_bind] in H; [|discriminate H].
  destruct (HTTP.isEncrypted msg); cbn [mbind option_bind] in H; [|discriminate H].
  match type of H with context [mbind _ ?x] => destruct x end;
    cbn [mbind option_bind] in H; [|discriminate H].
  match type of H with context [mbind _ ?x] => destruct x as [resp1|] eqn:Eresp end;
    cbn [mbind option_bind] in H; [|discriminate H].
  apply attach_encData_priority in Eresp. cbn [PRIORITY set_priority] in Eresp.
  match type of H with
  | context [match ?x with Some _ => _ | None => _ end] =>
      destruct x as [c|] eqn:Ec
  end.
  - assert (Hc : HTTP.tcpConnections s !! SRC msg = Some c).
    { destruct (_ =? TCP_DATA); [exact Ec|discriminate Ec]. }
    destruct (PRIORITY_HIGH <=? PRIORITY_int msg) eqn:Ehigh; injection H as <- <-.
    + split; [reflexivity|]. split; [reflexivity|]. split; [right; eauto|].
      left. split; reflexivity.
    + apply Z.leb_gt in Ehigh.
      split; [reflexivity|]. split; [reflexivity|]. split; [right; eauto|].
      right. eexists. split; [|split; [exact Ehigh|split; [reflexivity|]]].
      * cbn. exact Eresp.
      * cbn. destruct (HTTP.sendQueueTimer s); discriminate.
  - destruct (PRIORITY_HIGH <=? PRIORITY_int msg) eqn:Ehigh; injection H as <- <-.
    + split; [reflexivity|]. split; [reflexivity|]. split; [left; reflexivity|].
      left. split; reflexivity.
    + apply Z.leb_gt in Ehigh.
      split; [reflexivity|]. split; [reflexivity|]. split; [left; reflexivity|].
      right. eexists. split; [|split; [exact Ehigh|split; [reflexivity|]]].
      * exact Eresp.
      * cbn. destruct (HTTP.sendQueueTimer s); discriminate.
Qed.

Lemma conn_inv_ext (s s' : HTTP.t) :
  HTTP.tcpConnections s' = HTTP.tcpConnections s ->
  HTTP.cwndMap s' = HTTP.cwndMap s ->
  HTTP.ssthreshMap s' = HTTP.ssthreshMap s ->
  conn_inv s -> conn_inv s'.
Proof. unfold conn_inv. intros -> -> -> H. exact H. Qed.

Lemma queue_inv_ext (s s' : HTTP.t) :
  HTTP.responseQueue s' = HTTP.responseQueue s ->
  HTTP.sendQueueTimer s' = HTTP.sendQueueTimer s ->
  queue_inv s -> queue_inv s'.
Proof. unfold queue_inv. intros -> -> H. exact H. Qed.

Lemma handleKeyExchange_same (s s' : HTTP.t) (msg : Frame) (acts : list Action) :
  HTTP.handleKeyExchange s msg = Some (s', acts) ->
  conn_inv s /\ queue_inv s -> conn_inv s' /\ queue_inv s'.
Proof.
  unfold HTTP.handleKeyExchange. cbv zeta. intros H [Hc Hq].
  destruct (par_string "publicKey" msg); cbn [mbind option_bind] in H; [|discriminate H].
  destruct (computeSharedSecret _ _); cbn [mbind option_bind] in H; [|discriminate H].
  injection H as <- <-. split.
  - exact (conn_inv_ext s _ eq_refl eq_refl eq_refl Hc).
  - exact (queue_inv_ext s _ eq_refl eq_refl Hq).
Qed.

Lemma handleTCPSyn_inv (s s' : HTTP.t) (now : simtime_t) (serverSeq : Z) (msg : Frame)
    (acts : list Action) :
  HTTP.handleTCPSyn s now serverSeq msg = Some (s', acts) ->
  conn_inv s /\ queue_inv s -> conn_inv s' /\ queue_inv s'.
Proof.
  unfold HTTP.handleTCPSyn, HTTP.cookieStage. cbv zeta. intros H [Hc Hq].
  destruct (Qltb _ _).
  { injection H as <- <-. split.
    - exact (conn_inv_ext s _ eq_refl eq_refl eq_refl Hc).
    - exact (queue_inv_ext s _ eq_refl eq_refl Hq). }
  destruct (par_long "synCookie" msg); cbn [mbind option_bind] in H; [|discriminate H].
  destruct (negb _).
  { injection H as <- <-. split.
    - exact (conn_inv_ext s _ eq_refl eq_refl eq_refl Hc).
    - exact (queue_inv_ext s _ eq_refl eq_refl Hq). }
  injection H as <- <-. split; [|exact (queue_inv_ext s _ eq_refl eq_refl Hq)].
  intros src. specialize (Hc src).
  cbn [HTTP.tcpConnections HTTP.cwndMap HTTP.ssthreshMap HTTP.with_windows
       HTTP.with_tcpConnections HTTP.countSyn HTTP.with_syn].
  destruct (decide (SRC msg = src)) as [<-|Hne].
  - rewrite !lookup_insert_eq. cbn. repeat split; auto. exists 1%Q. split; [reflexivity|lra].
  - rewrite !lookup_insert_ne by exact Hne. exact Hc.
Qed.

Lemma handleTCPAck_inv (s : HTTP.t) (msg : Frame) :
  conn_inv s /\ queue_inv s ->
  conn_inv (HTTP.handleTCPAck s msg).1 /\ queue_inv (HTTP.handleTCPAck s msg).1.
Proof.
  unfold HTTP.handleTCPAck. cbv zeta. intros [Hc Hq].
  pose proof (Hc (SRC msg)) as Hsrc.
  destruct (HTTP.tcpConnections s !! SRC msg) as [c|] eqn:Ec; [|split; assumption].
  cbn [fst]. split; [|exact (queue_inv_ext s _ eq_refl eq_refl Hq)].
  destruct Hsrc as (Hr & Hst & (w & Hw & Hw1) & Hth).
  intros src. specialize (Hc src).
  cbn [HTTP.tcpConnections HTTP.cwndMap HTTP.ssthreshMap HTTP.with_windows
       HTTP.with_tcpConnections].
  destruct (decide (SRC msg = src)) as [<-|Hne].
  - rewrite !lookup_insert_eq. rewrite Hw, Hth. cbn [default].
    split; [unfold HTTP.establish; destruct (state c); exact Hr|].
    split; [unfold HTTP.establish; destruct Hst as [E|E]; rewrite E; cbn; auto|].
    unfold id. split; [|reflexivity].
    destruct (cwnd_step_ge _ Hw1) as [Hdouble Hadd].
    eexists. split; [reflexivity|]. destruct (Qltb w 64); lra.
  - rewrite !lookup_insert_ne by exact Hne. exact Hc.
Qed.

Lemma handleTCPFin_inv (s : HTTP.t) (msg : Frame) :
  conn_inv s /\ queue_inv s ->
  conn_inv (HTTP.handleTCPFin s msg).1 /\ queue_inv (HTTP.handleTCPFin s msg).1.
Proof.
  unfold HTTP.handleTCPFin. cbv zeta. intros [Hc Hq]. cbn [fst].
  split; [|exact (queue_inv_ext s _ eq_refl eq_refl Hq)].
  intros src. specialize (Hc src).
  cbn [HTTP.tcpConnections HTTP.cwndMap HTTP.ssthreshMap HTTP.with_windows
       HTTP.with_tcpConnections].
  destruct (decide (SRC msg = src)) as [<-|Hne].
  - rewrite !lookup_delete_eq. split; reflexivity.
  - rewrite !lookup_delete_ne by exact Hne. exact Hc.
Qed.

Lemma handleHTTPGet_inv (s s' : HTTP.t) (now : simtime_t) (msg : Frame)
    (acts : list Action) :
  HTTP.handleHTTPGet s now msg = Some (s', acts) ->
  conn_inv s /\ queue_inv s -> conn_inv s' /\ queue_inv s'.
Proof.
  intros H [Hc Hq].
  destruct (handleHTTPGet_effect _ _ _ _ _ H) as (Hw & Hth & Hconn & Hqueue).
  split.
  - destruct Hconn as [Hsame|(c & Hsrc & Hnew)].
    + exact (conn_inv_ext s s' Hsame Hw Hth Hc).
    + intros src. specialize (Hc src). rewrite Hnew, Hw, Hth.
      destruct (decide (SRC msg = src)) as [<-|Hne].
      * rewrite lookup_insert_eq. rewrite Hsrc in Hc. exact Hc.
      * rewrite lookup_insert_ne by exact Hne. exact Hc.
  - destruct Hqueue as [[Hsame Htm]|(resp & Hp & Hlow & Hnew & Htm)].
    + exact (queue_inv_ext s s' Hsame Htm Hq).
    + destruct Hq as (Hd & Hall & Hint & Hiff). unfold queue_inv. rewrite Hnew.
      pose proof (PRIORITY_int_read resp msg Hp) as Hri.
      split; [apply pq_push_descending; assumption|].
      split; [apply pq_push_Forall; [lia|exact Hall]|].
      split; [apply pq_push_Forall; [exact Hri|exact Hint]|].
      split; [intros E; contradiction|].
      intros E. exfalso. exact (pq_push_nonempty _ _ E).
Qed.

Lemma handleFrame_inv (s s' : HTTP.t) (now : simtime_t) (serverSeq : Z) (msg : Frame)
    (acts : list Action) :
  HTTP.handleFrame s now serverSeq msg = Some (s', acts) ->
  conn_inv s /\ queue_inv s -> conn_inv s' /\ queue_inv s'.
Proof.
  unfold HTTP.handleFrame. cbv zeta. intros H Hinv.
  destruct (kind msg =? KEY_EXCHANGE); [exact (handleKeyExchange_same _ _ _ _ H Hinv)|].
  destruct (kind msg =? TCP_SYN); [exact (handleTCPSyn_inv _ _ _ _ _ _ H Hinv)|].
  destruct (kind msg =? TCP_ACK).
  { assert (E : HTTP.handleTCPAck s msg = (s', acts)) by congruence.
    pose proof (handleTCPAck_inv s msg Hinv) as Hs. rewrite E in Hs. exact Hs. }
  destruct (kind msg =? TCP_DATA).
  { unfold HTTP.handleTCPData in H. destruct (hasPar "path" msg).
    - exact (handleHTTPGet_inv _ _ _ _ _ H Hinv).
    - injection H as <- <-. exact Hinv. }
  destruct (kind msg =? TCP_FIN).
  { assert (E : HTTP.handleTCPFin s msg = (s', acts)) by congruence.
    pose proof (handleTCPFin_inv s msg Hinv) as Hs. rewrite E in Hs. exact Hs. }
  destruct (kind msg =? HTTP_GET); [exact (handleHTTPGet_inv _ _ _ _ _ H Hinv)|].
  destruct (kind msg =? UDP_DATA).
  { unfold HTTP.handleUDPRequest in H. destruct (hasPar "path" msg).
    - destruct (par_string "path" msg); cbn [mbind option_bind] in H; [|discriminate H].
      destruct (HTTP.isEncrypted msg); cbn [mbind option_bind] in H; [|discriminate H].
      match type of H with context [mbind _ ?x] => destruct x end;
        cbn [mbind option_bind] in H; [|discriminate H].
      match type of H with context [mbind _ ?x] => destruct x end;
        cbn [mbind option_bind] in H; [|discriminate H].
      injection H as <- <-. exact Hinv.
    - injection H as <- <-. exact Hinv. }
  injection H as <- <-. exact Hinv.
Qed.

Lemma processSendQueue_inv (s : HTTP.t) (now : simtime_t) :
  conn_inv s /\ queue_inv s ->
  conn_inv (HTTP.processSendQueue s now).1 /\ queue_inv (HTTP.processSendQueue s now).1.
Proof.
  unfold HTTP.processSendQueue. intros [Hc (Hd & Hall & Hint & Hiff)].
  destruct (HTTP.responseQueue s) as [|queued rest] eqn:Eq; cbn [fst].
  - split; [exact (conn_inv_ext s _ eq_refl eq_refl eq_refl Hc)|].
    unfold queue_inv. cbn. repeat split; auto.
  - split; [exact (conn_inv_ext s _ eq_refl eq_refl eq_refl Hc)|].
    unfold queue_inv. cbn [HTTP.responseQueue HTTP.sendQueueTimer HTTP.with_responseQueue].
    destruct Hd as [_ Hd]. apply Forall_cons in Hall as [_ Hall].
    apply Forall_cons in Hint as [_ Hint].
    split; [exact Hd|]. split; [exact Hall|]. split; [exact Hint|].
    destruct rest; split; intros E; try reflexivity; discriminate E.
Qed.

Lemma http_run_inv (s : HTTP.t) : http_run s -> conn_inv s /\ queue_inv s.
Proof.
  induction 1 as [address limit pageSize service now
                 |s now serverSeq msg s' acts Hrun IH Hstep
                 |s now Hrun IH
                 |s now Hrun IH].
  - split.
    + intros src. cbn. rewrite !lookup_empty. split; reflexivity.
    + unfold queue_inv. cbn. repeat split; auto.
  - exact (handleFrame_inv _ _ _ _ _ _ Hstep IH).
  - destruct IH as [Hc Hq]. split.
    + exact (conn_inv_ext s _ eq_refl eq_refl eq_refl Hc).
    + exact (queue_inv_ext s _ eq_refl eq_refl Hq).
  - exact (processSendQueue_inv s now IH).
Qed.

(** Over every run of an HTTP server the connection table and the two
    window maps agree.  A peer with a connection is filed under its own
    address, the connection is in state SYN-received or established, and the
    peer has a congestion window of at least one segment (so that
    [1.0 / cwndMap[src]] never has a zero divisor) and a threshold of 64; a
    peer without a connection has no entry in either window map, so a FIN
    leaves nothing behind and an ACK never creates a window for a stranger. *)
Theorem http_connections_coherent (s : HTTP.t) (src : Z) :
  http_run s ->
  match HTTP.tcpConnections s !! src with
  | Some c =>
      remoteAddr c = src
      /\ (state c = TCP_SYN_RECEIVED \/ state c = TCP_ESTABLISHED)
      /\ (exists w, HTTP.cwndMap s !! src = Some w /\ (1 <= w)%Q)
      /\ HTTP.ssthreshMap s !! src = Some 64%Q
  | None => HTTP.cwndMap s !! src = None /\ HTTP.ssthreshMap s !! src = None
  end.
Proof. intros Hrun. destruct (http_run_inv s Hrun) as [Hc _]. exact (Hc src). Qed.

(** Over every run of an HTTP server, when [sendQueueTimer] fires the
    response it sends is one of highest priority among those queued; only
    responses below high priority are ever queued; and while a response is
    queued the timer is scheduled, so no queued response is left without an
    event that will send it. *)
Theorem http_response_queue_order (s : HTTP.t) (now : simtime_t)
    (queued : Frame) (rest : list Frame) :
  http_run s ->
  HTTP.responseQueue s = queued :: rest ->
  (HTTP.processSendQueue s now).2 = [SendOnGate queued]
  /\ Forall (fun m => PRIORITY m <= PRIORITY queued) rest
  /\ PRIORITY queued < PRIORITY_HIGH
  /\ HTTP.sendQueueTimer s <> None.
Proof.
  intros Hrun Hq. destruct (http_run_inv s Hrun) as [_ (Hd & Hall & _ & Hiff)].
  rewrite Hq in Hd, Hall, Hiff. destruct Hd as [Hmax _].
  apply Forall_cons in Hall as [Hlow _].
  split; [unfold HTTP.processSendQueue; rewrite Hq; reflexivity|].
  split; [exact Hmax|]. split; [exact Hlow|].
  intros E. apply Hiff in E. discriminate E.
Qed.

(** Server 3 after the SYN of client 1. *)
Lemma http_connections_coherent_witness :
  match HTTP.tcpConnections http_connected !! 1 with
  | Some c =>
      remoteAddr c = 1
      /\ (state c = TCP_SYN_RECEIVED \/ state c = TCP_ESTABLISHED)
      /\ (exists w, HTTP.cwndMap http_connected !! 1 = Some w /\ (1 <= w)%Q)
      /\ HTTP.ssthreshMap http_connected !! 1 = Some 64%Q
  | None =>
      HTTP.cwndMap http_connected !! 1 = None
      /\ HTTP.ssthreshMap http_connected !! 1 = None
  end.
Proof.
  apply (http_connections_coherent http_connected 1).
  apply (http_run_frame (HTTP.initialize 3 10 4096 (1 # 1000) 0) second 7000
           (syn_from 1 3 5000) http_connected
           [SendOnGate
              (set_par "synCookie" (PLong (generateSYNCookie 3 1 7000))
                 (set_priority PRIORITY_HIGH
                    (set_ack 5001
                       (set_seq 7000 (mk "TCP_SYN_ACK" TCP_SYN_ACK 3 1)))))]).
  - apply http_run_init.
  - vm_compute. reflexivity.
Defined.

(** Server 3 with the response to client 1 queued. *)
Lemma http_response_queue_order_witness :
  (HTTP.processSendQueue http_queued (second + millisecond)).2
  = [SendOnGate queued_response]
  /\ Forall (fun m => PRIORITY m <= PRIORITY queued_response) []
  /\ PRIORITY queued_response < PRIORITY_HIGH
  /\ HTTP.sendQueueTimer http_queued <> None.
Proof.
  apply (http_response_queue_order http_queued (second + millisecond)
           queued_response []).
  - apply (http_run_frame http_server second 0 tcp_get http_queued []).
    + apply http_run_init.
    + vm_compute. reflexivity.
  - vm_compute. reflexivity.
Defined.

(** ** The router over a run *)

Lemma other_gates_spec (n skip g : Z) :
  In g (Router.other_gates n skip) <-> 0 <= g < n /\ g <> skip.
Proof.
  unfold Router.other_gates, Router.gates. rewrite filter_In.
  rewrite <- list_elem_of_In, elem_of_seqZ, negb_true_iff, Z.eqb_neq. lia.
Qed.

Lemma other_gates_NoDup (n skip : Z) : List.NoDup (Router.other_gates n skip).
Proof.
  unfold Router.other_gates, Router.gates. apply List.NoDup_filter.
  apply NoDup_ListNoDup, NoDup_seqZ.
Qed.

Lemma flood_NoDup (msg : Frame) (l : list Z) :
  List.NoDup l -> List.NoDup (map (fun i => Router.ToGate i msg) l).
Proof.
  induction 1 as [|i l Hi Hl IH]; cbn; constructor; [|exact IH].
  rewrite in_map_iff. intros (j & [= ->] & Hj). exact (Hi Hj).
Qed.

(** Flooding.  [flood] hands one copy of the frame, unchanged, to every gate
    of the router except the arrival gate, and to no gate twice.  This is
    what [forwardPacket] does with a frame whose destination has no route,
    or a route through a gate that does not exist, leaving the state as it
    is; and it is how [handleOSPFLSA] passes an LSA on, so an LSA never
    goes back out of the gate it came in by. *)
Theorem flood_reaches_every_other_gate (s : Router.t) (inGate : Z) (msg : Frame) :
  (forall g m,
      In (Router.ToGate g m) (Router.flood s inGate msg)
      <-> 0 <= g < Router.gateSize s /\ g <> inGate /\ m = msg)
  /\ List.NoDup (Router.flood s inGate msg)
  /\ (Router.routingTable s !! DST msg = None ->
      Router.forwardPacket s inGate msg = Some (s, Router.flood s inGate msg))
  /\ (forall e,
         Router.routingTable s !! DST msg = Some e ->
         ~ (0 <= nextHop e < Router.gateSize s) ->
         Router.forwardPacket s inGate msg = Some (s, Router.flood s inGate msg))
  /\ (forall now s' out,
         Router.handleOSPFLSA s now inGate msg = Some (s', out) ->
         out = Router.flood s inGate msg).
Proof.
  split.
  { intros g m. unfold Router.flood. rewrite in_map_iff. split.
    - intros (i & [= <- <-] & Hi). apply other_gates_spec in Hi. tauto.
    - intros (Hg & Hne & ->). exists g. split; [reflexivity|].
      apply other_gates_spec. tauto. }
  split.
  { unfold Router.flood. apply flood_NoDup, other_gates_NoDup. }
  split.
  { intros Hnone. unfold Router.forwardPacket. rewrite Hnone. reflexivity. }
  split.
  { intros e Hroute Hout. unfold Router.forwardPacket. rewrite Hroute.
    assert (E : (0 <=? nextHop e) && (nextHop e <? Router.gateSize s) = false).
    { apply andb_false_iff.
      destruct (Z.leb_spec 0 (nextHop e)); [|auto].
      right. apply Z.ltb_ge. lia. }
    rewrite E. reflexivity. }
  intros now s' out. unfold Router.handleOSPFLSA.
  destruct (par_long "linkId" msg); [|discriminate].
  destruct (par_double "cost" msg); [|discriminate].
  destruct (par_double "bandwidth" msg); [|discriminate].
  destruct (par_double "delay" msg); [|discriminate].
  cbn [mbind option_bind]. intros [= _ <-]. reflexivity.
Qed.

(** Only the distance-vector import writes the routing table. *)
Lemma handleMessage_routes (libc : Router.Libc) (s s' : Router.t) (t : simtime_t)
    (ev : Router.Event) (out : list Router.Output) :
  Router.handleMessage libc s t ev = Some (s', out) ->
  Router.routingTable s' = Router.routingTable s
  \/ exists inGate l,
       Router.routingTable s'
       = fold_left (Router.rip_import inGate t) l (Router.routingTable s).
Proof.
  destruct ev as [msg inGate|tm|g]; cbn [Router.handleMessage].
  - destruct (kind msg =? OSPF_HELLO); [intros [= <- <-]; auto|].
    destruct ((kind msg =? OSPF_LSA) || (kind msg =? OSPF_TE_UPDATE)).
    { unfold Router.handleOSPFLSA.
      destruct (par_long "linkId" msg); [|discriminate].
      destruct (par_double "cost" msg); [|discriminate].
      destruct (par_double "bandwidth" msg); [|discriminate].
      destruct (par_double "delay" msg); [|discriminate].
      cbn [mbind option_bind]. intros [= <- <-]. auto. }
    destruct (kind msg =? RIP_UPDATE).
    { unfold Router.handleRIPUpdate.
      destruct (par_string "routes" msg); [|discriminate].
      intros [= <- <-]. right. eexists _, _. reflexivity. }
    destruct (kind msg =? RIP_REQUEST); [intros [= <- <-]; auto|].
    destruct (kind msg =? TCP_SYN).
    { destruct (Qltb _ _); [intros [= <- <-]; auto|].
      intros H. apply forwardPacket_frame in H. left. apply H. }
    intros H. apply forwardPacket_frame in H. left. apply H.
  - destruct tm; intros [= <- <-]; auto.
  - intros [= <- <-]. auto.
Qed.

Lemma rip_import_wf (inGate : Z) (now : simtime_t) (rt : gmap Z RouteEntry)
    (adv : Z * Q * Z) :
  routes_wf rt -> routes_wf (Router.rip_import inGate now rt adv).
Proof.
  intros Hwf dest e. destruct adv as [[d m] h]. unfold Router.rip_import.
  destruct (wrap32 (h + 1) <? 16) eqn:E; [|apply Hwf].
  apply Z.ltb_lt in E.
  assert (Hnew : <[d := Router.rip_entry inGate now d (m + 1)%Q (wrap32 (h + 1))]> rt
                   !! dest = Some e -> destAddr e = dest /\ hopCount e < 16).
  { destruct (decide (d = dest)) as [->|Hne].
    - rewrite lookup_insert_eq. intros [= <-]. cbn. auto.
    - rewrite lookup_insert_ne by exact Hne. apply Hwf. }
  destruct (rt !! d) as [cur|]; [destruct (Qltb _ _)|]; auto.
Qed.

Lemma rip_imports_wf (inGate : Z) (now : simtime_t) (l : list (Z * Q * Z)) :
  forall rt, routes_wf rt -> routes_wf (fold_left (Router.rip_import inGate now) l rt).
Proof.
  induction l as [|adv rest IH]; intros rt Hwf; cbn; [exact Hwf|].
  apply IH, rip_import_wf, Hwf.
Qed.

Lemma add_static_wf (libc : Router.Libc) (rt : gmap Z RouteEntry) (item : string) :
  routes_wf rt -> routes_wf (Router.add_static libc rt item).
Proof.
  intros Hwf. unfold Router.add_static. destruct (Router.is_empty item); [exact Hwf|].
  destruct (Router.scan_static libc item) as [[d g]|]; [|exact Hwf].
  intros dest e. destruct (decide (d = dest)) as [->|Hne].
  - rewrite lookup_insert_eq. intros [= <-]. cbn. split; [reflexivity|lia].
  - rewrite lookup_insert_ne by exact Hne. apply Hwf.
Qed.

Lemma statics_wf (libc : Router.Libc) (items : list string) :
  forall rt, routes_wf rt -> routes_wf (fold_left (Router.add_static libc) items rt).
Proof.
  induction items as [|item rest IH]; intros rt Hwf; cbn; [exact Hwf|].
  apply IH, add_static_wf, Hwf.
Qed.

(** Over every run of a router each entry of the routing table is filed
    under its own destination and has a hop count below 16. *)
Theorem router_routes_bounded (libc : Router.Libc) (now : simtime_t) (s : Router.t)
    (dest : Z) (e : RouteEntry) :
  Router.reachable libc now s ->
  Router.routingTable s !! dest = Some e ->
  destAddr e = dest /\ hopCount e < 16.
Proof.
  intros Hreach. revert dest e.
  change (routes_wf (Router.routingTable s)).
  induction Hreach as [| s now t ev s' out Hreach IH Hle Hstep].
  - cbn [Router.routingTable Router.initialize]. apply statics_wf.
    intros dest e H. rewrite lookup_empty in H. discriminate H.
  - destruct (handleMessage_routes _ _ _ _ _ _ Hstep) as [-> | (g & l & ->)].
    + exact IH.
    + apply rip_imports_wf. exact IH.
Qed.

Lemma rip_import_improves (inGate : Z) (now : simtime_t) (rt : gmap Z RouteEntry)
    (adv : Z * Q * Z) (dest : Z) (e : RouteEntry) :
  rt !! dest = Some e ->
  exists e', Router.rip_import inGate now rt adv !! dest = Some e'
             /\ (metric e' <= metric e)%Q.
Proof.
  intros He. destruct adv as [[d m] h]. unfold Router.rip_import.
  assert (Hsame : exists e', rt !! dest = Some e' /\ (metric e' <= metric e)%Q).
  { exists e. split; [exact He|apply Qle_refl]. }
  destruct (wrap32 (h + 1) <? 16); [|exact Hsame].
  destruct (rt !! d) as [cur|] eqn:Hd.
  - destruct (Qltb (m + 1) (metric cur)) eqn:Hlt; [|exact Hsame].
    apply Qltb_lt in Hlt. destruct (decide (d = dest)) as [->|Hne].
    + rewrite lookup_insert_eq. eexists. split; [reflexivity|].
      cbn. rewrite He in Hd. injection Hd as <-. apply Qlt_le_weak. exact Hlt.
    + rewrite lookup_insert_ne by exact Hne. exact Hsame.
  - destruct (decide (d = dest)) as [->|Hne]; [congruence|].
    rewrite lookup_insert_ne by exact Hne. exact Hsame.
Qed.

Lemma rip_imports_improve (inGate : Z) (now : simtime_t) (l : list (Z * Q * Z)) :
  forall (rt : gmap Z RouteEntry) (dest : Z) (e : RouteEntry),
    rt !! dest = Some e ->
    exists e', fold_left (Router.rip_import inGate now) l rt !! dest = Some e'
               /\ (metric e' <= metric e)%Q.
Proof.
  induction l as [|adv rest IH]; intros rt dest e He; cbn.
  - exists e. split; [exact He|apply Qle_refl].
  - destruct (rip_import_improves inGate now rt adv dest e He) as (e1 & H1 & Hle1).
    destruct (IH _ _ _ H1) as (e2 & H2 & Hle2).
    exists e2. split; [exact H2|]. eapply Qle_trans; eassumption.
Qed.

(** A router never forgets a destination and never replaces a route by a
    worse one: a destination with a route keeps one through every later
    event, with a metric that is at most what it was. *)
Theorem router_routes_only_improve (libc : Router.Libc) (s s' : Router.t)
    (dest : Z) (e : RouteEntry) :
  router_steps libc s s' ->
  Router.routingTable s !! dest = Some e ->
  exists e', Router.routingTable s' !! dest = Some e' /\ (metric e' <= metric e)%Q.
Proof.
  intros Hrun He. induction Hrun as [s|s s1 t ev s2 out Hrun IH Hstep].
  - exists e. split; [exact He|apply Qle_refl].
  - destruct (IH He) as (e1 & H1 & Hle1).
    destruct (handleMessage_routes _ _ _ _ _ _ Hstep) as [-> | (g & l & ->)].
    + exists e1. split; assumption.
    + destruct (rip_imports_improve g t l _ _ _ H1) as (e2 & H2 & Hle2).
      exists e2. split; [exact H2|]. eapply Qle_trans; eassumption.
Qed.

(** Only [forwardPacket] writes the utilization of a link, and only by
    adding the size of the frame. *)
Lemma forwardPacket_util (s s' : Router.t) (inGate : Z) (msg : Frame)
    (out : list Router.Output) :
  Router.forwardPacket s inGate msg = Some (s', out) ->
  Router.synCounts s' = Router.synCounts s
  /\ Router.synRateLimit s' = Router.synRateLimit s
  /\ (Router.linkUtilization s' = Router.linkUtilization s
      \/ exists g delta,
           (0 < delta)%Q
           /\ Router.linkUtilization s'
              = <[g := (default 0%Q (Router.linkUtilization s !! g) + delta)%Q]>
                  (Router.linkUtilization s)).
Proof.
  unfold Router.forwardPacket.
  destruct (Router.routingTable s !! DST msg) as [e|]; [|intros [= <- <-]; auto].
  destruct ((0 <=? nextHop e) && (nextHop e <? Router.gateSize s));
    [|intros [= <- <-]; auto].
  cbn [Router.outputQueues Router.with_linkUtilization].
  destruct (Router.outputQueues s !! Z.to_nat (nextHop e)) as [q|]; [|discriminate].
  cbn [mbind option_bind].
  assert (Hpos : (0 < (if 0 <? byteLength msg then inject_Z (byteLength msg) else 1000)
                      / 1000000)%Q).
  { apply Qlt_shift_div_l; [reflexivity|]. rewrite Qmult_0_l.
    destruct (0 <? byteLength msg) eqn:E; [|reflexivity].
    apply Z.ltb_lt in E. change 0%Q with (inject_Z 0). rewrite <- Zlt_Qlt. exact E. }
  destruct (_ || _); intros [= <- <-]; (split; [reflexivity|]; split; [reflexivity|]);
    right; eexists _, _; (split; [exact Hpos|reflexivity]).
Qed.

Lemma handleMessage_util (libc : Router.Libc) (s s' : Router.t) (t : simtime_t)
    (ev : Router.Event) (out : list Router.Output) :
  Router.handleMessage libc s t ev = Some (s', out) ->
  Router.linkUtilization s' = Router.linkUtilization s
  \/ exists g delta,
       (0 < delta)%Q
       /\ Router.linkUtilization s'
          = <[g := (default 0%Q (Router.linkUtilization s !! g) + delta)%Q]>
              (Router.linkUtilization s).
Proof.
  destruct ev as [msg inGate|tm|g]; cbn [Router.handleMessage].
  - destruct (kind msg =? OSPF_HELLO); [intros [= <- <-]; auto|].
    destruct ((kind msg =? OSPF_LSA) || (kind msg =? OSPF_TE_UPDATE)).
    { unfold Router.handleOSPFLSA.
      destruct (par_long "linkId" msg); [|discriminate].
      destruct (par_double "cost" msg); [|discriminate].
      destruct (par_double "bandwidth" msg); [|discriminate].
      destruct (par_double "delay" msg); [|discriminate].
      cbn [mbind option_bind]. intros [= <- <-]. auto. }
    destruct (kind msg =? RIP_UPDATE).
    { unfold Router.handleRIPUpdate.
      destruct (par_string "routes" msg); [|discriminate].
      intros [= <- <-]. auto. }
    destruct (kind msg =? RIP_REQUEST); [intros [= <- <-]; auto|].
    destruct (kind msg =? TCP_SYN).
    { destruct (Qltb _ _); [intros [= <- <-]; auto|].
      intros H. apply forwardPacket_util in H. apply H. }
    intros H. apply forwardPacket_util in H. apply H.
  - destruct tm; intros [= <- <-]; auto.
  - intros [= <- <-]. auto.
Qed.

(** The utilization of a link is never reset or decreased: through every
    later event the link keeps an entry that is at least what it was (each
    frame forwarded over the link adds its size, and nothing else writes
    the entry). *)
Theorem router_utilization_never_decreases (libc : Router.Libc) (s s' : Router.t)
    (g : Z) (u : Q) :
  router_steps libc s s' ->
  Router.linkUtilization s !! g = Some u ->
  exists u', Router.linkUtilization s' !! g = Some u' /\ (u <= u')%Q.
Proof.
  intros Hrun Hu. induction Hrun as [s|s s1 t ev s2 out Hrun IH Hstep].
  - exists u. split; [exact Hu|apply Qle_refl].
  - destruct (IH Hu) as (u1 & H1 & Hle1).
    destruct (handleMessage_util _ _ _ _ _ _ Hstep) as [-> | (g' & delta & Hpos & ->)].
    + exists u1. split; assumption.
    + destruct (decide (g' = g)) as [->|Hne].
      * rewrite lookup_insert_eq, H1. eexists. split; [reflexivity|]. cbn [default]. unfold id. lra.
      * rewrite lookup_insert_ne by exact Hne. exists u1. split; assumption.
Qed.

Lemma handleMessage_syn (libc : Router.Libc) (s : Router.t) (t : simtime_t)
    (msg : Frame) (inGate : Z) :
  kind msg = TCP_SYN ->
  Router.handleMessage libc s t (Router.Arrival msg inGate)
  = let n := wrap32 (router_count s (SRC msg) + 1) in
    let s1 := Router.with_synCounts (<[SRC msg := n]> (Router.synCounts s)) s in
    if Qltb (Router.synRateLimit s) (inject_Z n) then Some (s1, [])
    else Router.forwardPacket s1 inGate msg.
Proof. intros H. cbn [Router.handleMessage]. rewrite H. reflexivity. Qed.

Lemma handleMessage_count (libc : Router.Libc) (s s' : Router.t) (t : simtime_t)
    (ev : Router.Event) (out : list Router.Output) (src : Z) :
  Router.handleMessage libc s t ev = Some (s', out) ->
  is_reset ev = false ->
  Router.synRateLimit s' = Router.synRateLimit s
  /\ router_count s' src
     = if is_syn_from src ev then wrap32 (router_count s src + 1)
       else router_count s src.
Proof.
  destruct ev as [msg inGate|tm|g].
  - intros H _. cbn [is_syn_from]. destruct (kind msg =? TCP_SYN) eqn:Ek.
    + apply Z.eqb_eq in Ek. rewrite handleMessage_syn in H by exact Ek. cbv zeta in H.
      assert (Hc : router_count
                     (Router.with_synCounts
                        (<[SRC msg := wrap32 (router_count s (SRC msg) + 1)]>
                           (Router.synCounts s)) s) src
                   = if SRC msg =? src then wrap32 (router_count s src + 1)
                     else router_count s src).
      { unfold router_count. cbn [Router.synCounts Router.with_synCounts].
        destruct (Z.eqb_spec (SRC msg) src) as [->|Hne].
        - rewrite lookup_insert_eq. reflexivity.
        - rewrite lookup_insert_ne by exact Hne. reflexivity. }
      cbn [andb]. destruct (Qltb _ _).
      * injection H as <- <-. split; [reflexivity|exact Hc].
      * apply forwardPacket_util in H. destruct H as (Hs & Hl & _).
        split; [exact Hl|]. rewrite <- Hc. unfold router_count. rewrite Hs. reflexivity.
    + cbn [andb]. cbn [Router.handleMessage] in H. rewrite Ek in H.
      destruct (kind msg =? OSPF_HELLO); [injection H as <- <-; auto|].
      destruct ((kind msg =? OSPF_LSA) || (kind msg =? OSPF_TE_UPDATE)).
      { unfold Router.handleOSPFLSA in H.
        destruct (par_long "linkId" msg); [|discriminate].
        destruct (par_double "cost" msg); [|discriminate].
        destruct (par_double "bandwidth" msg); [|discriminate].
        destruct (par_double "delay" msg); [|discriminate].
        cbn [mbind option_bind] in H. injection H as <- <-. auto. }
      destruct (kind msg =? RIP_UPDATE).
      { unfold Router.handleRIPUpdate in H.
        destruct (par_string "routes" msg); [|discriminate].
        injection H as <- <-. auto. }
      destruct (kind msg =? RIP_REQUEST); [injection H as <- <-; auto|].
      apply forwardPacket_util in H. destruct H as (Hs & Hl & _).
      split; [exact Hl|]. unfold router_count. rewrite Hs. reflexivity.
  - intros H Hr. cbn [is_syn_from]. cbn [Router.handleMessage] in H.
    destruct tm; try discriminate Hr; injection H as <- <-; auto.
  - intros H _. cbn [is_syn_from]. injection H as <- <-. auto.
Qed.

Lemma run_events_count (libc : Router.Libc) (src : Z)
    (l : list (simtime_t * Router.Event)) :
  forall s s',
    run_events libc s l = Some s' ->
    Forall (fun te => is_reset te.2 = false) l ->
    0 <= router_count s src ->
    router_count s src
    + Z.of_nat (length (List.filter (fun te => is_syn_from src te.2) l)) < 2 ^ 31 ->
    Router.synRateLimit s' = Router.synRateLimit s
    /\ router_count s' src
       = router_count s src
         + Z.of_nat (length (List.filter (fun te => is_syn_from src te.2) l)).
Proof.
  induction l as [|[t ev] rest IH]; intros s s' Hrun Hall H0 Hb; cbn in Hrun.
  - injection Hrun as <-. cbn. split; [reflexivity|lia].
  - destruct (Router.handleMessage libc s t ev) as [[s1 out]|] eqn:Hstep;
      [|discriminate Hrun].
    apply Forall_cons in Hall as [Hr Hall]. cbn [snd] in Hr.
    destruct (handleMessage_count libc s s1 t ev out src Hstep Hr) as [Hl Hc].
    cbn [List.filter snd] in Hb |- *.
    destruct (is_syn_from src ev); cbn [length] in Hb |- *.
    + rewrite wrap32_small in Hc by lia.
      destruct (IH s1 s' Hrun Hall) as [Hl' Hc']; [lia|lia|].
      split; [congruence|lia].
    + destruct (IH s1 s' Hrun Hall) as [Hl' Hc']; [lia|lia|].
      split; [congruence|lia].
Qed.

(** The SYN limiter of a router.  From a state in which [src] has no counter
    (as after a firing of [rateLimitResetTimer], which clears every
    counter), and through any events other than that timer, the router
    counts the SYNs of [src] whatever their destination and arrival gate:
    the SYN that follows [k] of them is forwarded like any other frame when
    [k + 1 <= L] and is dropped with no output when [k + 1 > L]. *)
Theorem router_syn_limiter (libc : Router.Libc) (L : Z) (s s' : Router.t)
    (l : list (simtime_t * Router.Event)) (now : simtime_t) (msg : Frame)
    (inGate : Z) :
  Router.synRateLimit s = inject_Z L ->
  Router.synCounts s !! SRC msg = None ->
  run_events libc s l = Some s' ->
  Forall (fun te => is_reset te.2 = false) l ->
  kind msg = TCP_SYN ->
  Z.of_nat (length (List.filter (fun te => is_syn_from (SRC msg) te.2) l)) + 1 < 2 ^ 31 ->
  (Z.of_nat (length (List.filter (fun te => is_syn_from (SRC msg) te.2) l)) + 1 <= L ->
   Router.handleMessage libc s' now (Router.Arrival msg inGate)
   = Router.forwardPacket
       (Router.with_synCounts
          (<[SRC msg :=
               Z.of_nat (length (List.filter (fun te => is_syn_from (SRC msg) te.2) l)) + 1]>
             (Router.synCounts s')) s') inGate msg)
  /\ (L < Z.of_nat (length (List.filter (fun te => is_syn_from (SRC msg) te.2) l)) + 1 ->
      Router.handleMessage libc s' now (Router.Arrival msg inGate)
      = Some (Router.with_synCounts
                (<[SRC msg :=
                     Z.of_nat (length (List.filter (fun te => is_syn_from (SRC msg) te.2) l))
                     + 1]>
                   (Router.synCounts s')) s', []))
  /\ Router.synCounts (Router.handleSelfMessage libc s' now Router.rateLimitResetTimer).1
     = ∅.
Proof.
  intros HL Hfresh Hrun Hall Hk Hb.
  assert (H0 : router_count s (SRC msg) = 0).
  { unfold router_count. rewrite Hfresh. reflexivity. }
  destruct (run_events_count libc (SRC msg) l s s' Hrun Hall) as [Hl Hc]; [lia|lia|].
  rewrite H0, Z.add_0_l in Hc.
  rewrite handleMessage_syn by exact Hk. cbv zeta.
  rewrite Hc, wrap32_small, Hl, HL by lia.
  split; [|split; [|reflexivity]]; intros Hlim.
  - replace (Qltb _ _) with false; [reflexivity|].
    symmetry. apply Qltb_ge. rewrite <- Zle_Qle. exact Hlim.
  - replace (Qltb _ _) with true; [reflexivity|].
    symmetry. apply Qltb_lt. rewrite <- Zlt_Qlt. exact Hlim.
Qed.

(** The router of [rip_router] after the update of gate 1: the route to 7. *)
Lemma router_routes_bounded_witness :
  destAddr (Router.rip_entry 1 1000 7 2 2) = 7
  /\ hopCount (Router.rip_entry 1 1000 7 2 2) < 16.
Proof.
  apply (router_routes_bounded IntLibc.libc 1000 rip_router_updated 7).
  - apply (Router.reach_step IntLibc.libc rip_router 0 1000
             (Router.Arrival rip_update 1) rip_router_updated []).
    + apply Router.reach_init.
    + lia.
    + vm_compute. reflexivity.
  - vm_compute. reflexivity.
Defined.

(** The static route to 5 survives the update that advertises 5 at a
    higher metric. *)
Lemma router_routes_only_improve_witness :
  exists e',
    Router.routingTable rip_router_updated !! 5 = Some e'
    /\ (metric e' <= metric (Router.static_route 5 0))%Q.
Proof.
  apply (router_routes_only_improve IntLibc.libc rip_router rip_router_updated 5).
  - apply (steps_step IntLibc.libc rip_router rip_router 1000
             (Router.Arrival rip_update 1) rip_router_updated []).
    + apply steps_refl.
    + vm_compute. reflexivity.
  - vm_compute. reflexivity.
Defined.

(** Link 0 of the router of [ospf_A] before and after a forwarded frame. *)
Lemma router_utilization_never_decreases_witness :
  exists u', Router.linkUtilization ospf_A_after !! 0 = Some u' /\ (0 <= u')%Q.
Proof.
  apply (router_utilization_never_decreases IntLibc.libc ospf_A ospf_A_after 0 0%Q).
  - apply (steps_step IntLibc.libc ospf_A ospf_A (second + second / 2)
             (Router.Arrival (mk "HTTP_GET" HTTP_GET 5 9) 1) ospf_A_after
             [Router.ToGate 0 (mk "HTTP_GET" HTTP_GET 5 9)]).
    + apply steps_refl.
    + vm_compute. reflexivity.
  - vm_compute. reflexivity.
Defined.

(** The third SYN of client 1 at a router that lets two through. *)
Lemma router_syn_limiter_witness :
  (Z.of_nat (length (List.filter (fun te => is_syn_from (SRC (syn_from 1 3 5002)) te.2)
                       two_syns)) + 1 <= 2 ->
   Router.handleMessage IntLibc.libc syn_router_after 20
     (Router.Arrival (syn_from 1 3 5002) 1)
   = Router.forwardPacket
       (Router.with_synCounts
          (<[SRC (syn_from 1 3 5002) :=
               Z.of_nat (length (List.filter
                                   (fun te => is_syn_from (SRC (syn_from 1 3 5002)) te.2)
                                   two_syns)) + 1]>
             (Router.synCounts syn_router_after)) syn_router_after) 1
       (syn_from 1 3 5002))
  /\ (2 < Z.of_nat (length (List.filter
                              (fun te => is_syn_from (SRC (syn_from 1 3 5002)) te.2)
                              two_syns)) + 1 ->
      Router.handleMessage IntLibc.libc syn_router_after 20
        (Router.Arrival (syn_from 1 3 5002) 1)
      = Some (Router.with_synCounts
                (<[SRC (syn_from 1 3 5002) :=
                     Z.of_nat (length (List.filter
                                         (fun te =>
                                            is_syn_from (SRC (syn_from 1 3 5002)) te.2)
                                         two_syns)) + 1]>
                   (Router.synCounts syn_router_after)) syn_router_after, []))
  /\ Router.synCounts
       (Router.handleSelfMessage IntLibc.libc syn_router_after 20
          Router.rateLimitResetTimer).1 = ∅.
Proof.
  apply (router_syn_limiter IntLibc.libc 2 syn_router syn_router_after two_syns 20
           (syn_from 1 3 5002) 1).
  - reflexivity.
  - reflexivity.
  - vm_compute. reflexivity.
  - repeat constructor.
  - reflexivity.
  - vm_compute. reflexivity.
Defined.

(** ** The client and the DNS server with their transmitters *)

Ltac gate_only :=
  repeat match goal with
    | |- only_gate _ => unfold only_gate
    | |- Forall _ [] => constructor
    | |- Forall _ (_ :: _) => constructor; [exact I|]
    | |- Forall _ (_ ++ _) => apply Forall_app; split
    end.

Ltac open_bind H :=
  match type of H with
  | context [mbind _ ?x] =>
      let E := fresh "E" in
      destruct x eqn:E; cbn [mbind option_bind] in H; [|discriminate H]
  end.

Lemma PC_send_only_gate_1 q s p s' acts :
  PC.sendDNSDataTCP q s p = Some (s', acts) -> only_gate acts.
Proof.
  unfold PC.sendDNSDataTCP. cbv zeta. intros H. repeat open_bind H.
  injection H as <- <-. gate_only.
Qed.

Lemma PC_send_only_gate_2 s p s' acts :
  PC.sendDBQueryTCP s p = Some (s', acts) -> only_gate acts.
Proof.
  unfold PC.sendDBQueryTCP. cbv zeta. intros H. repeat open_bind H.
  injection H as <- <-. gate_only.
Qed.

Lemma PC_send_only_gate_3 s p s' acts :
  PC.sendHTTPDataTCP s p = Some (s', acts) -> only_gate acts.
Proof.
  unfold PC.sendHTTPDataTCP. cbv zeta. intros H. repeat open_bind H.
  injection H as <- <-. gate_only.
Qed.

Lemma PC_send_only_gate_4 s p acts :
  PC.sendHTTPRequestUDP s p = Some acts -> only_gate acts.
Proof.
  unfold PC.sendHTTPRequestUDP. cbv zeta. intros H. repeat open_bind H.
  injection H as <-. gate_only.
Qed.

Lemma PC_handleFrame_only_gate q p s now seq m s' acts :
  PC.handleFrame q p s now seq m = Some (s', acts) -> only_gate acts.
Proof.
  unfold PC.handleFrame. cbv zeta. intros H.
  destruct (kind m =? DNS_RESPONSE).
  { unfold PC.handleDNSResponse, PC.sendHTTPRequestTCP, PC.initiateKeyExchange in H.
    destruct (par_long "answer" m); cbn [mbind option_bind] in H; [|discriminate H].
    destruct (PC.isEncrypted m); cbn [mbind option_bind] in H; [|discriminate H].
    destruct (par_string "qname" m); cbn [mbind option_bind] in H; [|discriminate H].
    destruct (PC.decrypt_if _ _ _); cbn [mbind option_bind] in H; [|discriminate H].
    destruct (String.eqb p "UDP").
    - destruct (PC.sendHTTPRequestUDP s _) as [get|] eqn:E;
        cbn [mbind option_bind] in H; [|discriminate H].
      injection H as <- <-. gate_only. exact (PC_send_only_gate_4 _ _ _ E).
    - injection H as <- <-. gate_only. }
  destruct (kind m =? HTTP_RESPONSE).
  { unfold PC.handleHTTPResponse in H. repeat open_bind H.
    injection H as <- <-. gate_only. }
  destruct (kind m =? PC.DB_RESPONSE).
  { unfold PC.handleDBResponse in H. repeat open_bind H.
    injection H as <- <-. gate_only. }
  destruct (kind m =? TCP_SYN_ACK).
  { unfold PC.handleTCPSynAck in H. cbv zeta in H.
    destruct (PC.tcpConnections s !! SRC m) as [c|]; [|injection H as <- <-; gate_only].
    destruct (state c); try (injection H as <- <-; gate_only).
    destruct (par_long "synCookie" m); cbn [mbind option_bind] in H; [|discriminate H].
    destruct (validateSYNCookie _ _ _ _); [|injection H as <- <-; gate_only].
    match type of H with
    | context [mbind _ ?x] => destruct x as [[s2 a2]|] eqn:E2
    end; cbn [mbind option_bind] in H; [|discriminate H].
    injection H as <- <-. unfold only_gate. constructor; [exact I|].
    destruct (SRC m =? PC.dnsAddr s); [exact (PC_send_only_gate_1 _ _ _ _ _ E2)|].
    destruct (SRC m =? 601);
      [exact (PC_send_only_gate_2 _ _ _ _ E2)|exact (PC_send_only_gate_3 _ _ _ _ E2)]. }
  destruct (kind m =? TCP_ACK).
  { injection H as <- <-. gate_only. }
  destruct (kind m =? TCP_DATA).
  { unfold PC.handleTCPData, PC.sendDBRequestTCP in H. cbv zeta in H.
    destruct (hasPar "bytes" m); [|injection H as <- <-; gate_only].
    repeat open_bind H.
    destruct (PC.tcpConnections s !! 601); injection H as <- <-; gate_only. }
  destruct (kind m =? TCP_FIN).
  { injection H as <- <-. gate_only. }
  destruct (kind m =? UDP_DATA).
  { injection H as <- <-. gate_only. }
  destruct (kind m =? KEY_EXCHANGE).
  { unfold PC.handleKeyExchange in H.
    destruct (par_string "publicKey" m); [|discriminate H].
    destruct (computeSharedSecret _ _); [|discriminate H].
    injection H as <- <-. gate_only. }
  destruct (kind m =? ENCRYPTED_DATA).
  { unfold PC.handleEncryptedData in H. repeat open_bind H.
    injection H as <- <-. gate_only. }
  injection H as <- <-. gate_only.
Qed.

Lemma PC_send_only_gate_5 q s acts :
  PC.sendDNSQueryUDP q s = Some acts -> only_gate acts.
Proof.
  unfold PC.sendDNSQueryUDP. cbv zeta. intros H. repeat open_bind H.
  injection H as <-. gate_only.
Qed.

Lemma PC_start_only_gate q p s now seq r s' acts r' :
  PC.start q p s now seq r = Some (s', acts, r') -> only_gate acts.
Proof.
  unfold PC.start, PC.sendDNSQueryTCP, PC.initiateKeyExchange.
  cbv zeta. intros H.
  destruct (String.eqb p "UDP" || String.eqb p "AUTO").
  - destruct (PC.sendDNSQueryUDP q s) as [query|] eqn:E;
      cbn [mbind option_bind] in H; [|discriminate H].
    injection H as <- <- <-. gate_only. exact (PC_send_only_gate_5 _ _ _ E).
  - injection H as <- <- <-. gate_only.
Qed.

Lemma DNS_handleFrame_only_gate s sq m s' acts :
  DNS.handleFrame s sq m = Some (s', acts) -> only_gate acts.
Proof.
  unfold DNS.handleFrame. cbv zeta. intros H.
  destruct (Qltb _ _); [injection H as <- <-; gate_only|].
  assert (Hq : forall s0, DNS.handleDNSQuery s0 m = Some (s', acts) -> only_gate acts).
  { intros s0. unfold DNS.handleDNSQuery. cbv zeta. intros Hq.
    destruct (par_string "qname" m); cbn [mbind option_bind] in Hq; [|discriminate Hq].
    destruct (HTTP.isEncrypted m); cbn [mbind option_bind] in Hq; [|discriminate Hq].
    destruct (DNS.isUDP m); cbn [mbind option_bind] in Hq; [|discriminate Hq].
    repeat open_bind Hq.
    match type of Hq with
    | context [let '(_, _) := ?x in _] => destruct x
    end.
    injection Hq as <- <-. gate_only. }
  destruct (kind m =? KEY_EXCHANGE).
  { destruct (DNS_handleKeyExchange_silent _ _ _ _ H) as [-> _]. gate_only. }
  destruct (kind m =? TCP_SYN).
  { unfold DNS.handleTCPSyn in H. cbv zeta in H.
    destruct (par_long "synCookie" m); cbn [mbind option_bind] in H; [|discriminate H].
    destruct (negb _); injection H as <- <-; gate_only. }
  destruct (kind m =? TCP_ACK).
  { unfold DNS.handleTCPAck in H. cbv zeta in H.
    destruct (DNS.tcpConnections _ !! _); injection H as <- <-; gate_only. }
  destruct (kind m =? TCP_DATA).
  { unfold DNS.handleTCPData in H. destruct (hasPar "qname" m).
    - exact (Hq _ H).
    - injection H as <- <-. gate_only. }
  destruct (kind m =? DNS_QUERY); [exact (Hq _ H)|].
  injection H as <- <-. gate_only.
Qed.

Section Nodes.

Variable dur : Frame -> simtime_t.
Hypothesis dur_nonneg : forall m, 0 <= dur m.

Lemma tx_inv_later (now t : simtime_t) (tx : Link.Transmitter) :
  tx_inv now tx ->
  now <= t ->
  (forall te, Link.endTxEvent tx = Some te -> t <= te) ->
  tx_inv t tx.
Proof.
  intros [Hser Hev] Hle Hdue. split; [exact Hser|].
  destruct (Link.endTxEvent tx) as [te|].
  - split; [apply Hev|apply Hdue; reflexivity].
  - split; [lia|apply Hev].
Qed.

(** Handing the frames of one handler to the transmitter, one after the
    other at the time of the event, keeps the transmitter's invariant. *)
Lemma perform_all_inv (acts : list Action) (t : simtime_t) :
  only_gate acts ->
  forall tx, tx_inv t tx -> tx_inv t (Link.perform_all dur t acts tx).
Proof.
  unfold Link.perform_all. induction acts as [|a rest IH]; intros Hgate tx Hinv.
  - exact Hinv.
  - apply Forall_cons in Hgate as [Ha Hrest]. cbn [fold_left]. apply IH; [exact Hrest|].
    destruct a as [m|m d]; [|contradiction]. cbn [Link.perform].
    apply (sendPacketOnGate_inv dur dur_nonneg t t m tx Hinv); [lia|].
    intros te Hte. destruct Hinv as [_ Hev]. rewrite Hte in Hev. apply Hev.
Qed.

Lemma pc_node_inv (qname protocol : string) (address dns : Z) (now : simtime_t)
    (s : PC.t) (tx : Link.Transmitter) :
  pc_node dur qname protocol address dns now s tx -> tx_inv now tx.
Proof.
  induction 1 as [|now s tx t seq r s' acts r' Hrun IH Hle Hdue Hstep
                  |now s tx t seq msg s' acts Hrun IH Hle Hdue Hstep
                  |now s tx t Hrun IH Hle Hdue
                  |now s tx te Hrun IH Hte].
  - unfold tx_inv. cbn. split; [exact I|]. split; [lia|reflexivity].
  - apply perform_all_inv; [exact (PC_start_only_gate _ _ _ _ _ _ _ _ _ Hstep)|].
    exact (tx_inv_later _ _ _ IH Hle Hdue).
  - apply perform_all_inv; [exact (PC_handleFrame_only_gate _ _ _ _ _ _ _ _ Hstep)|].
    exact (tx_inv_later _ _ _ IH Hle Hdue).
  - exact (tx_inv_later _ _ _ IH Hle Hdue).
  - exact (handleEndTx_inv dur dur_nonneg _ _ _ IH Hte).
Qed.

Lemma dns_node_inv (address answerAddr : Z) (limit : Q) (now : simtime_t)
    (s : DNS.t) (tx : Link.Transmitter) :
  dns_node dur address answerAddr limit now s tx -> tx_inv now tx.
Proof.
  induction 1 as [|now s tx t sq msg s' acts Hrun IH Hle Hdue Hstep
                  |now s tx t Hrun IH Hle Hdue
                  |now s tx te Hrun IH Hte].
  - unfold tx_inv. cbn. split; [exact I|]. split; [lia|reflexivity].
  - apply perform_all_inv; [exact (DNS_handleFrame_only_gate _ _ _ _ _ Hstep)|].
    exact (tx_inv_later _ _ _ IH Hle Hdue).
  - exact (tx_inv_later _ _ _ IH Hle Hdue).
  - exact (handleEndTx_inv dur dur_nonneg _ _ _ IH Hte).
Qed.

(** The client as a whole never has two frames on its channel at once.
    Every handler of the client hands its frames to [sendPacketOnGate] (none
    uses [sendDelayed]), so over every run of the client with its
    transmitter (start event, arriving frames, timers and end-of-transmission
    events, delivered in time order) at most one frame is in transmission at
    any instant. *)
Theorem pc_node_never_overlaps (qname protocol : string) (address dns : Z)
    (now : simtime_t) (s : PC.t) (tx : Link.Transmitter) :
  pc_node dur qname protocol address dns now s tx ->
  forall t, (length (Link.in_transmission t (Link.channel tx)) <= 1)%nat.
Proof.
  intros Hrun t. destruct (pc_node_inv _ _ _ _ _ _ _ Hrun) as [Hser _].
  exact (serial_one_at_a_time _ _ t Hser).
Qed.

(** The same for the DNS server: all its replies go through
    [sendPacketOnGate], and over every run of the server with its
    transmitter at most one frame is in transmission at any instant. *)
Theorem dns_node_never_overlaps (address answerAddr : Z) (limit : Q)
    (now : simtime_t) (s : DNS.t) (tx : Link.Transmitter) :
  dns_node dur address answerAddr limit now s tx ->
  forall t, (length (Link.in_transmission t (Link.channel tx)) <= 1)%nat.
Proof.
  intros Hrun t. destruct (dns_node_inv _ _ _ _ _ _ Hrun) as [Hser _].
  exact (serial_one_at_a_time _ _ t Hser).
Qed.

End Nodes.

(** Client 1 after its start event: the key exchange is on the channel and
    the query waits. *)
Lemma pc_node_never_overlaps_witness :
  (length (Link.in_transmission (second + millisecond)%Z (Link.channel pc_started_tx))
   <= 1)%nat.
Proof.
  apply (pc_node_never_overlaps dur_fixed) with
    (qname := "example.com"%string) (protocol := "UDP"%string) (address := 1)
    (dns := 2) (now := second) (s := PC.initialize 1 2).
  - intros m. unfold dur_fixed. lia.
  - apply (pc_node_start dur_fixed "example.com" "UDP" 1 2 0 (PC.initialize 1 2)
             Link.init second 4242 None (PC.initialize 1 2) pc_start_acts None).
    + apply pc_node_init.
    + vm_compute. discriminate.
    + intros te H. discriminate H.
    + vm_compute. reflexivity.
Defined.

(** DNS server 2 after it has answered the query of client 1. *)
Lemma dns_node_never_overlaps_witness :
  (length (Link.in_transmission (second + millisecond)%Z (Link.channel dns_answered_tx))
   <= 1)%nat.
Proof.
  apply (dns_node_never_overlaps dur_fixed) with
    (address := 2) (answerAddr := 3) (limit := 100%Q) (now := second)
    (s := dns_answered.1).
  - intros m. unfold dur_fixed. lia.
  - apply (dns_node_frame dur_fixed 2 3 100 0 (DNS.initialize 2 3 100) Link.init
             second 0 dns_query_example dns_answered.1 dns_answered.2).
    + apply dns_node_init.
    + vm_compute. discriminate.
    + intros te H. discriminate H.
    + vm_compute. reflexivity.
Defined.

(** ** The rate limiter of the DNS server *)

Lemma DNS_handleDNSQuery_counts (s s' : DNS.t) (m : Frame) (acts : list Action) :
  DNS.handleDNSQuery s m = Some (s', acts) ->
  DNS.requestCounts s' = DNS.requestCounts s /\ DNS.rateLimit s' = DNS.rateLimit s.
Proof.
  unfold DNS.handleDNSQuery. cbv zeta. intros H.
  destruct (par_string "qname" m); cbn [mbind option_bind] in H; [|discriminate H].
  destruct (HTTP.isEncrypted m); cbn [mbind option_bind] in H; [|discriminate H].
  destruct (DNS.isUDP m); cbn [mbind option_bind] in H; [|discriminate H].
  repeat open_bind H.
  match type of H with
  | context [let '(_, _) := ?x in _] => destruct x
  end.
  injection H as <- <-. split; reflexivity.
Qed.

Lemma DNS_handleFrame_counts (s s' : DNS.t) (sq : Z) (m : Frame) (acts : list Action) :
  DNS.handleFrame s sq m = Some (s', acts) ->
  DNS.requestCounts s'
  = <[SRC m := wrap32 (DNS.count_of (DNS.requestCounts s) (SRC m) + 1)]>
      (DNS.requestCounts s)
  /\ DNS.rateLimit s' = DNS.rateLimit s.
Proof.
  unfold DNS.handleFrame. cbv zeta. intros H.
  destruct (Qltb _ _); [injection H as <- <-; split; reflexivity|].
  destruct (kind m =? KEY_EXCHANGE).
  { unfold DNS.handleKeyExchange in H. cbv zeta in H.
    destruct (par_string "publicKey" m); cbn [mbind option_bind] in H; [|discriminate H].
    destruct (computeSharedSecret _ _); cbn [mbind option_bind] in H; [|discriminate H].
    injection H as <- <-. split; reflexivity. }
  destruct (kind m =? TCP_SYN).
  { unfold DNS.handleTCPSyn in H. cbv zeta in H.
    destruct (par_long "synCookie" m); cbn [mbind option_bind] in H; [|discriminate H].
    destruct (negb _); injection H as <- <-; split; reflexivity. }
  destruct (kind m =? TCP_ACK).
  { unfold DNS.handleTCPAck in H. cbv zeta in H.
    destruct (DNS.tcpConnections _ !! _); injection H as <- <-; split; reflexivity. }
  destruct (kind m =? TCP_DATA).
  { unfold DNS.handleTCPData in H. destruct (hasPar "qname" m).
    - exact (DNS_handleDNSQuery_counts _ _ _ _ H).
    - injection H as <- <-. split; reflexivity. }
  destruct (kind m =? DNS_QUERY); [exact (DNS_handleDNSQuery_counts _ _ _ _ H)|].
  injection H as <- <-. split; reflexivity.
Qed.

Lemma dns_burst_count (src : Z) (l : list (Z * Frame)) :
  forall s s',
    dns_burst s l = Some s' ->
    0 <= DNS.count_of (DNS.requestCounts s) src ->
    DNS.count_of (DNS.requestCounts s) src + Z.of_nat (length (frames_from src l)) < 2 ^ 31 ->
    DNS.rateLimit s' = DNS.rateLimit s
    /\ DNS.count_of (DNS.requestCounts s') src
       = DNS.count_of (DNS.requestCounts s) src + Z.of_nat (length (frames_from src l)).
Proof.
  induction l as [|[sq m] rest IH]; intros s s' Hrun H0 Hb; cbn in Hrun.
  - injection Hrun as <-. cbn. split; [reflexivity|lia].
  - destruct (DNS.handleFrame s sq m) as [[s1 out]|] eqn:Hstep; [|discriminate Hrun].
    destruct (DNS_handleFrame_counts _ _ _ _ _ Hstep) as [Hc Hl].
    unfold frames_from in *. cbn [List.filter snd] in Hb |- *.
    assert (Hc1 : DNS.count_of (DNS.requestCounts s1) src
                  = if SRC m =? src then wrap32 (DNS.count_of (DNS.requestCounts s) src + 1)
                    else DNS.count_of (DNS.requestCounts s) src).
    { rewrite Hc. unfold DNS.count_of.
      destruct (Z.eqb_spec (SRC m) src) as [->|Hne].
      - rewrite lookup_insert_eq. reflexivity.
      - rewrite lookup_insert_ne by exact Hne. reflexivity. }
    destruct (SRC m =? src); cbn [length] in Hb |- *.
    + rewrite wrap32_small in Hc1 by lia.
      destruct (IH s1 s' Hrun) as [Hl' Hc']; [lia|lia|].
      split; [congruence|lia].
    + destruct (IH s1 s' Hrun) as [Hl' Hc']; [lia|lia|].
      split; [congruence|lia].
Qed.

(** The rate limiter of the DNS server counts every frame of a source,
    whatever its kind.  From a state in which the source has no counter (as
    after a firing of [rateLimitResetTimer], which clears every counter), the
    frame that follows [k] frames of the source is dropped with no reply and
    no change beyond the counter when [k + 1 > L], be it a query, a SYN, an
    ACK or a key exchange; when [k + 1 <= L] a [DNS_QUERY] frame that the
    server can read is answered by one frame to its source, with the
    configured answer and the priority of the query as [PRIORITY()] reads
    it, an [int]. *)
Theorem dns_rate_limiter (L : Z) (s s' : DNS.t) (l : list (Z * Frame))
    (serverSeq : Z) (msg : Frame) :
  DNS.rateLimit s = inject_Z L ->
  DNS.requestCounts s !! SRC msg = None ->
  dns_burst s l = Some s' ->
  Z.of_nat (length (frames_from (SRC msg) l)) + 1 < 2 ^ 31 ->
  (L < Z.of_nat (length (frames_from (SRC msg) l)) + 1 ->
   DNS.handleFrame s' serverSeq msg = Some (DNS.countRequest s' msg, []))
  /\ (Z.of_nat (length (frames_from (SRC msg) l)) + 1 <= L ->
      kind msg = DNS_QUERY ->
      forall s'' acts,
        DNS.handleFrame s' serverSeq msg = Some (s'', acts) ->
        exists resp,
          acts = [SendOnGate resp]
          /\ SRC resp = DNS.addr s' /\ DST resp = SRC msg
          /\ PRIORITY resp = PRIORITY_int msg
          /\ par_long "answer" resp = Some (DNS.answer s'))
  /\ DNS.count_of (DNS.requestCounts (DNS.countRequest s' msg)) (SRC msg)
     = Z.of_nat (length (frames_from (SRC msg) l)) + 1
  /\ DNS.requestCounts (DNS.rateLimitReset s') = ∅.
Proof.
  intros HL Hfresh Hrun Hb.
  assert (H0 : DNS.count_of (DNS.requestCounts s) (SRC msg) = 0).
  { unfold DNS.count_of. rewrite Hfresh. reflexivity. }
  destruct (dns_burst_count (SRC msg) l s s' Hrun) as [Hl Hc]; [lia|lia|].
  rewrite H0, Z.add_0_l in Hc.
  assert (Hn : DNS.count_of (DNS.requestCounts (DNS.countRequest s' msg)) (SRC msg)
               = Z.of_nat (length (frames_from (SRC msg) l)) + 1).
  { unfold DNS.countRequest. cbn [DNS.requestCounts DNS.with_requestCounts].
    rewrite DNS_count_insert, Hc. apply wrap32_small. lia. }
  split; [|split; [|split; [exact Hn|reflexivity]]].
  - intros Hover. unfold DNS.handleFrame. cbv zeta.
    replace (Qltb _ _) with true; [reflexivity|].
    symmetry. apply Qltb_lt. rewrite Hn.
    change (DNS.rateLimit (DNS.countRequest s' msg)) with (DNS.rateLimit s').
    rewrite Hl, HL, <- Zlt_Qlt. exact Hover.
  - intros Hin Hk s'' acts Hstep.
    rewrite DNS_within_limit in Hstep.
    2:{ rewrite Hc, wrap32_small, Hl, HL, <- Zle_Qle by lia. exact Hin. }
    cbv zeta in Hstep. rewrite Hk in Hstep.
    change (DNS_QUERY =? KEY_EXCHANGE) with false in Hstep.
    change (DNS_QUERY =? TCP_SYN) with false in Hstep.
    change (DNS_QUERY =? TCP_ACK) with false in Hstep.
    change (DNS_QUERY =? TCP_DATA) with false in Hstep.
    change (DNS_QUERY =? DNS_QUERY) with true in Hstep. cbn iota in Hstep.
    unfold DNS.handleDNSQuery in Hstep. cbv zeta in Hstep.
    destruct (par_string "qname" msg); cbn [mbind option_bind] in Hstep;
      [|discriminate Hstep].
    destruct (HTTP.isEncrypted msg); cbn [mbind option_bind] in Hstep;
      [|discriminate Hstep].
    destruct (DNS.isUDP msg) as [udp|]; cbn [mbind option_bind] in Hstep;
      [|discriminate Hstep].
    rewrite Hk in Hstep. change (DNS_QUERY =? TCP_DATA) with false in Hstep.
    cbn iota in Hstep.
    destruct (DNS.sharedKeys (DNS.countRequest s' msg) !! SRC msg) as [key|].
    + match type of Hstep with
      | context [mbind _ (if ?b then ?x else ?y)] =>
          destruct (if b then x else y) as [q1|]; cbn [mbind option_bind] in Hstep;
          [|discriminate Hstep]
      end.
      destruct (simpleEncrypt q1 key) as [enc|]; cbn [mbind option_bind] in Hstep;
        [|discriminate Hstep].
      destruct udp; cbn in Hstep; injection Hstep as <- <-;
        (eexists; split; [reflexivity|]; frame_fields; repeat split; reflexivity).
    + cbn [mbind option_bind] in Hstep.
      destruct udp; cbn in Hstep; injection Hstep as <- <-;
        (eexists; split; [reflexivity|]; frame_fields; repeat split; reflexivity).
Qed.

(** The third frame of client 1 at a server that lets two through. *)
Lemma dns_rate_limiter_witness :
  (2 < Z.of_nat (length (frames_from (SRC dns_query_example) dns_two)) + 1 ->
   DNS.handleFrame dns_limited_after 0 dns_query_example
   = Some (DNS.countRequest dns_limited_after dns_query_example, []))
  /\ (Z.of_nat (length (frames_from (SRC dns_query_example) dns_two)) + 1 <= 2 ->
      kind dns_query_example = DNS_QUERY ->
      forall s'' acts,
        DNS.handleFrame dns_limited_after 0 dns_query_example = Some (s'', acts) ->
        exists resp,
          acts = [SendOnGate resp]
          /\ SRC resp = DNS.addr dns_limited_after /\ DST resp = SRC dns_query_example
          /\ PRIORITY resp = PRIORITY_int dns_query_example
          /\ par_long "answer" resp = Some (DNS.answer dns_limited_after))
  /\ DNS.count_of
       (DNS.requestCounts (DNS.countRequest dns_limited_after dns_query_example))
       (SRC dns_query_example)
     = Z.of_nat (length (frames_from (SRC dns_query_example) dns_two)) + 1
  /\ DNS.requestCounts (DNS.rateLimitReset dns_limited_after) = ∅.
Proof.
  apply (dns_rate_limiter 2 dns_limited dns_limited_after dns_two 0 dns_query_example).
  - reflexivity.
  - reflexivity.
  - vm_compute. reflexivity.
  - vm_compute. reflexivity.
Defined.

(** ** The keys of a node *)

Lemma hex_of_long_value (v : Z) :
  HexString.Raw.to_N (hex_of_long v) 0 = Z.to_N (v mod 2 ^ 64).
Proof.
  unfold hex_of_long. destruct (v mod 2 ^ 64) as [|p|p] eqn:E.
  - reflexivity.
  - rewrite HexString.Raw.to_N_of_pos. reflexivity.
  - pose proof (Z.mod_pos_bound v (2 ^ 64) ltac:(lia)) as B. lia.
Qed.

Lemma hex_of_long_inj (v w : Z) :
  hex_of_long v = hex_of_long w -> v mod 2 ^ 64 = w mod 2 ^ 64.
Proof.
  intros H. apply (f_equal (fun s => HexString.Raw.to_N s 0)) in H.
  rewrite !hex_of_long_value in H.
  pose proof (Z.mod_pos_bound v (2 ^ 64) ltac:(lia)) as Bv.
  pose proof (Z.mod_pos_bound w (2 ^ 64) ltac:(lia)) as Bw.
  lia.
Qed.

Lemma wrap64_mod (z : Z) : wrap64 z mod 2 ^ 64 = z mod 2 ^ 64.
Proof.
  unfold wrap64.
  rewrite <- Zminus_mod_idemp_l, Z.mod_mod by lia.
  rewrite Zminus_mod_idemp_l. f_equal. lia.
Qed.

(** The keys of [initialize()] are a function of the address alone.  For
    addresses a and b of 31 bits: different addresses have different
    private keys, and the public key of the node at address [a], which the
    node sends in its key-exchange frames, is the private key of the node
    at address [2 * a] and of no other (the client's default address 1 and
    DNS address 2 are such a pair). *)
Theorem key_of_address (a b d d' answerAddr : Z) (limit : Q) :
  - 2 ^ 30 <= a < 2 ^ 30 ->
  - 2 ^ 30 <= b < 2 ^ 30 ->
  (generateECDHPublicKey a = generateECDHPublicKey b -> a = b)
  /\ (PC.myPrivateKey (PC.initialize a d) = PC.myPrivateKey (PC.initialize b d') -> a = b)
  /\ PC.myPublicKey (PC.initialize a d)
     = DNS.myPrivateKey (DNS.initialize (2 * a) answerAddr limit)
  /\ (PC.myPublicKey (PC.initialize a d)
      = DNS.myPrivateKey (DNS.initialize b answerAddr limit) -> b = 2 * a).
Proof.
  intros Ha Hb.
  assert (Hinj : forall x y, - 2 ^ 31 <= x < 2 ^ 31 -> - 2 ^ 31 <= y < 2 ^ 31 ->
                   generateECDHPublicKey x = generateECDHPublicKey y -> x = y).
  { intros x y Hx Hy H. unfold generateECDHPublicKey in H.
    apply hex_of_long_inj in H. rewrite !wrap64_mod in H.
    assert (E : (x * 74565 + 1737075661 - (y * 74565 + 1737075661)) mod 2 ^ 64 = 0).
    { rewrite Zminus_mod, H, Z.sub_diag. reflexivity. }
    apply Z.mod_divide in E; [|lia]. destruct E as [k Hk]. nia. }
  assert (W : wrap32 (a * 2) = 2 * a) by (rewrite wrap32_small; lia).
  split; [apply Hinj; lia|]. split; [apply Hinj; lia|].
  cbn [PC.myPublicKey PC.initialize DNS.myPrivateKey DNS.initialize]. rewrite W.
  split; [reflexivity|]. intros H. symmetry. apply Hinj; [lia|lia|exact H].
Qed.

(** Client 1 and DNS server 2. *)
Lemma key_of_address_witness :
  (generateECDHPublicKey 1 = generateECDHPublicKey 2 -> 1 = 2)
  /\ (PC.myPrivateKey (PC.initialize 1 2) = PC.myPrivateKey (PC.initialize 2 2) -> 1 = 2)
  /\ PC.myPublicKey (PC.initialize 1 2)
     = DNS.myPrivateKey (DNS.initialize (2 * 1) 3 100)
  /\ (PC.myPublicKey (PC.initialize 1 2)
      = DNS.myPrivateKey (DNS.initialize 2 3 100) -> 2 = 2 * 1).
Proof.
  apply (key_of_address 1 2 2 2 3 100); lia.
Defined.

(** ** Link-state advertisements *)

Lemma gates_spec (n g : Z) : In g (Router.gates n) <-> 0 <= g < n.
Proof. unfold Router.gates. rewrite <- list_elem_of_In, elem_of_seqZ. lia. Qed.

(** Link-state advertisements from origin to neighbour.  [sendOSPFLSA]
    sends the advertisement of link [i] to every gate other than [i] and to
    no other, for every link of the router.  A router that handles such an
    advertisement files, under [origin * 1000 + i], a record with the
    origin, the link and the cost, bandwidth and delay that the origin
    computed, stamped with its own time of handling; it leaves the other
    records alone and floods the advertisement on. *)
Theorem ospf_lsa_round_trip (a b : Router.t) (now t : simtime_t) :
  (forall j m,
      In (Router.ToGate j m) (Router.sendOSPFLSA a now)
      <-> exists i,
            0 <= i < Router.gateSize a /\ 0 <= j < Router.gateSize a /\ j <> i
            /\ m = (Router.originate a now i).2)
  /\ (forall i inGate,
         0 <= i < 2 ^ 31 ->
         - 2 ^ 63 <= Router.routerId a * 1000 + i < 2 ^ 63 ->
         - 2 ^ 63 <= Router.routerId a * 1000 < 2 ^ 63 ->
         exists b',
           Router.handleOSPFLSA b t inGate (Router.originate a now i).2
           = Some (b', Router.flood b inGate (Router.originate a now i).2)
           /\ Router.linkStateDB b' !! (Router.routerId a * 1000 + i)
              = Some {| ls_routerId := Router.routerId a; ls_linkId := i;
                        ls_cost := ls_cost (Router.originate a now i).1;
                        ls_bandwidth := ls_bandwidth (Router.originate a now i).1;
                        ls_delay := ls_delay (Router.originate a now i).1;
                        ls_timestamp := t |}
           /\ (forall k, k <> Router.routerId a * 1000 + i ->
                 Router.linkStateDB b' !! k = Router.linkStateDB b !! k)).
Proof.
  split.
  - intros j m. unfold Router.sendOSPFLSA. rewrite in_flat_map. split.
    + intros (i & Hi & Hin). apply gates_spec in Hi. apply in_map_iff in Hin.
      destruct Hin as (j' & [= <- <-] & Hj). apply other_gates_spec in Hj.
      exists i. repeat split; lia.
    + intros (i & Hi & Hj & Hne & ->). exists i. split; [apply gates_spec; exact Hi|].
      apply in_map_iff. exists j. split; [reflexivity|].
      apply other_gates_spec. lia.
  - intros i inGate Hi Hkey Horigin.
    assert (Wi : wrap32 i = i) by (apply wrap32_small; lia).
    assert (Wk : Router.lsdb_key (Router.routerId a) i = Router.routerId a * 1000 + i).
    { unfold Router.lsdb_key. rewrite (wrap64_small (_ * 1000)) by lia.
      apply wrap64_small. lia. }
    eexists. split; [|split].
    + unfold Router.handleOSPFLSA, Router.originate. cbn [snd].
      cbn [par_long par_double par_lookup pars set_par set_priority mk par_update SRC
           String.eqb Ascii.eqb Bool.eqb mbind option_bind].
      rewrite Wi. reflexivity.
    + cbn [Router.linkStateDB Router.with_linkStateDB SRC set_priority set_par mk].
      rewrite Wk, lookup_insert_eq. reflexivity.
    + intros k Hk.
      cbn [Router.linkStateDB Router.with_linkStateDB SRC set_priority set_par mk].
      rewrite Wk, lookup_insert_ne by congruence. reflexivity.
Qed.

(** ** Distance-vector updates *)

Lemma app_String (c : ascii) (a b : string) :
  (String c a ++ b)%string = String c (a ++ b)%string.
Proof. reflexivity. Qed.

Lemma app_Empty (b : string) : (EmptyString ++ b)%string = b.
Proof. reflexivity. Qed.

Lemma string_app_assoc (a b c : string) :
  ((a ++ b) ++ c)%string = (a ++ (b ++ c))%string.
Proof.
  induction a as [|x a IH]; [reflexivity|].
  rewrite !app_String, IH. reflexivity.
Qed.

Lemma clean_app (a b : string) : clean (a ++ b)%string = clean a && clean b.
Proof.
  induction a as [|x a IH]; [reflexivity|].
  rewrite app_String. cbn [clean]. rewrite IH, andb_assoc. reflexivity.
Qed.

Lemma uint_clean (d : Decimal.uint) : clean (NilEmpty.string_of_uint d) = true.
Proof. induction d; cbn [NilEmpty.string_of_uint clean]; try rewrite IHd; reflexivity. Qed.

Lemma dec_of_Z_clean (z : Z) : clean (Router.dec_of_Z z) = true.
Proof.
  unfold Router.dec_of_Z, NilZero.string_of_int, NilZero.string_of_uint.
  destruct (Z.to_int z) as [d|d]; destruct d; cbn [clean];
    try reflexivity; rewrite ?uint_clean; reflexivity.
Qed.

Lemma dec_of_Z_nonempty (z : Z) : Router.is_empty (Router.dec_of_Z z) = false.
Proof.
  unfold Router.dec_of_Z, NilZero.string_of_int, NilZero.string_of_uint.
  destruct (Z.to_int z) as [d|d]; destruct d; reflexivity.
Qed.

Lemma getline_items_item (item : string) :
  clean item = true ->
  forall rest acc,
    Router.getline_items (item ++ String ","%char rest)%string acc
    = (acc ++ item)%string :: Router.getline_items rest EmptyString.
Proof.
  induction item as [|c item IH]; intros Hc rest acc.
  - rewrite app_Empty. cbn [Router.getline_items]. rewrite Ascii.eqb_refl.
    f_equal. induction acc as [|x acc IHa]; [reflexivity|].
    rewrite app_String, <- IHa. reflexivity.
  - cbn [clean] in Hc. apply andb_true_iff in Hc as [Hc Hrest].
    apply andb_true_iff in Hc as [Hcomma _]. apply negb_true_iff in Hcomma.
    rewrite app_String. cbn [Router.getline_items]. rewrite Hcomma.
    rewrite IH by exact Hrest. f_equal.
    rewrite string_app_assoc. reflexivity.
Qed.

Lemma c_str_clean (s : string) : clean s = true -> c_str s = s.
Proof.
  induction s as [|c s IH]; [reflexivity|]. cbn [clean c_str]. intros H.
  apply andb_true_iff in H as [H Hrest]. apply andb_true_iff in H as [_ Hz].
  apply negb_true_iff in Hz. rewrite Hz, IH by exact Hrest. reflexivity.
Qed.

Lemma insert_by_key_In {A : Type} (x y : Z * A) (l : list (Z * A)) :
  In x (Router.insert_by_key y l) <-> x = y \/ In x l.
Proof.
  induction l as [|z l IH]; cbn [Router.insert_by_key].
  - cbn. intuition congruence.
  - destruct (y.1 <=? z.1); cbn [In]; [intuition congruence|].
    rewrite IH. intuition congruence.
Qed.

Lemma sorted_In {A : Type} (x : Z * A) (l : list (Z * A)) :
  In x (foldr Router.insert_by_key [] l) <-> In x l.
Proof.
  induction l as [|z l IH]; cbn [foldr]; [reflexivity|].
  rewrite insert_by_key_In, IH. cbn [In]. intuition congruence.
Qed.

Lemma entries_In {A : Type} (m : gmap Z A) (d : Z) (e : A) :
  In (d, e) (Router.entries m) <-> m !! d = Some e.
Proof.
  unfold Router.entries. rewrite sorted_In, <- list_elem_of_In.
  apply elem_of_map_to_list.
Qed.

Lemma is_empty_app (a b : string) :
  Router.is_empty a = false -> Router.is_empty (a ++ b)%string = false.
Proof. destruct a; [discriminate|reflexivity]. Qed.

Lemma c_str_app (a b : string) :
  clean a = true -> c_str (a ++ b)%string = (a ++ c_str b)%string.
Proof.
  induction a as [|c a IH]; [reflexivity|]. cbn [clean]. intros H.
  apply andb_true_iff in H as [H Hrest]. apply andb_true_iff in H as [_ Hz].
  apply negb_true_iff in Hz. rewrite !app_String. cbn [c_str].
  rewrite Hz, IH by exact Hrest. reflexivity.
Qed.

Lemma rip_item_clean (libc : Router.Libc) (e : Z * RouteEntry) :
  clean (Router.show_double libc (metric e.2)) = true -> clean (rip_item libc e) = true.
Proof.
  intros H. unfold rip_item. rewrite !clean_app, !dec_of_Z_clean, H. reflexivity.
Qed.

Lemma payload_step (libc : Router.Libc) (e : Z * RouteEntry) (acc : string) :
  (Router.dec_of_Z e.1 ++ ":" ++ Router.show_double libc (metric e.2) ++ ":"
     ++ Router.dec_of_Z (hopCount e.2) ++ "," ++ acc)%string
  = (rip_item libc e ++ String ","%char acc)%string.
Proof. unfold rip_item. rewrite !string_app_assoc. reflexivity. Qed.

(** What a neighbour parses from an advertisement is what the router wrote
    into it, entry by entry; and the text has no NUL byte, so [c_str()]
    keeps all of it. *)
Lemma advertised_items (libc : Router.Libc) (l : list (Z * RouteEntry)) :
  (forall e, In e l ->
     clean (Router.show_double libc (metric e.2)) = true
     /\ Router.scan_route libc (rip_item libc e) = Some (e.1, metric e.2, hopCount e.2)) ->
  let payload :=
    foldr (fun (e : Z * RouteEntry) acc =>
             (Router.dec_of_Z e.1 ++ ":" ++ Router.show_double libc (metric e.2) ++ ":"
                ++ Router.dec_of_Z (hopCount e.2) ++ "," ++ acc)%string)
          EmptyString l in
  c_str payload = payload
  /\ Router.advertised libc payload = map (fun e => (e.1, metric e.2, hopCount e.2)) l.
Proof.
  cbv zeta. induction l as [|e l IH]; intros H.
  - split; reflexivity.
  - destruct (H e (or_introl eq_refl)) as [Hclean Hscan].
    destruct IH as [IH1 IH2]; [intros x Hx; apply H; right; exact Hx|].
    cbn [foldr map]. rewrite payload_step.
    pose proof (rip_item_clean libc e Hclean) as Hitem. split.
    + rewrite c_str_app by exact Hitem. cbn [c_str]. rewrite IH1. reflexivity.
    + unfold Router.advertised in *. rewrite getline_items_item by exact Hitem.
      rewrite app_Empty. cbn [omap list_omap].
      assert (Hne : Router.is_empty (rip_item libc e) = false).
      { unfold rip_item. apply is_empty_app, dec_of_Z_nonempty. }
      rewrite Hne, Hscan. f_equal. exact IH2.
Qed.

(** An advertised destination within the hop limit has a route after the
    import, at no more than the advertised metric plus one. *)
Lemma rip_imports_install (inGate : Z) (now : simtime_t) (l : list (Z * Q * Z)) :
  forall (rt : gmap Z RouteEntry) (d : Z) (m : Q) (h : Z),
    In (d, m, h) l ->
    wrap32 (h + 1) < 16 ->
    exists e', fold_left (Router.rip_import inGate now) l rt !! d = Some e'
               /\ (metric e' <= m + 1)%Q.
Proof.
  induction l as [|adv rest IH]; intros rt d m h Hin Hh; [destruct Hin|].
  cbn [fold_left]. destruct Hin as [->|Hin]; [|exact (IH _ d m h Hin Hh)].
  assert (Hnow : exists e1, Router.rip_import inGate now rt (d, m, h) !! d = Some e1
                            /\ (metric e1 <= m + 1)%Q).
  { unfold Router.rip_import. apply Z.ltb_lt in Hh. rewrite Hh.
    destruct (rt !! d) as [cur|] eqn:Hd.
    - destruct (Qltb (m + 1) (metric cur)) eqn:Hlt.
      + rewrite lookup_insert_eq. eexists. split; [reflexivity|]. cbn. apply Qle_refl.
      + apply Qltb_ge in Hlt. exists cur. split; [exact Hd|exact Hlt].
    - rewrite lookup_insert_eq. eexists. split; [reflexivity|]. cbn. apply Qle_refl. }
  destruct Hnow as (e1 & H1 & Hle1).
  destruct (rip_imports_improve inGate now rest _ _ _ H1) as (e2 & H2 & Hle2).
  exists e2. split; [exact H2|]. eapply Qle_trans; eassumption.
Qed.

(** A distance-vector update from sender to receiver.  When the C library
    reads back what it printed for the entries of the sender's table (and
    prints no comma or NUL in a metric), the update that [sendRIPUpdate]
    puts on a gate carries the table: the receiver parses exactly the
    triples of the sender's entries, in key order, and after
    [handleRIPUpdate] it has, for every destination that the sender reaches
    within the hop limit, a route whose metric is at most the sender's
    metric plus one. *)
Theorem rip_update_propagates (libc : Router.Libc) (a b : Router.t) (i inGate : Z)
    (t : simtime_t) (upd : Frame) :
  (forall d e, Router.routingTable a !! d = Some e ->
     clean (Router.show_double libc (metric e)) = true
     /\ Router.scan_route libc (rip_item libc (d, e)) = Some (d, metric e, hopCount e)) ->
  In (Router.ToGate i upd) (Router.sendRIPUpdate libc a) ->
  par_string "routes" upd = Some (c_str (Router.routes_payload libc (Router.routingTable a)))
  /\ Router.advertised libc (Router.routes_payload libc (Router.routingTable a))
     = map (fun e => (e.1, metric e.2, hopCount e.2))
           (Router.entries (Router.routingTable a))
  /\ exists b',
       Router.handleRIPUpdate libc b t inGate upd = Some (b', [])
       /\ forall d e,
            Router.routingTable a !! d = Some e ->
            wrap32 (hopCount e + 1) < 16 ->
            exists e', Router.routingTable b' !! d = Some e'
                       /\ (metric e' <= metric e + 1)%Q.
Proof.
  intros Hlibc Hin.
  assert (Hitems : forall e, In e (Router.entries (Router.routingTable a)) ->
            clean (Router.show_double libc (metric e.2)) = true
            /\ Router.scan_route libc (rip_item libc e) = Some (e.1, metric e.2, hopCount e.2)).
  { intros [d e] He. apply entries_In in He. exact (Hlibc d e He). }
  destruct (advertised_items libc _ Hitems) as [Hc Hadv].
  fold (Router.routes_payload libc (Router.routingTable a)) in Hc, Hadv.
  unfold Router.sendRIPUpdate in Hin. apply in_map_iff in Hin.
  destruct Hin as (j & [= _ <-] & _).
  split; [rewrite Hc; reflexivity|]. split; [exact Hadv|].
  eexists. split.
  - unfold Router.handleRIPUpdate. frame_fields. reflexivity.
  - intros d e He Hh. cbn [Router.routingTable Router.with_routingTable].
    rewrite Hadv. apply (rip_imports_install inGate t _ _ d (metric e) (hopCount e)); [|exact Hh].
    apply in_map_iff. exists (d, e). split; [reflexivity|].
    apply entries_In. exact He.
Qed.

(** The router of [rip_router] advertises its static route to 5; the
    neighbour learns it at metric 2. *)
Lemma rip_update_propagates_witness :
  par_string "routes" rip_advert
  = Some (c_str (Router.routes_payload IntLibc.libc (Router.routingTable rip_router)))
  /\ Router.advertised IntLibc.libc
       (Router.routes_payload IntLibc.libc (Router.routingTable rip_router))
     = map (fun e => (e.1, metric e.2, hopCount e.2))
           (Router.entries (Router.routingTable rip_router))
  /\ exists b',
       Router.handleRIPUpdate IntLibc.libc rip_neighbour 1000 1 rip_advert = Some (b', [])
       /\ forall d e,
            Router.routingTable rip_router !! d = Some e ->
            wrap32 (hopCount e + 1) < 16 ->
            exists e', Router.routingTable b' !! d = Some e'
                       /\ (metric e' <= metric e + 1)%Q.
Proof.
  apply (rip_update_propagates IntLibc.libc rip_router rip_neighbour 0 1 1000 rip_advert).
  - intros d e H.
    assert (E : Router.routingTable rip_router = <[5 := Router.static_route 5 0]> ∅)
      by (vm_compute; reflexivity).
    rewrite E in H. apply lookup_insert_Some in H.
    destruct H as [[<- <-]|[_ H]]; [|rewrite lookup_empty in H; discriminate H].
    split; vm_compute; reflexivity.
  - left. reflexivity.
Defined.

(** ** Key exchange between clients *)

Lemma PC_handleKeyExchange_replies (s : PC.t) (msg : Frame) (pk : string) :
  par_string "publicKey" msg = Some pk ->
  PC.myPrivateKey s <> EmptyString ->
  exists k,
    computeSharedSecret (PC.myPrivateKey s) pk = Some k
    /\ String.length k = 16%nat
    /\ PC.handleKeyExchange s msg
       = Some (PC.with_sharedKeys (<[SRC msg := k]> (PC.sharedKeys s)) s,
               [SendOnGate
                  (set_priority PRIORITY_HIGH
                     (set_par "publicKey" (PString (PC.myPublicKey s))
                        (mk "KEY_EXCHANGE" KEY_EXCHANGE (PC.addr s) (SRC msg))))]).
Proof.
  intros Hpk Hpriv.
  destruct (computeSharedSecret_total (PC.myPrivateKey s) pk Hpriv) as (k & Hk & Hlen).
  exists k. split; [exact Hk|]. split; [exact Hlen|].
  unfold PC.handleKeyExchange. rewrite Hpk, Hk. reflexivity.
Qed.

(** A key exchange between two clients never ends.  The client's
    [handleKeyExchange] answers every key-exchange frame with one of its
    own, the answers included: whatever the number of rounds, both clients
    have handled every frame so far, each holds a key for the other, and a
    further key-exchange frame is on its way. *)
Theorem client_key_exchange_never_ends (n : nat) :
  forall (c1 c2 : PC.t) (msg : Frame) (pk : string),
    par_string "publicKey" msg = Some pk ->
    SRC msg = PC.addr c2 ->
    PC.myPrivateKey c1 <> EmptyString ->
    PC.myPrivateKey c2 <> EmptyString ->
    exists c1' c2' next,
      key_rounds n c1 c2 msg = Some (c1', c2', next)
      /\ PC.addr c1' = PC.addr c1 /\ PC.addr c2' = PC.addr c2
      /\ SRC next = PC.addr c2
      /\ (n <> O ->
          kind next = KEY_EXCHANGE /\ DST next = PC.addr c1
          /\ par_string "publicKey" next = Some (PC.myPublicKey c2)
          /\ (exists k1, PC.sharedKeys c1' !! PC.addr c2 = Some k1)
          /\ (exists k2, PC.sharedKeys c2' !! PC.addr c1 = Some k2)).
Proof.
  induction n as [|n IH]; intros c1 c2 msg pk Hpk Hsrc Hp1 Hp2.
  - exists c1, c2, msg. split; [reflexivity|]. split; [reflexivity|].
    split; [reflexivity|]. split; [exact Hsrc|]. intros H. contradiction.
  - destruct (PC_handleKeyExchange_replies c1 msg pk Hpk Hp1) as (k1 & _ & _ & H1).
    cbn [key_rounds]. rewrite H1.
    set (r1 := set_priority PRIORITY_HIGH
                 (set_par "publicKey" (PString (PC.myPublicKey c1))
                    (mk "KEY_EXCHANGE" KEY_EXCHANGE (PC.addr c1) (SRC msg)))).
    destruct (PC_handleKeyExchange_replies c2 r1 (PC.myPublicKey c1) eq_refl Hp2)
      as (k2 & _ & _ & H2).
    rewrite H2.
    set (c1a := PC.with_sharedKeys (<[SRC msg := k1]> (PC.sharedKeys c1)) c1).
    set (c2a := PC.with_sharedKeys (<[SRC r1 := k2]> (PC.sharedKeys c2)) c2).
    set (r2 := set_priority PRIORITY_HIGH
                 (set_par "publicKey" (PString (PC.myPublicKey c2))
                    (mk "KEY_EXCHANGE" KEY_EXCHANGE (PC.addr c2) (SRC r1)))).
    destruct (IH c1a c2a r2 (PC.myPublicKey c2) eq_refl eq_refl Hp1 Hp2)
      as (c1' & c2' & next & Hrun & Ha1 & Ha2 & Hs & Hrest).
    exists c1', c2', next. split; [exact Hrun|].
    split; [exact Ha1|]. split; [exact Ha2|]. split; [exact Hs|].
    intros _. destruct n as [|n].
    + cbn in Hrun. injection Hrun as <- <- <-.
      subst r2 c1a c2a r1. cbn. rewrite Hsrc, !lookup_insert_eq.
      repeat split; eauto.
    + apply Hrest. discriminate.
Qed.

(** Clients 1 and 4 after two rounds. *)
Lemma client_key_exchange_never_ends_witness :
  exists c1' c2' next,
    key_rounds 2 (PC.initialize 1 2) (PC.initialize 4 2) key_exchange_from_4
    = Some (c1', c2', next)
    /\ PC.addr c1' = PC.addr (PC.initialize 1 2)
    /\ PC.addr c2' = PC.addr (PC.initialize 4 2)
    /\ SRC next = PC.addr (PC.initialize 4 2)
    /\ (2%nat <> O ->
        kind next = KEY_EXCHANGE /\ DST next = PC.addr (PC.initialize 1 2)
        /\ par_string "publicKey" next = Some (PC.myPublicKey (PC.initialize 4 2))
        /\ (exists k1, PC.sharedKeys c1' !! PC.addr (PC.initialize 4 2) = Some k1)
        /\ (exists k2, PC.sharedKeys c2' !! PC.addr (PC.initialize 1 2) = Some k2)).
Proof.
  apply (client_key_exchange_never_ends 2 (PC.initialize 1 2) (PC.initialize 4 2)
           key_exchange_from_4 (PC.myPublicKey (PC.initialize 4 2))).
  - reflexivity.
  - reflexivity.
  - vm_compute. discriminate.
  - vm_compute. discriminate.
Defined.

(** ** Unsolicited frames *)

Lemma PC_data_sent (q : string) (s1 s2 : PC.t) (peer dns : Z) (acts : list Action) :
  (if peer =? dns then PC.sendDNSDataTCP q s1 peer
   else if peer =? 601 then PC.sendDBQueryTCP s1 peer
   else PC.sendHTTPDataTCP s1 peer) = Some (s2, acts) ->
  acts <> []
  /\ PC.addr s2 = PC.addr s1
  /\ PC.tcpConnections s2
     = <[peer := PC.bump_sendSeq (PC.conn_at peer s1)]> (PC.tcpConnections s1).
Proof.
  unfold PC.sendDNSDataTCP, PC.sendDBQueryTCP, PC.sendHTTPDataTCP. cbv zeta.
  destruct (peer =? dns); [|destruct (peer =? 601)]; intros H;
    (destruct (PC.attach_encrypted _ _ _ _); cbn [mbind option_bind] in H;
     [|discriminate H]);
    injection H as <- <-; (split; [discriminate|split; reflexivity]).
Qed.

(** A SYN-ACK is answered at most once, and only when it was asked for.
    The client answers a SYN-ACK only for a peer whose connection is in
    state SYN-sent and whose cookie validates, and the connection is then
    established; in every other case it sends nothing and its state is
    unchanged.  Either way the same SYN-ACK arriving again is answered by
    nothing and changes nothing. *)
Theorem syn_ack_answered_once (qname : string) (s s' : PC.t) (msg : Frame)
    (acts : list Action) :
  PC.handleTCPSynAck qname s msg = Some (s', acts) ->
  (acts <> [] ->
   exists c cookie,
     PC.tcpConnections s !! SRC msg = Some c /\ state c = TCP_SYN_SENT
     /\ par_long "synCookie" msg = Some cookie
     /\ validateSYNCookie cookie (SRC msg) (PC.addr s) (SEQ msg) = true
     /\ exists c', PC.tcpConnections s' !! SRC msg = Some c'
                   /\ state c' = TCP_ESTABLISHED)
  /\ (acts = [] -> s' = s)
  /\ PC.handleTCPSynAck qname s' msg = Some (s', []).
Proof.
  unfold PC.handleTCPSynAck at 1. cbv zeta. intros H.
  destruct (PC.tcpConnections s !! SRC msg) as [c|] eqn:Hc.
  2:{ injection H as <- <-. split; [congruence|]. split; [reflexivity|].
      unfold PC.handleTCPSynAck. rewrite Hc. reflexivity. }
  destruct (state c) eqn:Hst;
    try (injection H as <- <-; split; [congruence|]; split; [reflexivity|];
         unfold PC.handleTCPSynAck; rewrite Hc, Hst; reflexivity).
  destruct (par_long "synCookie" msg) as [cookie|] eqn:Hpar;
    cbn [mbind option_bind] in H; [|discriminate H].
  destruct (validateSYNCookie cookie (SRC msg) (PC.addr s) (SEQ msg)) eqn:Hv.
  2:{ injection H as <- <-. split; [congruence|]. split; [reflexivity|].
      unfold PC.handleTCPSynAck. rewrite Hc, Hst, Hpar. cbn [mbind option_bind].
      rewrite Hv. reflexivity. }
  match type of H with
  | context [mbind _ ?x] => destruct x as [[s2 a2]|] eqn:E2
  end; cbn [mbind option_bind] in H; [|discriminate H].
  injection H as <- <-.
  apply (PC_data_sent qname _ s2 (SRC msg) (PC.dnsAddr s) a2) in E2.
  destruct E2 as (_ & Haddr & Hconn).
  assert (Hnew : exists c', PC.tcpConnections s2 !! SRC msg = Some c'
                            /\ state c' = TCP_ESTABLISHED).
  { rewrite Hconn, lookup_insert_eq. eexists. split; [reflexivity|].
    unfold PC.conn_at. cbn [PC.tcpConnections PC.with_tcpConnections].
    rewrite lookup_insert_eq. reflexivity. }
  split; [intros _; exists c, cookie; auto|]. split; [discriminate|].
  destruct Hnew as (c' & Hc' & Hst'). unfold PC.handleTCPSynAck.
  rewrite Hc', Hst'. reflexivity.
Qed.

(** The HTTP server serves a request that arrives as [TCP_DATA] from a
    peer with no connection (no handshake took place) and no shared key.
    The request is one the handler can read: its path is a string and its
    encrypted flag, when it has one, is a bool (set or not: without a key
    the flag is ignored).  When the priority that [PRIORITY()] reads, an
    [int], is below high, the response is queued like any other, with
    sequence and acknowledgement numbers 0, and no connection is created. *)
Theorem http_serves_without_connection (h : HTTP.t) (now : simtime_t) (sq : Z)
    (msg : Frame) (path : string) (enc : bool) :
  kind msg = TCP_DATA ->
  par_string "path" msg = Some path ->
  HTTP.isEncrypted msg = Some enc ->
  PRIORITY_int msg < PRIORITY_HIGH ->
  HTTP.tcpConnections h !! SRC msg = None ->
  HTTP.sharedKeys h !! SRC msg = None ->
  exists h1 resp,
    HTTP.handleFrame h now sq msg = Some (h1, [])
    /\ HTTP.responseQueue h1 = HTTP.pq_push resp (HTTP.responseQueue h)
    /\ HTTP.tcpConnections h1 = HTTP.tcpConnections h
    /\ (kind resp = TCP_DATA /\ SRC resp = HTTP.addr h /\ DST resp = SRC msg
        /\ SEQ resp = 0 /\ ACK resp = 0
        /\ par_long "bytes" resp = Some (HTTP.pageSizeBytes h)).
Proof.
  intros Hk Hpath Henc Hprio Hconn Hkey.
  assert (Hhas : hasPar "path" msg = true).
  { unfold hasPar. unfold par_string in Hpath.
    destruct (par_lookup "path" (pars msg)); [reflexivity|discriminate Hpath]. }
  eexists _, _. split.
  - rewrite HTTP_handleFrame_data by exact Hk.
    unfold HTTP.handleTCPData. rewrite Hhas.
    unfold HTTP.handleHTTPGet. rewrite Hpath, Henc, Hkey, Hk.
    cbn [mbind option_bind HTTP.attach_encData].
    change (TCP_DATA =? TCP_DATA) with true. cbn iota. rewrite Hconn.
    apply Z.leb_gt in Hprio. rewrite Hprio. reflexivity.
  - split; [reflexivity|]. split; [reflexivity|].
    frame_fields. repeat split; reflexivity.
Qed.

(** Client 1 handles the SYN-ACK of server 3, once and again. *)
Lemma syn_ack_answered_once_witness :
  (pc_syn_acked.2 <> [] ->
   exists c cookie,
     PC.tcpConnections pc_syn_sent !! SRC syn_ack_example = Some c
     /\ state c = TCP_SYN_SENT
     /\ par_long "synCookie" syn_ack_example = Some cookie
     /\ validateSYNCookie cookie (SRC syn_ack_example) (PC.addr pc_syn_sent)
          (SEQ syn_ack_example) = true
     /\ exists c', PC.tcpConnections pc_syn_acked.1 !! SRC syn_ack_example = Some c'
                   /\ state c' = TCP_ESTABLISHED)
  /\ (pc_syn_acked.2 = [] -> pc_syn_acked.1 = pc_syn_sent)
  /\ PC.handleTCPSynAck "example.com" pc_syn_acked.1 syn_ack_example
     = Some (pc_syn_acked.1, []).
Proof.
  apply (syn_ack_answered_once "example.com" pc_syn_sent pc_syn_acked.1
           syn_ack_example pc_syn_acked.2).
  vm_compute. reflexivity.
Defined.

(** Server 3, fresh, receives the GET of client 1 with no handshake before. *)
Lemma http_serves_without_connection_witness :
  exists h1 resp,
    HTTP.handleFrame http_server second 0 tcp_get = Some (h1, [])
    /\ HTTP.responseQueue h1 = HTTP.pq_push resp (HTTP.responseQueue http_server)
    /\ HTTP.tcpConnections h1 = HTTP.tcpConnections http_server
    /\ (kind resp = TCP_DATA /\ SRC resp = HTTP.addr http_server
        /\ DST resp = SRC tcp_get
        /\ SEQ resp = 0 /\ ACK resp = 0
        /\ par_long "bytes" resp = Some (HTTP.pageSizeBytes http_server)).
Proof.
  apply (http_serves_without_connection http_server second 0 tcp_get "/" false).
  - reflexivity.
  - reflexivity.
  - reflexivity.
  - vm_compute. reflexivity.
  - reflexivity.
  - reflexivity.
Defined.
